(** * biomedica-etl: the JSON-building stage of the PMC-OA pipeline

    A shallow embedding of [src/pmc_oa/build_json.py],
    [src/pmc_oa/download_batch.py] and [scripts/04_build_json.py]:
    caption and context extraction from an article's NXML document, the
    assembly of one article record, the shard-rotating JSON writer with
    its completion and error logs, and the batch-level resume logic.

    Conventions of the embedding.
    - Python [str] is [string]; the text is taken to be ASCII, one
      character per [ascii].
    - [None] is [option]'s [None]; a call that raises an exception caught
      by a bare [except:] is modelled by [None] as the result of the call.
    - A Python [dict] whose iteration order is observable is an association
      list with unique keys in insertion order; the directory of shard
      files is a finite map from file name to file content. *)

From Stdlib Require Import String Ascii List ZArith Lia DecimalString DecimalN.
From stdpp Require Import base option list gmap strings.
Import ListNotations.

Local Open Scope string_scope.
Local Open Scope list_scope.

(** ** Python string helpers *)

Module PyStr.

(** [str.isspace] on ASCII: TAB, LF, VT, FF, CR, FS, GS, RS, US, SPACE. *)
Definition is_space (c : ascii) : bool :=
  let n := nat_of_ascii c in
  (Nat.leb 9 n && Nat.leb n 13) || (Nat.leb 28 n && Nat.leb n 32).

Definition is_digit (c : ascii) : bool :=
  let n := nat_of_ascii c in Nat.leb 48 n && Nat.leb n 57.

Definition is_upper (c : ascii) : bool :=
  let n := nat_of_ascii c in Nat.leb 65 n && Nat.leb n 90.

Definition is_lower (c : ascii) : bool :=
  let n := nat_of_ascii c in Nat.leb 97 n && Nat.leb n 122.

Definition is_alpha (c : ascii) : bool := is_upper c || is_lower c.

(** [\w] of the [re] module on ASCII text. *)
Definition is_word (c : ascii) : bool :=
  is_alpha c || is_digit c || Ascii.eqb c "_".

Definition to_upper (c : ascii) : ascii :=
  if is_lower c then ascii_of_nat (nat_of_ascii c - 32) else c.

Definition to_lower (c : ascii) : ascii :=
  if is_upper c then ascii_of_nat (nat_of_ascii c + 32) else c.

Fixpoint map_chars (f : ascii -> ascii) (s : string) : string :=
  match s with
  | EmptyString => EmptyString
  | String c r => String (f c) (map_chars f r)
  end.

(** [str.capitalize]. *)
Definition capitalize (s : string) : string :=
  match s with
  | EmptyString => EmptyString
  | String c r => String (to_upper c) (map_chars to_lower r)
  end.

Fixpoint lstrip (s : string) : string :=
  match s with
  | EmptyString => EmptyString
  | String c r => if is_space c then lstrip r else s
  end.

Fixpoint rstrip (s : string) : string :=
  match s with
  | EmptyString => EmptyString
  | String c r =>
      match rstrip r with
      | EmptyString => if is_space c then EmptyString else String c EmptyString
      | r' => String c r'
      end
  end.

(** [str.strip()] with no argument. *)
Definition strip (s : string) : string := rstrip (lstrip s).

Fixpoint drop (n : nat) (s : string) : string :=
  match n, s with
  | O, _ => s
  | S n', String _ r => drop n' r
  | S _, EmptyString => EmptyString
  end.

Definition startswith (p s : string) : bool := String.prefix p s.

Fixpoint endswith (suffix s : string) : bool :=
  String.eqb suffix s ||
  match s with
  | EmptyString => false
  | String _ r => endswith suffix r
  end.

Fixpoint contains_char (c : ascii) (s : string) : bool :=
  match s with
  | EmptyString => false
  | String d r => Ascii.eqb c d || contains_char c r
  end.

(** [str.replace(old, new)] for a non-empty [old]: the occurrences are
    replaced from the left and do not overlap.  [skip] counts the
    characters of an occurrence that are still to be passed over. *)
Fixpoint replace_from (old new : string) (skip : nat) (s : string) : string :=
  match s with
  | EmptyString => EmptyString
  | String c r =>
      match skip with
      | S k => replace_from old new k r
      | O =>
          if String.prefix old s
          then new +:+ replace_from old new (String.length old - 1) r
          else String c (replace_from old new 0 r)
      end
  end.

Definition replace (old new s : string) : string := replace_from old new 0 s.

(** [sep.join(parts)]. *)
Fixpoint join (sep : string) (parts : list string) : string :=
  match parts with
  | [] => EmptyString
  | [p] => p
  | p :: ps => p +:+ sep +:+ join sep ps
  end.

(** [''.join(parts)]. *)
Definition concat_all (parts : list string) : string := String.concat "" parts.

(** Truthiness of a string: [if s:]. *)
Definition truthy (s : string) : bool := negb (String.eqb s "").

End PyStr.

(** ** XML element trees

    One type serves for [lxml.etree] and [xml.etree.ElementTree] trees.
    [text] and [tail] are [""] where Python has [None]: the code only
    tests them for truthiness or concatenates them.  Attribute keys are in
    ElementTree's form, a namespaced name being ["{uri}local"].  Comments
    and processing instructions are not represented. *)

#[local] Set Warnings "-register-all".

Inductive element : Type :=
  Element (tag : string) (attrib : list (string * string)) (text : string)
          (children : list element) (tail : string).

Module XML.

Definition tag (e : element) : string :=
  match e with Element t _ _ _ _ => t end.
Definition attrib (e : element) : list (string * string) :=
  match e with Element _ a _ _ _ => a end.
Definition text (e : element) : string :=
  match e with Element _ _ x _ _ => x end.
Definition children (e : element) : list element :=
  match e with Element _ _ _ cs _ => cs end.
Definition tail (e : element) : string :=
  match e with Element _ _ _ _ tl => tl end.

(** [d.get(key)] on an attribute dictionary. *)
Fixpoint get (key : string) (a : list (string * string)) : option string :=
  match a with
  | [] => None
  | (k, v) :: r => if String.eqb k key then Some v else get key r
  end.

(** [elem.set(key, value)]: an existing key keeps its position. *)
Fixpoint set (key value : string) (a : list (string * string))
  : list (string * string) :=
  match a with
  | [] => [(key, value)]
  | (k, v) :: r =>
      if String.eqb k key then (k, value) :: r else (k, v) :: set key value r
  end.

(** [elem.iter()]: the element and its descendants in document order. *)
Fixpoint iter (e : element) : list element :=
  match e with
  | Element _ _ _ cs _ => e :: flat_map iter cs
  end.

(** The descendants of [e], without [e]: the nodes a [".//name"] path
    of [find]/[findall] ranges over. *)
Definition descendants (e : element) : list element :=
  flat_map iter (children e).

(** Document order with each element's parent ([getparent()]). *)
Fixpoint walk (parent : option element) (e : element)
  : list (option element * element) :=
  match e with
  | Element _ _ _ cs _ => (parent, e) :: flat_map (walk (Some e)) cs
  end.

(** [elem.find('.//name')]. *)
Definition find_descendant (name : string) (e : element) : option element :=
  List.find (fun d => String.eqb (tag d) name) (descendants e).

(** [''.join(elem.itertext())]: the text of [e] and of its descendants
    with their tails, without the tail of [e] itself. *)
Fixpoint text_content (e : element) : string :=
  match e with
  | Element _ _ x cs _ =>
      x +:+ String.concat ""
              (List.map (fun c => text_content c +:+ tail c) cs)
  end.

(** [lxml.etree.tostring(elem, method='text', encoding='unicode')]:
    the text content followed by the tail of [elem] ([with_tail] is on
    by default). *)
Definition tostring_text (e : element) : string :=
  text_content e +:+ tail e.

End XML.

(** ** Caption extraction ([extract_caption_from_nxml]) *)

Definition xlink_href : string := "{http://www.w3.org/1999/xlink}href".

(** The identifier is pasted between apostrophes into the XPath
    expression; with an apostrophe inside it the expression is no longer
    this attribute test, and the evaluation is modelled as raising. *)
Definition xpath_literal_ok (image_identifier : string) : bool :=
  negb (PyStr.contains_char "'" image_identifier).

Definition is_graphic_for (image_identifier : string) (e : element) : bool :=
  String.eqb (XML.tag e) "graphic" &&
  match XML.get xlink_href (XML.attrib e) with
  | Some h => String.eqb h image_identifier
  | None => false
  end.

(** [tree.xpath("//graphic[@xlink:href='<id>']")], each hit with its parent. *)
Definition xpath_graphic (root : element) (image_identifier : string)
  : list (option element * element) :=
  List.filter (fun pe => is_graphic_for image_identifier (snd pe))
              (XML.walk None root).

(** [file] is the result of [etree.parse(file_path)], [None] when it
    raises (no such path, not well-formed).  The result is [None] when the
    function raises. *)
Definition extract_caption_from_nxml (file : option element)
    (image_identifier : string) : option string :=
  match file with
  | None => None
  | Some root =>
      if xpath_literal_ok image_identifier then
        let graphic := xpath_graphic root image_identifier in
        let figure := match graphic with
                      | (parent, _) :: _ => parent
                      | [] => None
                      end in
        match figure with
        | Some fig =>
            match XML.find_descendant "caption" fig with
            | Some caption => Some (PyStr.strip (XML.tostring_text caption))
            | None => Some "No caption found"
            end
        | None => Some ""
        end
      else None
  end.

(** ** Python values

    What [xmltodict.parse] returns and what [json.dump] writes: [None],
    strings, lists, and dictionaries in insertion order. *)

Inductive pyval : Type :=
| PNone
| PStr (s : string)
| PList (l : list pyval)
| PDict (d : list (string * pyval)).

Module Dict.

(** [key in d]. *)
Fixpoint mem {V} (key : string) (d : list (string * V)) : bool :=
  match d with
  | [] => false
  | (k, _) :: r => String.eqb k key || mem key r
  end.

(** [d.get(key)]; also [d[key]], [None] standing for [KeyError]. *)
Fixpoint get {V} (key : string) (d : list (string * V)) : option V :=
  match d with
  | [] => None
  | (k, v) :: r => if String.eqb k key then Some v else get key r
  end.

(** [d[key] = value]: a present key keeps its place, a new one goes last. *)
Fixpoint set {V} (key : string) (value : V) (d : list (string * V))
  : list (string * V) :=
  match d with
  | [] => [(key, value)]
  | (k, v) :: r =>
      if String.eqb k key then (k, value) :: r else (k, v) :: set key value r
  end.

(** [d.update(other)]. *)
Definition update {V} (d other : list (string * V)) : list (string * V) :=
  fold_left (fun acc kv => set (fst kv) (snd kv) acc) other d.

(** [d.pop(key, None)], the popped value dropped. *)
Fixpoint pop {V} (key : string) (d : list (string * V)) : list (string * V) :=
  match d with
  | [] => []
  | (k, v) :: r => if String.eqb k key then r else (k, v) :: pop key r
  end.

Definition keys {V} (d : list (string * V)) : list string := List.map fst d.

End Dict.

(** Truthiness of a Python value: [None], [""], [[]] and [{}] are false. *)
Definition truthy (v : pyval) : bool :=
  match v with
  | PNone => false
  | PStr s => PyStr.truthy s
  | PList l => match l with [] => false | _ => true end
  | PDict d => match d with [] => false | _ => true end
  end.

(** [v or None]. *)
Definition or_none (v : pyval) : pyval := if truthy v then v else PNone.

(** ** The platform

    Library calls whose result is fixed by the Python runtime and the
    machine rather than by this repository. *)

Inductive timestamp_result : Type :=
| TsOk (seconds : Z)      (* the call returns *)
| TsValueError            (* [strptime] rejects the string *)
| TsOtherError.           (* any other exception, e.g. [OverflowError] *)

Class Platform : Type := {
  (** [ET.tostring(elem, encoding='unicode', method='xml')] *)
  et_tostring : element -> string;
  (** [repr(v)] of a list or a dictionary *)
  py_repr : pyval -> string;
  (** [int(datetime.strptime(s, '%Y %m %d').timestamp())], in local time *)
  strptime_timestamp : string -> timestamp_result
}.

(** ** Context extraction ([extract_context] and its helpers) *)

(** [normalize_id]. *)
Definition normalize_id (rid : option string) : option string :=
  match rid with
  | Some r =>
      if PyStr.truthy r then Some (PyStr.replace "-" "." (PyStr.strip r))
      else None
  | None => None
  end.

(** [os.path.basename]: what follows the last slash. *)
Fixpoint basename (p : string) : string :=
  match p with
  | EmptyString => EmptyString
  | String _ r => if PyStr.contains_char "/" p then basename r else p
  end.

(** An element of a tree is named by its path from the root: the child
    indices on the way down.  Python compares elements by identity, and
    [elem.set] updates the one tree that every reference shares; here the
    tree is threaded through and the paths stay valid, since only
    attribute values change. *)
Definition path : Type := list nat.

Module Tree.

(** [root.iter()] with the path of each element. *)
Fixpoint iter_paths (here : path) (e : element) {struct e}
  : list (path * element) :=
  match e with
  | Element _ _ _ cs _ =>
      (here, e) ::
      (fix over (i : nat) (l : list element) {struct l} :=
         match l with
         | [] => []
         | c :: r => iter_paths (here ++ [i]) c ++ over (S i) r
         end) 0 cs
  end.

Fixpoint get_at (e : element) (p : path) : option element :=
  match p with
  | [] => Some e
  | i :: r =>
      match nth_error (XML.children e) i with
      | Some c => get_at c r
      | None => None
      end
  end.

(** The tree with the subtree at [p] replaced by [new]. *)
Fixpoint set_at (e : element) (p : path) (new : element) : element :=
  match p with
  | [] => new
  | i :: r =>
      match e with
      | Element t a x cs tl =>
          match nth_error cs i with
          | Some c => Element t a x (<[i := set_at c r new]> cs) tl
          | None => e
          end
      end
  end.

(** [root.findall(".//name...")]: the descendants that satisfy [test],
    in document order, the root itself left out. *)
Definition findall (test : element -> bool) (root : element) : list path :=
  List.map fst
    (List.filter (fun pe => test (snd pe)) (List.tl (iter_paths [] root))).

End Tree.

Definition is_fig_xref (e : element) : bool :=
  String.eqb (XML.tag e) "xref" &&
  match XML.get "ref-type" (XML.attrib e) with
  | Some t => String.eqb t "fig"
  | None => false
  end.

(** [map_rid_to_image], on the freshly parsed document. *)
Definition map_rid_to_image (root : element) : gmap string string :=
  fold_left
    (fun rid_to_image fig =>
       match normalize_id (XML.get "id" (XML.attrib fig)),
             XML.find_descendant "graphic" fig with
       | Some rid, Some graphic =>
           if PyStr.truthy rid then
             match XML.get xlink_href (XML.attrib graphic) with
             | Some image_path =>
                 if PyStr.truthy image_path
                 then <[rid := basename image_path]> rid_to_image
                 else rid_to_image
             | None => rid_to_image
             end
           else rid_to_image
       | _, _ => rid_to_image
       end)
    (List.filter (fun e => String.eqb (XML.tag e) "fig") (XML.descendants root))
    ∅.

(** [find_parent(root, child)]: the elements of [root.iter()] are tried in
    order; one is returned when [child] is among its children and its tag
    is [p]. *)
Definition find_parent (root : element) (child : path) : option path :=
  match
    List.find
      (fun pe =>
         existsb (fun i => bool_decide (fst pe ++ [i] = child))
                 (seq 0 (length (XML.children (snd pe))))
         && String.eqb (XML.tag (snd pe)) "p")
      (Tree.iter_paths [] root)
  with
  | Some (pp, _) => Some pp
  | None => None
  end.

Section Context_extraction.

Context `{Platform}.

(** [process_element] inside [clean_paragraph_except_xref]: the parts
    appended to [cleaned_parts], and the element as the call leaves it.
    A figure reference is serialised right after its [rid] is rewritten,
    before its children are visited. *)
Fixpoint process_element (rid_to_image_map : gmap string string)
    (elem : element) {struct elem} : list string * element :=
  match elem with
  | Element t a x cs tl =>
      let '(own, a') :=
        if is_fig_xref elem then
          match normalize_id (XML.get "rid" a) with
          | Some rid =>
              match rid_to_image_map !! rid with
              | Some image =>
                  let a' := XML.set "rid" image a in
                  ([et_tostring (Element t a' x cs tl)], a')
              | None => ([], a)
              end
          | None => ([], a)
          end
        else ((if PyStr.truthy x then [x] else []), a) in
      let '(below, cs') :=
        (fix over (l : list element) {struct l} : list string * list element :=
           match l with
           | [] => ([], [])
           | c :: r =>
               let '(pc, c') := process_element rid_to_image_map c in
               let '(pr, r') := over r in
               (pc ++ pr, c' :: r')
           end) cs in
      (own ++ below ++ (if PyStr.truthy tl then [tl] else []),
       Element t a' x cs' tl)
  end.

(** [clean_paragraph_except_xref]: the cleaned text and the paragraph
    after the call. *)
Definition clean_paragraph_except_xref (paragraph : element)
    (rid_to_image_map : gmap string string) : string * element :=
  let '(cleaned_parts, paragraph') :=
    process_element rid_to_image_map paragraph in
  (PyStr.concat_all cleaned_parts, paragraph').

(** [combine_paragraphs]; every entry of [paragraphs] is a one-key
    dictionary, given here as the pair of its key and value. *)
Definition combine_paragraphs (paragraphs : list (string * string))
  : list (string * list string) :=
  fold_left
    (fun combined_dict entry =>
       let '(image_id, paragraph) := entry in
       let combined_dict :=
         if Dict.mem image_id combined_dict then combined_dict
         else Dict.set image_id [] combined_dict in
       match Dict.get image_id combined_dict with
       | Some ps => Dict.set image_id (ps ++ [paragraph]) combined_dict
       | None => combined_dict
       end)
    paragraphs [].

(** [remove_duplicates]: the accumulator holds [unique_paragraphs]; the
    set [seen] has the same members. *)
Definition remove_duplicates (paragraphs : list string) : list string :=
  fold_left
    (fun unique_paragraphs paragraph =>
       if existsb (String.eqb paragraph) unique_paragraphs
       then unique_paragraphs
       else unique_paragraphs ++ [paragraph])
    paragraphs [].

(** One turn of the loop over the figure references of
    [extract_context]; the state is the tree and [paragraphs]. *)
Definition context_step (id_map : gmap string string)
    (st : element * list (string * string)) (xref : path)
  : element * list (string * string) :=
  let '(root, paragraphs) := st in
  match Tree.get_at root xref with
  | None => st
  | Some x =>
      match normalize_id (XML.get "rid" (XML.attrib x)) with
      | Some rid =>
          match (if PyStr.truthy rid then id_map !! rid else None) with
          | Some image =>
              match find_parent root xref with
              | Some pp =>
                  match Tree.get_at root pp with
                  | Some parent_paragraph =>
                      let '(cleaned_paragraph, parent_paragraph') :=
                        clean_paragraph_except_xref parent_paragraph id_map in
                      (Tree.set_at root pp parent_paragraph',
                       paragraphs ++ [(image, cleaned_paragraph)])
                  | None => st
                  end
              | None => st
              end
          | None => st
          end
      | None => st
      end
  end.

(** [extract_context(nxml_path, remove_redundant)] on the parsed
    document. *)
Definition extract_context_with (remove_redundant : bool) (root : element)
  : list (string * list string) :=
  let id_map := map_rid_to_image root in
  let '(_, paragraphs) :=
    fold_left (context_step id_map) (Tree.findall is_fig_xref root)
              (root, []) in
  let combined_dict := combine_paragraphs paragraphs in
  if remove_redundant
  then List.map (fun kv => (fst kv, remove_duplicates (snd kv))) combined_dict
  else combined_dict.

Definition extract_context (root : element) : list (string * list string) :=
  extract_context_with true root.

End Context_extraction.

(** ** A concrete platform

    CPython 3.8 or later on a machine whose local time is UTC. *)

Module CPython.

Definition dquote : string := String "034"%char EmptyString.

Fixpoint escape (table : ascii -> option string) (s : string) : string :=
  match s with
  | EmptyString => EmptyString
  | String c r =>
      match table c with
      | Some e => e +:+ escape table r
      | None => String c (escape table r)
      end
  end.

(** [_escape_cdata] of [xml.etree.ElementTree]. *)
Definition escape_cdata : string -> string :=
  escape (fun c =>
    if Ascii.eqb c "&" then Some "&amp;"
    else if Ascii.eqb c "<" then Some "&lt;"
    else if Ascii.eqb c ">" then Some "&gt;"
    else None).

(** [_escape_attrib] of [xml.etree.ElementTree]. *)
Definition escape_attrib : string -> string :=
  escape (fun c =>
    if Ascii.eqb c "&" then Some "&amp;"
    else if Ascii.eqb c "<" then Some "&lt;"
    else if Ascii.eqb c ">" then Some "&gt;"
    else if Ascii.eqb c "034" then Some "&quot;"
    else if Ascii.eqb c "013" then Some "&#13;"
    else if Ascii.eqb c "010" then Some "&#10;"
    else if Ascii.eqb c "009" then Some "&#09;"
    else None).

(** [_serialize_xml] for element and attribute names without a
    namespace: attributes in dictionary order, an element with neither
    text nor children in the short form, the tail after the element. *)
Fixpoint serialize_xml (e : element) : string :=
  match e with
  | Element t a x cs tl =>
      "<" +:+ t +:+
      String.concat ""
        (List.map (fun kv => " " +:+ fst kv +:+ "=" +:+ dquote +:+
                             escape_attrib (snd kv) +:+ dquote) a)
      +:+ (if PyStr.truthy x || negb (Nat.eqb (length cs) 0)
           then ">" +:+ escape_cdata x +:+
                String.concat "" (List.map serialize_xml cs) +:+
                "</" +:+ t +:+ ">"
           else " />")
      +:+ escape_cdata tl
  end.

Definition hex_digit (n : nat) : ascii :=
  if Nat.ltb n 10 then ascii_of_nat (48 + n) else ascii_of_nat (87 + n).

(** One character inside [repr] of a string delimited by [quote]. *)
Definition repr_char (quote c : ascii) : string :=
  let n := nat_of_ascii c in
  if Ascii.eqb c "\" then "\\"
  else if Ascii.eqb c quote then String "\" (String c EmptyString)
  else if Ascii.eqb c "010" then "\n"
  else if Ascii.eqb c "013" then "\r"
  else if Ascii.eqb c "009" then "\t"
  else if Nat.ltb n 32 || Nat.eqb n 127
  then "\x" +:+ String (hex_digit (n / 16)) (String (hex_digit (n mod 16)) EmptyString)
  else String c EmptyString.

Fixpoint repr_chars (quote : ascii) (s : string) : string :=
  match s with
  | EmptyString => EmptyString
  | String c r => repr_char quote c +:+ repr_chars quote r
  end.

(** [repr] of a string: double quotes only when the string has an
    apostrophe and no double quote. *)
Definition repr_str (s : string) : string :=
  let quote : ascii :=
    if PyStr.contains_char "'" s && negb (PyStr.contains_char "034" s)
    then "034"%char else "'"%char in
  String quote (repr_chars quote s +:+ String quote EmptyString).

Fixpoint repr (v : pyval) : string :=
  match v with
  | PNone => "None"
  | PStr s => repr_str s
  | PList l => "[" +:+ PyStr.join ", " (List.map repr l) +:+ "]"
  | PDict d =>
      "{" +:+
      PyStr.join ", "
        ((fix items (d : list (string * pyval)) : list string :=
            match d with
            | [] => []
            | (k, x) :: r => (repr_str k +:+ ": " +:+ repr x) :: items r
            end) d)
      +:+ "}"
  end.

Fixpoint digits_value (acc : Z) (s : string) : option Z :=
  match s with
  | EmptyString => Some acc
  | String c r =>
      if PyStr.is_digit c
      then digits_value (10 * acc + Z.of_nat (nat_of_ascii c - 48)) r
      else None
  end.

Definition is_leap (y : Z) : bool :=
  ((y mod 4 =? 0) && negb (y mod 100 =? 0) || (y mod 400 =? 0))%Z.

Definition days_in_month (y m : Z) : Z :=
  (if (m =? 2) then (if is_leap y then 29 else 28)
   else if (m =? 4) || (m =? 6) || (m =? 9) || (m =? 11) then 30
   else 31)%Z.

(** Days from 1970-01-01 to the given day of the proleptic Gregorian
    calendar. *)
Definition days_from_civil (y m d : Z) : Z :=
  (let y' := if m <=? 2 then y - 1 else y in
   let era := y' / 400 in
   let yoe := y' - era * 400 in
   let doy := (153 * (if 2 <? m then m - 3 else m + 9) + 2) / 5 + d - 1 in
   let doe := yoe * 365 + yoe / 4 - yoe / 100 + doy in
   era * 146097 + doe - 719468)%Z.

(** [strptime] with ['%Y %m %d'] on the strings [extract_date_from_citation]
    produces (four, two and two digits), then [timestamp()] in UTC. *)
Definition utc_timestamp (s : string) : timestamp_result :=
  match digits_value 0 (String.substring 0 4 s),
        digits_value 0 (String.substring 5 2 s),
        digits_value 0 (String.substring 8 2 s) with
  | Some y, Some m, Some d =>
      if (Nat.eqb (String.length s) 10
          && String.eqb (String.substring 4 1 s) " "
          && String.eqb (String.substring 7 1 s) " "
          && (1 <=? y) && (1 <=? m) && (m <=? 12)
          && (1 <=? d) && (d <=? days_in_month y m))%Z
      then TsOk (days_from_civil y m d * 86400)
      else TsValueError
  | _, _, _ => TsValueError
  end.

#[export] Instance platform : Platform := {|
  et_tostring := serialize_xml;
  py_repr := repr;
  strptime_timestamp := utc_timestamp
|}.

End CPython.


(** ** Decimal numerals ([str(n)], [int(s)] and zero-padded formats) *)

Definition str_of_N (n : N) : string := NilEmpty.string_of_uint (N.to_uint n).

Definition str_of_Z (z : Z) : string :=
  if (z <? 0)%Z then "-" +:+ str_of_N (Z.abs_N z) else str_of_N (Z.to_N z).

(** [int(s)] for a string of decimal digits. *)
Definition int_of_digits (s : string) : N :=
  match NilEmpty.uint_of_string s with
  | Some d => N.of_uint d
  | None => 0%N
  end.

(** [f"{n:0<width>d}"] for [n >= 0]. *)
Definition zero_pad (width : nat) (n : N) : string :=
  let d := str_of_N n in
  String.concat "" (repeat "0" (width - String.length d)) +:+ d.

(** ** Citation-derived fields *)

Module CitationFields.

(** The class [[A-Za-z\s().,-]]. *)
Definition journal_char (c : ascii) : bool :=
  PyStr.is_alpha c || PyStr.is_space c || PyStr.contains_char c "().,-".

Definition journal_stop (c : ascii) : bool := PyStr.contains_char c ".;".

(** The lazy [+?] after its first character: stop at the first position
    where [[.;]] matches, go on over class characters otherwise. *)
Fixpoint journal_rest (s : string) : option string :=
  match s with
  | EmptyString => None
  | String d r =>
      if journal_stop d then Some EmptyString
      else if journal_char d then String d <$> journal_rest r
      else None
  end.

(** Group 1 of [re.match(r"([A-Za-z\s().,-]+?)[.;]", citation)]. *)
Definition journal_group (citation : string) : option string :=
  match citation with
  | EmptyString => None
  | String c r => if journal_char c then String c <$> journal_rest r else None
  end.

(** [extract_journal]. *)
Definition extract_journal (citation : string) : option string :=
  PyStr.strip <$> journal_group citation.

(** [citation.split('. ', 1)[1]], [None] when the separator is absent. *)
Fixpoint after_first_dot_space (s : string) : option string :=
  match s with
  | EmptyString => None
  | String c r =>
      if String.prefix ". " s then Some (PyStr.drop 1 r)
      else after_first_dot_space r
  end.

(** [\b\d{4}\b] at the head of [s]; [prev_word] tells whether the
    character before it is a word character. *)
Definition year_here (prev_word : bool) (s : string) : option (string * string) :=
  match s with
  | String a (String b (String c (String d r))) =>
      if negb prev_word
         && PyStr.is_digit a && PyStr.is_digit b
         && PyStr.is_digit c && PyStr.is_digit d
         && negb (match r with
                  | String e _ => PyStr.is_word e
                  | EmptyString => false
                  end)
      then Some (String a (String b (String c (String d EmptyString))), r)
      else None
  | _ => None
  end.

(** The leftmost position where the year matches: the four digits and
    what follows them. *)
Fixpoint search_year (prev_word : bool) (s : string) : option (string * string) :=
  match year_here prev_word s with
  | Some found => Some found
  | None =>
      match s with
      | EmptyString => None
      | String c r => search_year (PyStr.is_word c) r
      end
  end.

(** [\s+], greedy. *)
Definition spaces1 (s : string) : option string :=
  match s with
  | String c r => if PyStr.is_space c then Some (PyStr.lstrip r) else None
  | EmptyString => None
  end.

(** At most [n] leading characters that satisfy [p], and the rest. *)
Fixpoint take_upto (n : nat) (p : ascii -> bool) (s : string) : string * string :=
  match n, s with
  | S k, String c r =>
      if p c then let '(t, u) := take_upto k p r in (String c t, u)
      else (EmptyString, s)
  | _, _ => (EmptyString, s)
  end.

(** [(?:\s+([A-Za-z]{3,6}))?]: the group and the rest, [None] when the
    optional part does not match. *)
Definition month_group (s : string) : option (string * string) :=
  match spaces1 s with
  | Some r =>
      let '(letters, rest) := take_upto 6 PyStr.is_alpha r in
      if Nat.leb 3 (String.length letters) then Some (letters, rest) else None
  | None => None
  end.

(** [(?:\s+(\d{1,2}))?]. *)
Definition day_group (s : string) : option string :=
  match spaces1 s with
  | Some r =>
      let '(digits, _) := take_upto 2 PyStr.is_digit r in
      if Nat.leb 1 (String.length digits) then Some digits else None
  | None => None
  end.

(** Groups 1, 2 and 3 of the [re.search] of [extract_date_from_citation]. *)
Definition date_pattern (after_title : string)
  : option (string * option string * option string) :=
  match search_year false after_title with
  | Some (year, rest) =>
      match month_group rest with
      | Some (month, rest') => Some (year, Some month, day_group rest')
      | None => Some (year, None, day_group rest)
      end
  | None => None
  end.

Definition months : list (string * N) :=
  [("Jan", 1); ("Feb", 2); ("Mar", 3); ("Apr", 4); ("May", 5); ("Jun", 6);
   ("Jul", 7); ("Aug", 8); ("Sep", 9); ("Oct", 10); ("Nov", 11); ("Dec", 12)]%N.

(** [parse_month_str]; [None] is the [KeyError] (or [ValueError]). *)
Definition parse_month_str (month_str : string) : option N :=
  if PyStr.truthy month_str
  then Dict.get (PyStr.capitalize month_str) months
  else None.

Definition seasons : list (string * N) :=
  [("Spring", 3); ("Summer", 6); ("Autumn", 9); ("Fall", 9); ("Winter", 12)]%N.

(** [parse_season_to_month]. *)
Definition parse_season_to_month (season : string) : N :=
  default 1%N (Dict.get (PyStr.capitalize season) seasons).

Definition season_names : list string :=
  ["Spring"; "Summer"; "Autumn"; "Fall"; "Winter"].

(** [extract_date_from_citation] with the default month and day.  The
    outer [None] is an exception, the inner one the returned [None]. *)
Definition extract_date_from_citation (citation : string)
  : option (option string) :=
  match after_first_dot_space citation with
  | None => Some None
  | Some after_title =>
      match date_pattern after_title with
      | None => Some None
      | Some (year_str, month_or_season, day_str) =>
          let year := int_of_digits year_str in
          month ←
            match month_or_season with
            | Some m =>
                if existsb (String.eqb m) season_names
                then Some (parse_season_to_month m)
                else parse_month_str m
            | None => Some 1%N
            end;
          let day := match day_str with
                     | Some d => int_of_digits d
                     | None => 1%N
                     end in
          Some (Some (zero_pad 4 year +:+ " " +:+ zero_pad 2 month
                      +:+ " " +:+ zero_pad 2 day))
      end
  end.

Section With_platform.
Context `{Platform}.

(** [ensure_unix]; the outer [None] is an exception other than
    [ValueError] escaping from the conversion. *)
Definition ensure_unix (date_string : option string) : option (option string) :=
  match date_string with
  | None => Some None
  | Some s =>
      match strptime_timestamp s with
      | TsOk unix_time => Some (Some (str_of_Z unix_time))
      | TsValueError => Some (Some s)
      | TsOtherError => None
      end
  end.
End With_platform.

End CitationFields.

(** One row of the manifest, as [path_generator] yields it. *)
Record article_row : Type := {
  File : string;
  Citation : string;
  Accession_ID : string;
  Date : string;
  License : string;
  PMID : string
}.

(** [x if x != "" else None] as a Python value. *)
Definition str_or_none (s : string) : pyval :=
  if String.eqb s "" then PNone else PStr s.

Definition of_option (o : option string) : pyval :=
  match o with
  | Some s => PStr s
  | None => PNone
  end.

Section Filelist_row.
Context `{Platform}.

(** [extract_info_from_filelist_row] for a row of [path_generator] (a
    dictionary with all six keys, hence true as a condition). *)
Definition extract_info_from_filelist_row (row : article_row)
  : list (string * pyval) :=
  let journal := CitationFields.extract_journal (Citation row) in
  let date := default None (CitationFields.extract_date_from_citation (Citation row)) in
  let date_unix := default None (CitationFields.ensure_unix date) in
  [ ("accession_id", str_or_none (Accession_ID row));
    ("citation", str_or_none (Citation row));
    ("license", str_or_none (License row));
    ("date", of_option date_unix);
    ("journal", of_option journal);
    ("pmid", str_or_none (PMID row)) ].

End Filelist_row.

(** ** Bibliographic metadata ([extract_metadata_from_nxml]) *)

(** [search_nested_dict(d, key)] for a dictionary [v]: the value under
    [key] at this level if the key is there, otherwise the first result
    other than [None] among the values that are dictionaries. *)
Fixpoint search_nested_dict (v : pyval) (key : string) {struct v} : pyval :=
  match v with
  | PDict d =>
      match Dict.get key d with
      | Some x => x
      | None =>
          (fix over (items : list (string * pyval)) {struct items} : pyval :=
             match items with
             | [] => PNone
             | (_, x) :: r =>
                 match x with
                 | PDict _ =>
                     match search_nested_dict x key with
                     | PNone => over r
                     | result => result
                     end
                 | _ => over r
                 end
             end) d
      end
  | _ => PNone
  end.

(** [next((item['#text'] for item in pub_ids
          if item.get('@pub-id-type') == 'pmid'), None)];
    [None] when the generator raises. *)
Fixpoint first_pmid (items : list pyval) : option pyval :=
  match items with
  | [] => Some PNone
  | PDict d :: r =>
      match Dict.get "@pub-id-type" d with
      | Some (PStr "pmid") => Dict.get "#text" d
      | _ => first_pmid r
      end
  | _ :: _ => None
  end.

Definition pmid_of_pub_ids (pub_ids : pyval) : option pyval :=
  match pub_ids with
  | PNone => None                                  (* not iterable *)
  | PStr s => if PyStr.truthy s then None else Some PNone
  | PList l => first_pmid l
  | PDict d => match d with [] => Some PNone | _ => None end
  end.

(** [x['article-title']]. *)
Definition article_title_of (title_group : pyval) : option pyval :=
  match title_group with
  | PDict d => Dict.get "article-title" d
  | _ => None
  end.

Section Metadata.
Context `{Platform}.

(** [str(v)]. *)
Definition py_str (v : pyval) : string :=
  match v with
  | PNone => "None"
  | PStr s => s
  | _ => py_repr v
  end.

(** [ensure_title]. *)
Definition ensure_title (title : pyval) : pyval :=
  match title with
  | PNone => PNone
  | PStr s => PStr s
  | PDict d =>
      PStr (PyStr.join " "
              (List.map (fun kv =>
                           match snd kv with
                           | PList l => PyStr.join " " (List.map py_str l)
                           | value => py_str value
                           end) d))
  | PList _ => PStr (py_str title)
  end.

(** The first [try] block of [extract_metadata_from_nxml]: title,
    keyword, pmid and article categories, [None] when it raises. *)
Definition metadata_fields (xml_content : pyval)
  : option (pyval * pyval * pyval * pyval) :=
  title ← or_none <$> article_title_of (search_nested_dict xml_content "title-group");
  let keyword := or_none (search_nested_dict xml_content "kwd") in
  let pub_ids := search_nested_dict xml_content "article-id" in
  pmid ← pmid_of_pub_ids pub_ids;
  let article_categories :=
    or_none (search_nested_dict xml_content "article-categories") in
  Some (title, keyword, pmid, article_categories).

(** [extract_metadata_from_nxml]; [xml_content] is the result of
    [xmltodict.parse] on the file, [None] when opening, decoding or
    parsing raises, and then the function raises. *)
Definition extract_metadata_from_nxml (xml_content : option pyval)
  : option (list (string * pyval)) :=
  match xml_content with
  | None => None
  | Some content =>
      let '(title, keyword, pmid, article_categories) :=
        default (PNone, PNone, PNone, PNone) (metadata_fields content) in
      let title := ensure_title title in
      Some [ ("title", title);
             ("keyword", keyword);
             ("pmid", pmid);
             ("article_categories", article_categories);
             ("abstract", PNone);
             ("mesh", PNone) ]
  end.

End Metadata.

(** [default_article_dict]. *)
Definition default_article_dict : list (string * pyval) :=
  [ ("accession_id", PNone);
    ("citation", PNone);
    ("license", PNone);
    ("date", PNone);
    ("journal", PNone);
    ("title", PNone);
    ("abstract", PNone);
    ("keyword", PNone);
    ("pmid", PNone);
    ("article_categories", PNone);
    ("mesh", PNone);
    ("figure_set", PNone);
    ("context", PNone);
    ("nxml", PNone) ].

(** ** The media directory of an article *)

(** A regular file, by what the readers used here make of it:
    [etree.parse]/[ET.parse] ([None]: not well-formed), [xmltodict.parse]
    of the decoded text ([None]: it raises), [hash_image] ([None]: it
    raises). *)
Record file : Type := {
  xml : option element;
  xmltodict : option pyval;
  image_hash : option string
}.

Inductive dir_entry : Type :=
| Subdirectory (name : string)
| RegularFile (name : string) (content : file).

(** [os.listdir(path)]: the entries in listing order, or the text of the
    [OSError] it raises. *)
Inductive listing : Type :=
| Listed (entries : list dir_entry)
| ListError (message : string).

(** [PurePath(p).name]: the last component, empty and [.] components
    dropped. *)
Fixpoint split_slash (acc : string) (s : string) : list string :=
  match s with
  | EmptyString => [acc]
  | String c r =>
      if Ascii.eqb c "/" then acc :: split_slash EmptyString r
      else split_slash (acc +:+ String c EmptyString) r
  end.

Definition path_name (p : string) : string :=
  List.last
    (List.filter (fun c => negb (String.eqb c "" || String.eqb c "."))
                 (split_slash EmptyString p))
    EmptyString.

(** [os.path.join(directory, entry)], and [directory / name]. *)
Definition path_join (directory entry : string) : string :=
  if String.eqb entry "" then directory else directory +:+ "/" +:+ entry.

(** What precedes the last dot of [s], if [s] has a dot. *)
Fixpoint before_last_dot (s : string) : option string :=
  match s with
  | EmptyString => None
  | String c r =>
      match before_last_dot r with
      | Some p => Some (String c p)
      | None => if Ascii.eqb c "." then Some EmptyString else None
      end
  end.

Fixpoint all_dots (s : string) : bool :=
  match s with
  | EmptyString => true
  | String c r => Ascii.eqb c "." && all_dots r
  end.

(** [os.path.splitext(name)[0]] for a name without a slash: leading dots
    do not start an extension. *)
Definition splitext_root (name : string) : string :=
  match before_last_dot name with
  | Some p => if all_dots p then name else p
  | None => name
  end.

(** The regular files of a listing whose name ends with [suffix], each
    with its full path. *)
Definition files_with_suffix (suffix directory : string) (entries : list dir_entry)
  : list (string * file) :=
  flat_map (fun e =>
              match e with
              | RegularFile name content =>
                  if PyStr.endswith suffix name
                  then [(path_join directory name, content)] else []
              | Subdirectory _ => []
              end) entries.

(** [get_nxml_path]: the first [.nxml] file, or the error of [os.listdir],
    which the function lets through. *)
Definition get_nxml_path (directory : string) (l : listing)
  : string + option (string * file) :=
  match l with
  | ListError message => inl message
  | Listed entries => inr (List.head (files_with_suffix ".nxml" directory entries))
  end.

(** [get_image_paths]: the [.jpg] files, [None] when there is none or
    when the listing fails. *)
Definition get_image_paths (directory : string) (l : listing)
  : option (list (string * file)) :=
  match l with
  | ListError _ => None
  | Listed entries =>
      match files_with_suffix ".jpg" directory entries with
      | [] => None
      | image_file_paths => Some image_file_paths
      end
  end.

(** [get_image_identifier]. *)
Definition get_image_identifier (list_of_path_to_image : option (list (string * file)))
  : option (list string) :=
  match list_of_path_to_image with
  | None | Some [] => None
  | Some paths => Some (List.map (fun pf => splitext_root (basename (fst pf))) paths)
  end.

(** ** Assembling one article record ([build_nxml_metadata]) *)

(** [Path(file_path).name.replace('.tar.gz', '')]. *)
Definition pmcid_of (file_path : string) : string :=
  PyStr.replace ".tar.gz" "" (path_name file_path).

(** [out_dir / pmcid]. *)
Definition path_to_media (out_dir file_path : string) : string :=
  path_join out_dir (pmcid_of file_path).

Inductive outcome (A : Type) : Type :=
| Returned (value : A)
| Raised (message : string).
Arguments Returned {A} value.
Arguments Raised {A} message.

Section Build_nxml_metadata.
Context `{Platform}.

(** One entry of [figure_set]. *)
Definition image_dict (path_to_nxml : option (string * file))
    (id : string) (image : string * file) : pyval :=
  let caption :=
    extract_caption_from_nxml (path_to_nxml ≫= (fun pf => xml (snd pf))) id in
  let image_path := fst image in
  let hash := image_hash (snd image) in
  PDict [ ("image_id", str_or_none id);
          ("image_file_name",
            if PyStr.truthy image_path then PStr (basename image_path) else PNone);
          ("image_path", str_or_none image_path);
          ("caption",
            match caption with
            | Some c => if PyStr.truthy c then PStr c else PNone
            | None => PNone
            end);
          ("hash", of_option hash) ].

Definition context_value (context_dict : list (string * list string)) : pyval :=
  PDict (List.map (fun kv => (fst kv, PList (List.map PStr (snd kv)))) context_dict).

(** The [figure_set] block of [build_nxml_metadata]: one entry per image
    identifier, with the image path of the same index. *)
Definition build_figure_set (path_to_nxml : option (string * file))
    (path_to_images : option (list (string * file))) : list pyval :=
  match get_image_identifier path_to_images, path_to_images with
  | Some image_ids, Some paths =>
      List.map (fun ip => image_dict path_to_nxml (fst ip) (snd ip))
               (List.combine image_ids paths)
  | _, _ => []
  end.

(** [build_nxml_metadata]; [out_dir] is the media directory of the
    licence and [listdir] the state of the file system below it.  The
    fallbacks for an exception in [extract_info_from_filelist_row] and in
    the figure-set block are left out: neither raises. *)
Definition build_nxml_metadata (listdir : string -> listing) (out_dir : string)
    (file_path : string) (row : article_row)
  : outcome (list (string * pyval)) :=
  let path_to_media := path_to_media out_dir file_path in
  match get_nxml_path path_to_media (listdir path_to_media) with
  | inl message => Raised message
  | inr path_to_nxml =>
      let path_to_images := get_image_paths path_to_media (listdir path_to_media) in
      let filelist_dict := extract_info_from_filelist_row row in
      let figure_set := build_figure_set path_to_nxml path_to_images in
      let document := path_to_nxml ≫= (fun pf => xml (snd pf)) in
      let nxml := of_option (XML.text_content <$> document) in
      let nxml_metadata :=
        default [ ("title", PNone); ("keyword", PNone); ("pmid", PNone);
                  ("article_categories", PNone); ("abstract", PNone);
                  ("mesh", PNone) ]
                (extract_metadata_from_nxml
                   (path_to_nxml ≫= (fun pf => xmltodict (snd pf)))) in
      let nxml_metadata :=
        match Dict.get "pmid" filelist_dict with
        | Some PNone | None => nxml_metadata
        | Some _ => Dict.pop "pmid" nxml_metadata
        end in
      let context_dict :=
        match extract_context <$> document with
        | Some c => context_value c
        | None => PNone
        end in
      let article := Dict.update [] filelist_dict in
      let article := Dict.update article nxml_metadata in
      let article := Dict.set "figure_set" (PList figure_set) article in
      let article := Dict.set "context" context_dict article in
      let article := Dict.set "nxml" nxml article in
      Returned article
  end.

(** The record [build_json] writes for an item: the assembled record, or
    the default record when the assembly raises. *)
Definition emitted_record (listdir : string -> listing) (out_dir : string)
    (row : article_row) : list (string * pyval) :=
  match build_nxml_metadata listdir out_dir ("/pub/pmc/" +:+ File row) row with
  | Returned article => article
  | Raised _ => default_article_dict
  end.

End Build_nxml_metadata.

(** ** The shard writer and the per-item loop ([build_json]) *)

(** A file of the JSON directory, as [json.load] sees it.  A file that
    holds JSON other than an array is not represented: the program only
    ever writes arrays. *)
Inductive shard_file : Type :=
| ZeroSize                          (* [st_size == 0] *)
| JsonArray (records : list pyval)
| NotJson (error : string).         (* [json.JSONDecodeError], with its text *)

(** What persists between runs: the JSON directory of the licence (file
    name to content) and the two CSV logs, [None] while a log file does
    not exist, otherwise its rows below the header line. *)
Record disk : Type := {
  json_dir : gmap string shard_file;
  error_log : option (list (article_row * string));
  complete_log : option (list (string * string))
}.

(** [current_data], as loaded from the file behind [json_file_path]:
    [[]] for a file of size zero and for one that does not decode. *)
Definition load_current_data (content : shard_file) : list pyval :=
  match content with
  | JsonArray records => records
  | ZeroSize | NotJson _ => []
  end.

(** [create_log_file] followed by [append_row_to_csv]. *)
Definition log_append {A} (log : option (list A)) (row : A) : option (list A) :=
  Some (default [] log ++ [row]).

(** The longest prefix of characters that satisfy [p], and the rest. *)
Fixpoint span (p : ascii -> bool) (s : string) : string * string :=
  match s with
  | EmptyString => (EmptyString, EmptyString)
  | String c r =>
      if p c then let '(t, u) := span p r in (String c t, u)
      else (EmptyString, s)
  end.

(** The string consists of decimal digits. *)
Fixpoint all_digits (s : string) : bool :=
  match s with
  | EmptyString => true
  | String c r => PyStr.is_digit c && all_digits r
  end.

(** [pattern.match(filename)] for
    [re.compile(rf'{re.escape(filelist_name)}_(\d+)\.json')], and
    [int(match.group(1))]: the name is matched from its start, and
    anything may follow [.json]. *)
Definition match_version (filelist_name filename : string) : option N :=
  let stem := filelist_name +:+ "_" in
  if String.prefix stem filename then
    let '(digits, rest) :=
      span PyStr.is_digit (PyStr.drop (String.length stem) filename) in
    if PyStr.truthy digits && String.prefix ".json" rest
    then Some (int_of_digits digits) else None
  else None.

(** The loop of [get_next_index]: the value of [max_version] after the
    names of the listing, from its value before. *)
Definition max_version (filelist_name : string) (filenames : list string)
    (start : Z) : Z :=
  fold_left
    (fun max_version filename =>
       match match_version filelist_name filename with
       | Some version => Z.max max_version (Z.of_N version)
       | None => max_version
       end)
    filenames start.

(** [get_next_index]; [filenames] is [os.listdir(json_dir)]. *)
Definition get_next_index (filenames : list string) (filelist_name : string) : Z :=
  (max_version filelist_name filenames (-1) + 1)%Z.

(** [f'{filelist_name}_{index}.json'], a name inside the JSON directory. *)
Definition shard_name (filelist_name : string) (index : Z) : string :=
  filelist_name +:+ "_" +:+ str_of_Z index +:+ ".json".

(** [os.listdir] of the JSON directory. *)
Definition listdir_json (d : gmap string shard_file) : list string :=
  (map_to_list d).*1.

(** Every file of the directory whose name matches the pattern of the
    manifest holds at most [bound] records. *)
Definition shards_within (filelist_name : string) (bound : Z)
    (files : gmap string shard_file) : Prop :=
  forall f v content,
    files !! f = Some content ->
    match_version filelist_name f = Some v ->
    (Z.of_nat (length (load_current_data content)) <= bound)%Z.

(** The name of the manifest, from its path. *)
Definition filelist_name_of (file_list_path : string) : string :=
  PyStr.replace "_fixed" "" (splitext_root (basename file_list_path)).

(** The state of the loop of [build_json]: the disk and the variable
    [json_file_path] (a name inside the JSON directory). *)
Record run_state : Type := {
  on_disk : disk;
  json_file_path : string
}.

Section Build_json.
Context `{Platform}.

(** The media side of the file system (read only), the media directory
    of the licence, the batch size and the [log] flag. *)
Variable listdir : string -> listing.
Variable out_dir : string.
Variable batch_size : Z.
Variable log : bool.

(** With [log] set, the row with its [Traceback] goes to the error log. *)
Definition log_error (errors : option (list (article_row * string)))
    (row : article_row) (traceback : string)
  : option (list (article_row * string)) :=
  if log then log_append errors (row, traceback) else errors.

(** The metadata half of one turn of the loop: the record to write and
    the error log after it. *)
Definition extract_or_default (row : article_row)
    (errors : option (list (article_row * string)))
  : list (string * pyval) * option (list (article_row * string)) :=
  match build_nxml_metadata listdir out_dir ("/pub/pmc/" +:+ File row) row with
  | Returned article => (article, errors)
  | Raised e => (default_article_dict, log_error errors row e)
  end.

(** One turn of the loop.  [None]: an exception leaves the loop, the
    file behind [json_file_path] being missing when it is opened; this
    does not happen in a run of [build_json], which creates the file. *)
Definition build_json_step (filelist_name : string)
    (st : run_state) (row : article_row) : option run_state :=
  let d := on_disk st in
  let '(article, errors) := extract_or_default row (error_log d) in
  match json_dir d !! json_file_path st with
  | None => None
  | Some content =>
      let current_data := load_current_data content in
      let errors :=
        match content with
        | NotJson e => log_error errors row e
        | _ => errors
        end in
      let '(files, next_path) :=
        if (Z.of_nat (length current_data) =? batch_size - 1)%Z then
          let batch_sub_index :=
            get_next_index (listdir_json (json_dir d)) filelist_name in
          let new_path := shard_name filelist_name batch_sub_index in
          (<[new_path := JsonArray []]> (json_dir d), new_path)
        else (json_dir d, json_file_path st) in
      (* the write goes through the handle opened on the old path *)
      let files :=
        <[json_file_path st := JsonArray (current_data ++ [PDict article])]> files in
      Some {| on_disk :=
                {| json_dir := files;
                   error_log := errors;
                   complete_log :=
                     if log
                     then log_append (complete_log d) (Accession_ID row, next_path)
                     else complete_log d |};
              json_file_path := next_path |}
  end.

Fixpoint build_json_loop (filelist_name : string) (st : run_state)
    (rows : list article_row) : option run_state :=
  match rows with
  | [] => Some st
  | row :: rest =>
      match build_json_step filelist_name st row with
      | Some st' => build_json_loop filelist_name st' rest
      | None => None
      end
  end.

(** The state the loop starts from: shard 0 is created, holding [[]],
    unless a file of that name is there. *)
Definition build_json_init (filelist_name : string) (d : disk) : run_state :=
  let json_file_path := shard_name filelist_name 0 in
  {| on_disk :=
       match json_dir d !! json_file_path with
       | Some _ => d
       | None =>
           {| json_dir := <[json_file_path := JsonArray []]> (json_dir d);
              error_log := error_log d;
              complete_log := complete_log d |}
       end;
     json_file_path := json_file_path |}.

(** [build_json]; [rows] is what [path_generator(file_list_path)]
    yields. *)
Definition build_json (file_list_path : string) (rows : list article_row)
    (d : disk) : option disk :=
  let filelist_name := filelist_name_of file_list_path in
  on_disk <$> build_json_loop filelist_name (build_json_init filelist_name d) rows.

End Build_json.

(** ** Batch-level resume ([scripts/04_build_json.py]) *)

(** [compare_csv_row_counts]: each file counts its header line and its
    rows. *)
Definition compare_csv_row_counts {A B} (file1 : list A) (file2 : list B) : bool :=
  Nat.eqb (S (length file1)) (S (length file2)).

(** [create_subset_based_on_file_diff]: the rows of the first table whose
    [Accession_ID] is in the set difference. *)
Definition create_subset_based_on_file_diff (df1 : list article_row)
    (df2 : list (string * string)) : list article_row :=
  let file_diff : gset string :=
    list_to_set (Accession_ID <$> df1) ∖ list_to_set (df2.*1) in
  List.filter (fun r => bool_decide (Accession_ID r ∈ file_diff)) df1.

(** The decision of the script: [None] when the batch is reported
    complete, otherwise the manifest path handed to [build_json] and the
    rows in it. *)
Definition script_04_work (filelist_batch_dir license : string) (batch_idx : Z)
    (batch_filelist_fixed : list article_row) (d : disk)
  : option (string * list article_row) :=
  let fixed_path :=
    filelist_batch_dir +:+ "filelist_" +:+ license +:+ "_batch_"
      +:+ str_of_Z batch_idx +:+ "_fixed.csv" in
  let complete_status :=
    match complete_log d with
    | Some completed => compare_csv_row_counts batch_filelist_fixed completed
    | None => false
    end in
  if complete_status then None
  else
    match complete_log d with
    | Some completed =>
        Some (filelist_batch_dir +:+ "/filelist_json/" +:+ "json_filelist_"
                +:+ license +:+ "_batch_" +:+ str_of_Z batch_idx +:+ ".csv",
              create_subset_based_on_file_diff batch_filelist_fixed completed)
    | None => Some (fixed_path, batch_filelist_fixed)
    end.

Section Script_04.
Context `{Platform}.

Definition script_04 (listdir : string -> listing) (data_dir : string)
    (filelist_batch_dir license : string) (batch_idx batch_size : Z)
    (batch_filelist_fixed : list article_row) (d : disk) : option disk :=
  match script_04_work filelist_batch_dir license batch_idx
                       batch_filelist_fixed d with
  | None => Some d
  | Some (file_list_path, rows) =>
      build_json listdir (data_dir +:+ "/" +:+ license +:+ "/media_files")
                 batch_size true file_list_path rows d
  end.

End Script_04.

(** ** Sample inputs *)

Module Sample.

(** An in-text figure reference. *)
Definition xref (rid txt tl : string) : element :=
  Element "xref" [("ref-type", "fig"); ("rid", rid)] txt [] tl.

Definition graphic (href : string) : element :=
  Element "graphic" [(xlink_href, href)] "" [] "".

Definition caption (txt : string) : element :=
  Element "caption" [] "" [Element "p" [] txt [] ""] "".

(** A document without any figure. *)
Definition no_figure : element :=
  Element "article" [] ""
    [ Element "body" [] "" [ Element "p" [] "Text only." [] "" ] "" ] "".

(** Three figures: [F1] with a caption, [F2] with an empty caption
    element, [F3] with no caption element. *)
Definition three_figures : element :=
  Element "article" [] ""
    [ Element "floats" [] ""
        [ Element "fig" [("id", "F1")] "" [graphic "img1"; caption " One. "] "";
          Element "fig" [("id", "F2")] "" [caption ""; graphic "img2"] "";
          Element "fig" [("id", "F3")] "" [graphic "img3"] "" ] "" ] "".

(** Paragraph P1 refers to figure [F1], paragraph P2 to [F1] and [F2];
    both figures are defined, with graphics [img1] and [img2]. *)
Definition two_paragraphs : element :=
  Element "article" [] ""
    [ Element "body" [] ""
        [ Element "p" [] "See " [xref "F1" "Fig 1" "."] "";
          Element "p" [] "Compare " [xref "F1" "1" " and "; xref "F2" "2" "."] "" ] "";
      Element "floats" [] ""
        [ Element "fig" [("id", "F1")] "" [graphic "img1"] "";
          Element "fig" [("id", "F2")] "" [graphic "img2"] "" ] "" ] "".

Definition row (accession : string) : article_row :=
  {| File := "oa_package/aa/bb/" +:+ accession +:+ ".tar.gz";
     Citation := "PLoS Biol. 2005 Apr 22; 3(4):e100";
     Accession_ID := accession;
     Date := "2005-04-22 10:00:00";
     License := "CC BY";
     PMID := "" |}.

(** A row whose citation has neither full stop nor semicolon. *)
Definition bare_citation_row : article_row :=
  {| File := "oa_package/aa/bb/PMC9.tar.gz";
     Citation := "Science 2005 Apr 22";
     Accession_ID := "PMC9";
     Date := "2005-04-22 10:00:00";
     License := "CC BY";
     PMID := "" |}.

(** No media directory at all. *)
Definition no_media : string -> listing :=
  fun _ => ListError "[Errno 2] No such file or directory".

Definition image (hash : option string) : file :=
  {| xml := None; xmltodict := None; image_hash := hash |}.

(** Every media directory holds the document with three figures and four
    images; no figure links to the fourth. *)
Definition some_media : string -> listing :=
  fun _ =>
    Listed
      [ RegularFile "article.nxml"
          {| xml := Some three_figures; xmltodict := None; image_hash := None |};
        RegularFile "img1.jpg" (image (Some "0f3a"));
        RegularFile "img2.jpg" (image None);
        RegularFile "img3.jpg" (image None);
        RegularFile "img4.jpg" (image None) ].

(** A media directory whose only file is not well-formed XML. *)
Definition broken_media : string -> listing :=
  fun _ =>
    Listed
      [ RegularFile "article.nxml"
          {| xml := None; xmltodict := None; image_hash := None |} ].

Definition empty_disk : disk :=
  {| json_dir := ∅; error_log := None; complete_log := None |}.

Definition manifest_path : string := "file_lists/filelist_toy_batch_4_fixed.csv".

Definition filelist_name : string := "filelist_toy_batch_4".

Definition out_dir : string := "data/toy/media_files".

(** The loop state of a first run on an empty disk. *)
Definition start : run_state := build_json_init filelist_name empty_disk.

(** The loop state with [n] records in shard 0 and no other shard. *)
Definition at_shard_0 (n : nat) : run_state :=
  {| on_disk :=
       {| json_dir :=
            {[ shard_name filelist_name 0
               := JsonArray (repeat (PDict default_article_dict) n) ]};
          error_log := None;
          complete_log := None |};
     json_file_path := shard_name filelist_name 0 |}.

(** A disk whose completion log has the one item [PMC2]. *)
Definition one_completed : disk :=
  {| json_dir := ∅;
     error_log := None;
     complete_log := Some [("PMC2", "filelist_toy_batch_4_0.json")] |}.

(** The number of records in a file of the JSON directory. *)
Definition records_in (d : disk) (filename : string) : option nat :=
  (fun content => length (load_current_data content)) <$> json_dir d !! filename.

End Sample.

(** ** Notions used in the statements *)

(** Every character of the string satisfies [p]. *)
Fixpoint string_forall (p : ascii -> bool) (s : string) : bool :=
  match s with
  | EmptyString => true
  | String c r => p c && string_forall p r
  end.

(** The names of the regular files of a listing that end with [.jpg], in
    listing order. *)
Definition jpg_names (entries : list dir_entry) : list string :=
  flat_map (fun e =>
              match e with
              | RegularFile name _ =>
                  if PyStr.endswith ".jpg" name then [name] else []
              | Subdirectory _ => []
              end) entries.

(** A field of a figure-set entry. *)
Definition figure_field (key : string) (entry : pyval) : option pyval :=
  match entry with
  | PDict d => Dict.get key d
  | _ => None
  end.

(** The character map of [replace("-", ".")]. *)
Definition hyphen_to_dot (c : ascii) : ascii := if Ascii.eqb c "-" then "."%char else c.

(** ** Further sample data *)

Module Fixture.

(** A row with a PMID in the manifest. *)
Definition row_with_pmid : article_row :=
  {| File := "oa_package/aa/bb/PMC7.tar.gz";
     Citation := "PLoS Biol. 2005 Apr 22; 3(4):e100";
     Accession_ID := "PMC7";
     Date := "2005-04-22 10:00:00";
     License := "CC BY";
     PMID := "15000000" |}.

(** What [xmltodict] gives for a document with a title and one
    [article-id] element. *)
Definition lone_article_id : pyval :=
  PDict [ ("article",
           PDict [ ("front",
                    PDict [ ("article-meta",
                             PDict [ ("article-id",
                                      PDict [ ("@pub-id-type", PStr "pmid");
                                              ("#text", PStr "15000001") ]);
                                     ("title-group",
                                      PDict [ ("article-title", PStr "A title") ]) ]) ]) ]) ].

(** The same with two [article-id] elements. *)
Definition two_article_ids : pyval :=
  PDict [ ("article",
           PDict [ ("front",
                    PDict [ ("article-meta",
                             PDict [ ("article-id",
                                      PList [ PDict [ ("@pub-id-type", PStr "pmc");
                                                      ("#text", PStr "7") ];
                                              PDict [ ("@pub-id-type", PStr "pmid");
                                                      ("#text", PStr "15000001") ] ]);
                                     ("title-group",
                                      PDict [ ("article-title", PStr "A title") ]) ]) ]) ]) ].

(** A media directory with a parsed document, a sub-directory, two images
    and a file of another kind. *)
Definition media : string -> listing :=
  fun _ =>
    Listed
      [ RegularFile "article.nxml"
          {| xml := Some Sample.two_paragraphs;
             xmltodict := Some two_article_ids;
             image_hash := None |};
        Subdirectory "extra.jpg";
        RegularFile "img1.jpg" (Sample.image (Some "0f3a"));
        RegularFile "notes.pdf" (Sample.image None);
        RegularFile "img2.jpg" (Sample.image None) ].

End Fixture.

(** The number of records in the files of the JSON directory that decode
    to an array. *)
Definition total_records (files : gmap string shard_file) : nat :=
  map_fold (fun _ content n => length (load_current_data content) + n) 0 files.

Section Shards_of_a_fresh_run.
Context `{Platform}.

(** The records of rows [i * batch_size] to [(i + 1) * batch_size - 1] of
    the manifest (counting from 0). *)
Definition shard_records (listdir : string -> listing) (out_dir : string)
    (batch_size : Z) (rows : list article_row) (i : nat) : list pyval :=
  (fun row => PDict (emitted_record listdir out_dir row))
    <$> take (Z.to_nat batch_size) (drop (i * Z.to_nat batch_size) rows).

(** The state of the loop after the rows [done] in a directory that had
    no shard of the manifest: the shards up to the current one hold the
    records of these rows, [batch_size] each, and no file of the manifest
    has a greater index. *)
Definition filled_in_order (listdir : string -> listing) (out_dir : string)
    (batch_size : Z) (name : string) (done : list article_row) (st : run_state)
  : Prop :=
  let current := (length done / Z.to_nat batch_size)%nat in
  json_file_path st = shard_name name (Z.of_nat current)
  /\ (forall i, (i <= current)%nat ->
        json_dir (on_disk st) !! shard_name name (Z.of_nat i)
        = Some (JsonArray (shard_records listdir out_dir batch_size done i)))
  /\ (forall f v,
        is_Some (json_dir (on_disk st) !! f) ->
        match_version name f = Some v -> (N.to_nat v <= current)%nat).

End Shards_of_a_fresh_run.

(** ** Sub-batch identifiers ([download_batch.py]) *)

(** [s.split(sep)] for a separator of one character. *)
Fixpoint split_char (sep : ascii) (s : string) : list string :=
  match s with
  | EmptyString => [EmptyString]
  | String c r =>
      if Ascii.eqb c sep then EmptyString :: split_char sep r
      else match split_char sep r with
           | part :: parts => String c part :: parts
           | [] => [String c EmptyString]
           end
  end.

(** [get_main_batch_index] for an identifier that is a string. *)
Definition get_main_batch_index (sub_batch_id : string) : string :=
  let parts := split_char "_" sub_batch_id in
  if Nat.ltb 1 (length parts) then nth 0 parts EmptyString else sub_batch_id.

(** The dictionaries [search_nested_dict] can reach from a dictionary:
    itself and, through values that are dictionaries, those below. *)
Inductive nested_dict : list (string * pyval) -> list (string * pyval) -> Prop :=
| nested_here (d : list (string * pyval)) : nested_dict d d
| nested_below (d : list (string * pyval)) (k : string)
    (x d' : list (string * pyval)) :
    In (k, PDict x) d -> nested_dict x d' -> nested_dict d d'.

(** Media directories of which the one of [PMC2] is missing; the others
    hold the document with three figures. *)
Module Outage.

Definition media : string -> listing :=
  fun directory =>
    if String.eqb directory (path_join Sample.out_dir "PMC2")
    then ListError "[Errno 2] No such file or directory"
    else Sample.some_media directory.

End Outage.

(** * Properties *)

(** ** Element trees *)

Lemma element_induction (P : element -> Prop) :
  (forall t a x cs tl, Forall P cs -> P (Element t a x cs tl)) ->
  forall e, P e.
Proof.
  intros step. fix rec 1. intros [t a x cs tl]. apply step.
  induction cs as [|c cs IH]; constructor; [apply rec | exact IH].
Qed.

Lemma walk_elements e : forall parent, List.map snd (XML.walk parent e) = XML.iter e.
Proof.
  induction e as [t a x cs tl IH] using element_induction. intros parent.
  cbn [XML.walk XML.iter List.map]. f_equal.
  generalize (Some (Element t a x cs tl)). intros q.
  induction IH as [|c cs Hc _ IHcs]; cbn [flat_map]; [reflexivity|].
  rewrite List.map_app, Hc, IHcs. reflexivity.
Qed.

Lemma filter_none {A} (f : A -> bool) (l : list A) :
  (forall x, In x l -> f x = false) -> List.filter f l = [].
Proof.
  induction l as [|y l IH]; intros Hl; [reflexivity|]. cbn.
  rewrite (Hl y (or_introl eq_refl)). apply IH. intros x Hx. apply Hl. now right.
Qed.

Lemma filter_first {A} (f : A -> bool) (pre post : list A) (x : A) :
  (forall y, In y pre -> f y = false) -> f x = true ->
  List.filter f (pre ++ x :: post) = x :: List.filter f post.
Proof.
  intros Hpre Hx. rewrite List.filter_app, (filter_none f pre Hpre). cbn.
  now rewrite Hx.
Qed.

(** ** Captions *)

(** C1, as the code has it: for an identifier without an apostrophe,
    [extract_caption_from_nxml] returns [""] when no graphic element of
    the document has the identifier as its link (and when the first such
    graphic is the root).  Otherwise the element that counts is the parent
    of the first such graphic in document order: the result is the
    stripped text of its first caption descendant, hence [""] when that
    text is empty or blank, and ["No caption found"] when it has no
    caption descendant. *)
Theorem extract_caption_cases (root : element) (image_identifier : string) :
  xpath_literal_ok image_identifier = true ->
  ((forall e, In e (XML.iter root) -> is_graphic_for image_identifier e = false) ->
   extract_caption_from_nxml (Some root) image_identifier = Some "")
  /\
  (forall pre parent g post,
     XML.walk None root = pre ++ (parent, g) :: post ->
     (forall pe, In pe pre -> is_graphic_for image_identifier (snd pe) = false) ->
     is_graphic_for image_identifier g = true ->
     match parent with
     | None => extract_caption_from_nxml (Some root) image_identifier = Some ""
     | Some figure =>
         match XML.find_descendant "caption" figure with
         | Some caption =>
             extract_caption_from_nxml (Some root) image_identifier
             = Some (PyStr.strip (XML.tostring_text caption))
             /\ (PyStr.strip (XML.tostring_text caption) = "" ->
                 extract_caption_from_nxml (Some root) image_identifier = Some "")
         | None =>
             extract_caption_from_nxml (Some root) image_identifier
             = Some "No caption found"
         end
     end).
Proof.
  intros Hid. unfold extract_caption_from_nxml, xpath_graphic. rewrite Hid. split.
  - intros Hnone. rewrite filter_none; [reflexivity|].
    intros [p e] Hin. apply Hnone. rewrite <- (walk_elements root None).
    change e with (snd (p, e)). now apply List.in_map.
  - intros pre parent g post Hwalk Hpre Hg. rewrite Hwalk.
    rewrite (filter_first _ pre post (parent, g)); [|exact Hpre|exact Hg].
    destruct parent as [figure|]; [|reflexivity].
    destruct (XML.find_descendant "caption" figure) as [caption|]; [|reflexivity].
    split; [reflexivity|]. intros ->. reflexivity.
Qed.

(** The three outcomes on a document with a captioned figure, a figure
    with an empty caption and a figure without caption element, and the
    outcome for an image no figure links to. *)
Lemma extract_caption_cases_witness :
  xpath_literal_ok "img4" = true
  /\ extract_caption_from_nxml (Some Sample.three_figures) "img4" = Some ""
  /\ extract_caption_from_nxml (Some Sample.three_figures) "img1" = Some "One."
  /\ extract_caption_from_nxml (Some Sample.three_figures) "img2" = Some ""
  /\ extract_caption_from_nxml (Some Sample.three_figures) "img3"
     = Some "No caption found".
Proof.
  split; [reflexivity|]. split.
  - apply (proj1 (extract_caption_cases Sample.three_figures "img4" eq_refl)).
    intros e He. vm_compute in He.
    repeat (destruct He as [<-|He]; [reflexivity|]). destruct He.
  - pose (nodes := XML.walk None Sample.three_figures).
    assert (Hclean : forall id n,
              forallb (fun pe => negb (is_graphic_for id (snd pe))) (firstn n nodes)
              = true ->
              forall pe, In pe (firstn n nodes) -> is_graphic_for id (snd pe) = false).
    { intros id n Hall pe Hpe. rewrite List.forallb_forall in Hall.
      apply negb_true_iff. now apply Hall. }
    split; [|split].
    + exact (proj1 (proj2 (extract_caption_cases Sample.three_figures "img1" eq_refl)
                      (firstn 3 nodes) _ _ (skipn 4 nodes) eq_refl
                      (Hclean "img1" 3 eq_refl) eq_refl)).
    + exact (proj2 (proj2 (extract_caption_cases Sample.three_figures "img2" eq_refl)
                      (firstn 9 nodes) _ _ (skipn 10 nodes) eq_refl
                      (Hclean "img2" 9 eq_refl) eq_refl) eq_refl).
    + exact (proj2 (extract_caption_cases Sample.three_figures "img3" eq_refl)
               (firstn 11 nodes) _ _ (skipn 12 nodes) eq_refl
               (Hclean "img3" 11 eq_refl) eq_refl).
Defined.

(** C1 fails as stated: in a document with no figure at all, the caption
    of an image is [""], not ["No caption found"]; the latter is what a
    figure without a caption element gives. *)
Lemma caption_without_figure_is_empty :
  (forall e, In e (XML.iter Sample.no_figure) -> is_graphic_for "img1" e = false)
  /\ extract_caption_from_nxml (Some Sample.no_figure) "img1" = Some ""
  /\ extract_caption_from_nxml (Some Sample.no_figure) "img1" <> Some "No caption found"
  /\ extract_caption_from_nxml (Some Sample.three_figures) "img3" = Some "No caption found".
Proof.
  split; [|split; [reflexivity|split; [discriminate|reflexivity]]].
  intros e He. vm_compute in He.
  repeat (destruct He as [<-|He]; [reflexivity|]). destruct He.
Qed.

(** ** Article records *)

Section Record_properties.
Context `{Platform}.

Lemma metadata_keys xml_content meta :
  extract_metadata_from_nxml xml_content = Some meta ->
  exists title keyword pmid cats,
    meta = [ ("title", title); ("keyword", keyword); ("pmid", pmid);
             ("article_categories", cats); ("abstract", PNone); ("mesh", PNone) ].
Proof.
  unfold extract_metadata_from_nxml.
  destruct xml_content as [content|]; [|discriminate].
  destruct (default _ (metadata_fields content)) as [[[title keyword] pmid] cats].
  intros [= <-]. eauto.
Qed.

(** The record of an article whose media directory can be listed: the
    six fields of the manifest row, the six of the document metadata, the
    figure set, the context and the text, with [abstract] and [mesh] null. *)
Lemma build_nxml_metadata_shape listdir out_dir file_path row article :
  build_nxml_metadata listdir out_dir file_path row = Returned article ->
  exists path_to_nxml,
    get_nxml_path (path_to_media out_dir file_path)
                  (listdir (path_to_media out_dir file_path)) = inr path_to_nxml
    /\ exists title keyword pmid cats ctx nxml,
    article =
      [ ("accession_id", str_or_none (Accession_ID row));
        ("citation", str_or_none (Citation row));
        ("license", str_or_none (License row));
        ("date", of_option (default None (CitationFields.ensure_unix
                   (default None
                      (CitationFields.extract_date_from_citation (Citation row))))));
        ("journal", of_option (CitationFields.extract_journal (Citation row)));
        ("pmid", pmid);
        ("title", title);
        ("keyword", keyword);
        ("article_categories", cats);
        ("abstract", PNone);
        ("mesh", PNone);
        ("figure_set",
          PList (build_figure_set path_to_nxml
                   (get_image_paths (path_to_media out_dir file_path)
                      (listdir (path_to_media out_dir file_path)))));
        ("context", ctx);
        ("nxml", nxml) ].
Proof.
  unfold build_nxml_metadata.
  destruct (get_nxml_path _ _) as [message|path_to_nxml]; [discriminate|].
  intros [= <-]. exists path_to_nxml. split; [reflexivity|].
  unfold extract_info_from_filelist_row.
  destruct (extract_metadata_from_nxml _) as [meta|] eqn:Hmeta.
  - destruct (metadata_keys _ _ Hmeta) as (title & keyword & pmid & cats & ->).
    cbn [default Dict.get String.eqb Ascii.eqb Bool.eqb].
    destruct (str_or_none (PMID row)); cbn; eauto 12.
  - cbn [default Dict.get String.eqb Ascii.eqb Bool.eqb].
    destruct (str_or_none (PMID row)); cbn; eauto 12.
Qed.

Lemma build_nxml_metadata_listed listdir out_dir file_path row entries :
  listdir (path_to_media out_dir file_path) = Listed entries ->
  exists article, build_nxml_metadata listdir out_dir file_path row = Returned article.
Proof.
  intros Hl. unfold build_nxml_metadata. rewrite Hl. cbn. eauto.
Qed.

Lemma build_nxml_metadata_unlisted listdir out_dir file_path row message :
  listdir (path_to_media out_dir file_path) = ListError message ->
  build_nxml_metadata listdir out_dir file_path row = Raised message.
Proof.
  intros Hl. unfold build_nxml_metadata. rewrite Hl. reflexivity.
Qed.

Lemma extract_or_default_record listdir out_dir log row errors :
  fst (extract_or_default listdir out_dir log row errors)
  = emitted_record listdir out_dir row.
Proof.
  unfold emitted_record, extract_or_default.
  destruct (build_nxml_metadata _ _ _ _); reflexivity.
Qed.

(** What a successful turn of the loop leaves in the file it wrote to. *)
Lemma build_json_step_writes listdir out_dir batch_size log name st row st' :
  build_json_step listdir out_dir batch_size log name st row = Some st' ->
  exists content,
    json_dir (on_disk st) !! json_file_path st = Some content
    /\ json_dir (on_disk st') !! json_file_path st
       = Some (JsonArray (load_current_data content
                          ++ [PDict (emitted_record listdir out_dir row)])).
Proof.
  unfold build_json_step.
  rewrite <- (extract_or_default_record listdir out_dir log row
                (error_log (on_disk st))).
  destruct (extract_or_default _ _ _ _ _) as [article errors].
  destruct (json_dir (on_disk st) !! json_file_path st) as [content|];
    [|discriminate].
  destruct (Z.eqb _ _); intros [= <-]; exists content; cbn;
    now rewrite lookup_insert_eq.
Qed.

(** C4: whatever the work item and the state of its media directory
    (missing, without a document, with a document that does not parse),
    the record a turn of the loop appends to its shard has each of the
    fourteen keys [accession_id], [citation], [license], [date],
    [journal], [title], [abstract], [keyword], [pmid],
    [article_categories], [mesh], [figure_set], [context] and [nxml];
    these are the keys of the default record, in its order. *)
Theorem emitted_record_has_every_template_key
    listdir out_dir batch_size log name st row st' :
  build_json_step listdir out_dir batch_size log name st row = Some st' ->
  exists current article,
    json_dir (on_disk st') !! json_file_path st
    = Some (JsonArray (current ++ [PDict article]))
    /\ Forall (fun key => Dict.mem key article = true)
              [ "accession_id"; "citation"; "license"; "date"; "journal";
                "title"; "abstract"; "keyword"; "pmid"; "article_categories";
                "mesh"; "figure_set"; "context"; "nxml" ]
    /\ Dict.keys default_article_dict
       = [ "accession_id"; "citation"; "license"; "date"; "journal";
           "title"; "abstract"; "keyword"; "pmid"; "article_categories";
           "mesh"; "figure_set"; "context"; "nxml" ].
Proof.
  intros Hstep. destruct (build_json_step_writes _ _ _ _ _ _ _ _ Hstep)
    as (content & _ & Hwritten).
  eexists _, _. split; [exact Hwritten|]. split; [|reflexivity].
  unfold emitted_record.
  destruct (build_nxml_metadata _ _ _ _) as [article|message] eqn:Hbuild.
  - destruct (build_nxml_metadata_shape _ _ _ _ _ Hbuild)
      as (? & _ & title & keyword & pmid & cats & ctx & nxml & ->).
    cbn. repeat constructor.
  - cbn. repeat constructor.
Qed.

(** C9, as the code has it: the [abstract] field of the record a turn of
    the loop appends is null, for every work item; this stage never puts
    a string there. *)
Theorem emitted_abstract_is_null
    listdir out_dir batch_size log name st row st' :
  build_json_step listdir out_dir batch_size log name st row = Some st' ->
  exists current article,
    json_dir (on_disk st') !! json_file_path st
    = Some (JsonArray (current ++ [PDict article]))
    /\ Dict.get "abstract" article = Some PNone.
Proof.
  intros Hstep. destruct (build_json_step_writes _ _ _ _ _ _ _ _ Hstep)
    as (content & _ & Hwritten).
  eexists _, _. split; [exact Hwritten|].
  unfold emitted_record.
  destruct (build_nxml_metadata _ _ _ _) as [article|message] eqn:Hbuild.
  - destruct (build_nxml_metadata_shape _ _ _ _ _ Hbuild)
      as (? & _ & title & keyword & pmid & cats & ctx & nxml & ->).
    reflexivity.
  - reflexivity.
Qed.

(** The record of an item whose media directory cannot be listed is the
    default record. *)
Lemma emitted_record_without_media listdir out_dir row message :
  listdir (path_to_media out_dir ("/pub/pmc/" +:+ File row)) = ListError message ->
  emitted_record listdir out_dir row = default_article_dict.
Proof.
  intros Hl. unfold emitted_record.
  now rewrite (build_nxml_metadata_unlisted _ _ _ row _ Hl).
Qed.

(** C8, as the code has it: when the media directory of the item can be
    listed, the journal and date of the emitted record are the values
    derived from the citation of the manifest row, whatever the directory
    holds (no document, a document that does not parse, any document); a
    journal name or a date the citation yields is therefore in the
    record. *)
Theorem citation_fields_of_emitted_record listdir out_dir row entries :
  listdir (path_to_media out_dir ("/pub/pmc/" +:+ File row)) = Listed entries ->
  let journal := CitationFields.extract_journal (Citation row) in
  let date :=
    default None
      (CitationFields.ensure_unix
         (default None (CitationFields.extract_date_from_citation (Citation row)))) in
  Dict.get "journal" (emitted_record listdir out_dir row)
  = Some (of_option journal)
  /\ Dict.get "date" (emitted_record listdir out_dir row)
     = Some (of_option date)
  /\ (forall j, journal = Some j ->
        Dict.get "journal" (emitted_record listdir out_dir row)
        = Some (PStr j))
  /\ (forall t, date = Some t ->
        Dict.get "date" (emitted_record listdir out_dir row)
        = Some (PStr t)).
Proof.
  intros Hl. cbn zeta. unfold emitted_record.
  destruct (build_nxml_metadata_listed _ _ _ row _ Hl) as [article Hbuild].
  rewrite Hbuild.
  destruct (build_nxml_metadata_shape _ _ _ _ _ Hbuild)
    as (? & _ & title & keyword & pmid & cats & ctx & nxml & ->).
  cbn [fst]. repeat split.
  - intros j ->. reflexivity.
  - intros t ->. reflexivity.
Qed.

(** C10: in the figure set of an assembled record, the caption of an
    entry is null when the extraction returned [""] and when it raised,
    so the two cannot be told apart in the record; the text
    ["No caption found"] is kept as it is. *)
Theorem empty_caption_is_stored_as_null listdir out_dir file_path row article :
  build_nxml_metadata listdir out_dir file_path row = Returned article ->
  exists path_to_nxml figure_set,
    get_nxml_path (path_to_media out_dir file_path)
                  (listdir (path_to_media out_dir file_path)) = inr path_to_nxml
    /\ Dict.get "figure_set" article = Some (PList figure_set)
    /\ Forall
         (fun entry =>
            exists d id,
              entry = PDict d
              /\ Dict.get "image_id" d = Some (str_or_none id)
              /\ let extracted :=
                   extract_caption_from_nxml
                     (path_to_nxml ≫= (fun pf => xml (snd pf))) id in
                 (extracted = Some "" -> Dict.get "caption" d = Some PNone)
                 /\ (extracted = None -> Dict.get "caption" d = Some PNone)
                 /\ (extracted = Some "No caption found" ->
                     Dict.get "caption" d = Some (PStr "No caption found"))
                 /\ Dict.get "caption" d <> Some (PStr ""))
         figure_set.
Proof.
  intros Hbuild.
  destruct (build_nxml_metadata_shape _ _ _ _ _ Hbuild)
    as (path_to_nxml & Hpath & title & keyword & pmid & cats & ctx & nxml & ->).
  exists path_to_nxml. eexists. split; [exact Hpath|]. split; [reflexivity|].
  unfold build_figure_set.
  destruct (get_image_identifier _) as [image_ids|]; [|constructor].
  destruct (get_image_paths _ _) as [paths|]; [|constructor].
  apply List.Forall_forall. intros entry Hentry.
  apply List.in_map_iff in Hentry as ([id image] & <- & _).
  eexists _, id. split; [reflexivity|]. split; [reflexivity|].
  cbn. destruct (extract_caption_from_nxml _ id) as [c|].
  - destruct c as [|ch c]; cbn.
    + repeat split; try discriminate.
    + repeat split; try discriminate. intros [= -> ->]. reflexivity.
  - repeat split; discriminate.
Qed.

End Record_properties.

Lemma emitted_record_has_every_template_key_witness :
  (exists st',
     build_json_step (H := CPython.platform) Sample.no_media Sample.out_dir 2 true
       Sample.filelist_name Sample.start (Sample.row "PMC1") = Some st'
     /\ exists current article,
          json_dir (on_disk st') !! json_file_path Sample.start
          = Some (JsonArray (current ++ [PDict article]))
          /\ Forall (fun key => Dict.mem key article = true)
                    [ "accession_id"; "citation"; "license"; "date"; "journal";
                      "title"; "abstract"; "keyword"; "pmid"; "article_categories";
                      "mesh"; "figure_set"; "context"; "nxml" ])
  /\ (exists st',
        build_json_step (H := CPython.platform) Sample.broken_media Sample.out_dir 2
          true Sample.filelist_name Sample.start (Sample.row "PMC1") = Some st'
        /\ exists current article,
             json_dir (on_disk st') !! json_file_path Sample.start
             = Some (JsonArray (current ++ [PDict article]))
             /\ Forall (fun key => Dict.mem key article = true)
                       [ "accession_id"; "citation"; "license"; "date"; "journal";
                         "title"; "abstract"; "keyword"; "pmid"; "article_categories";
                         "mesh"; "figure_set"; "context"; "nxml" ])
  /\ (exists st',
        build_json_step (H := CPython.platform) Sample.some_media Sample.out_dir 2
          true Sample.filelist_name Sample.start (Sample.row "PMC1") = Some st'
        /\ exists current article,
             json_dir (on_disk st') !! json_file_path Sample.start
             = Some (JsonArray (current ++ [PDict article]))
             /\ Forall (fun key => Dict.mem key article = true)
                       [ "accession_id"; "citation"; "license"; "date"; "journal";
                         "title"; "abstract"; "keyword"; "pmid"; "article_categories";
                         "mesh"; "figure_set"; "context"; "nxml" ]).
Proof.
  split; [|split]; eexists; (split; [vm_compute; reflexivity|]).
  - destruct (emitted_record_has_every_template_key (H := CPython.platform)
                Sample.no_media Sample.out_dir 2 true Sample.filelist_name
                Sample.start (Sample.row "PMC1") _ eq_refl)
      as (current & article & Hfile & Hkeys & _).
    exists current, article. split; [exact Hfile|exact Hkeys].
  - destruct (emitted_record_has_every_template_key (H := CPython.platform)
                Sample.broken_media Sample.out_dir 2 true Sample.filelist_name
                Sample.start (Sample.row "PMC1") _ eq_refl)
      as (current & article & Hfile & Hkeys & _).
    exists current, article. split; [exact Hfile|exact Hkeys].
  - destruct (emitted_record_has_every_template_key (H := CPython.platform)
                Sample.some_media Sample.out_dir 2 true Sample.filelist_name
                Sample.start (Sample.row "PMC1") _ eq_refl)
      as (current & article & Hfile & Hkeys & _).
    exists current, article. split; [exact Hfile|exact Hkeys].
Defined.

Lemma emitted_abstract_is_null_witness :
  exists st',
    build_json_step (H := CPython.platform) Sample.some_media Sample.out_dir 2 true
      Sample.filelist_name Sample.start (Sample.row "PMC1") = Some st'
    /\ exists current article,
         json_dir (on_disk st') !! json_file_path Sample.start
         = Some (JsonArray (current ++ [PDict article]))
         /\ Dict.get "abstract" article = Some PNone.
Proof.
  eexists. split; [vm_compute; reflexivity|].
  apply (emitted_abstract_is_null (H := CPython.platform)
           Sample.some_media Sample.out_dir 2 true Sample.filelist_name
           Sample.start (Sample.row "PMC1")).
  vm_compute. reflexivity.
Defined.

(** C9 fails as stated: the abstract of an emitted record is null, not a
    string, whether the document was read or the item failed entirely. *)
Lemma emitted_abstract_is_not_a_string :
  Dict.get "abstract"
    (emitted_record (H := CPython.platform) Sample.some_media Sample.out_dir
       (Sample.row "PMC1")) = Some PNone
  /\ Dict.get "abstract"
       (emitted_record (H := CPython.platform) Sample.no_media Sample.out_dir
          (Sample.row "PMC1")) = Some PNone
  /\ Some PNone <> Some (PStr "").
Proof. repeat split; [vm_compute; reflexivity ..|discriminate]. Qed.

Lemma citation_fields_of_emitted_record_witness :
  Sample.broken_media
    (path_to_media Sample.out_dir ("/pub/pmc/" +:+ File (Sample.row "PMC1")))
  = Listed [RegularFile "article.nxml"
              {| xml := None; xmltodict := None; image_hash := None |}]
  /\ Dict.get "journal"
       (emitted_record (H := CPython.platform) Sample.broken_media Sample.out_dir
          (Sample.row "PMC1")) = Some (PStr "PLoS Biol")
  /\ Dict.get "date"
       (emitted_record (H := CPython.platform) Sample.broken_media Sample.out_dir
          (Sample.row "PMC1")) = Some (PStr "1114128000").
Proof.
  split; [reflexivity|].
  destruct (citation_fields_of_emitted_record (H := CPython.platform)
              Sample.broken_media Sample.out_dir (Sample.row "PMC1") _ eq_refl)
    as (_ & _ & Hjournal & Hdate).
  split; [apply Hjournal|apply Hdate]; vm_compute; reflexivity.
Defined.

(** C8 fails as stated.  The row carries a citation that yields a journal
    and a date, but with the media directory missing the emitted record
    has neither.  And a row whose citation has no full stop or semicolon
    gets neither, with its document read without error. *)
Lemma citation_fields_not_always_populated :
  CitationFields.extract_journal (Citation (Sample.row "PMC1")) = Some "PLoS Biol"
  /\ CitationFields.extract_date_from_citation (Citation (Sample.row "PMC1"))
     = Some (Some "2005 04 22")
  /\ Dict.get "journal"
       (emitted_record (H := CPython.platform) Sample.no_media Sample.out_dir
          (Sample.row "PMC1")) = Some PNone
  /\ Dict.get "date"
       (emitted_record (H := CPython.platform) Sample.no_media Sample.out_dir
          (Sample.row "PMC1")) = Some PNone
  /\ Dict.get "citation"
       (emitted_record (H := CPython.platform) Sample.some_media Sample.out_dir
          Sample.bare_citation_row) = Some (PStr "Science 2005 Apr 22")
  /\ Dict.get "journal"
       (emitted_record (H := CPython.platform) Sample.some_media Sample.out_dir
          Sample.bare_citation_row) = Some PNone
  /\ Dict.get "date"
       (emitted_record (H := CPython.platform) Sample.some_media Sample.out_dir
          Sample.bare_citation_row) = Some PNone.
Proof. repeat split; vm_compute; reflexivity. Qed.

Lemma empty_caption_is_stored_as_null_witness :
  exists article,
    build_nxml_metadata (H := CPython.platform) Sample.some_media Sample.out_dir
      ("/pub/pmc/" +:+ File (Sample.row "PMC1")) (Sample.row "PMC1")
    = Returned article
    /\ exists path_to_nxml figure_set,
         get_nxml_path
           (path_to_media Sample.out_dir ("/pub/pmc/" +:+ File (Sample.row "PMC1")))
           (Sample.some_media
              (path_to_media Sample.out_dir
                 ("/pub/pmc/" +:+ File (Sample.row "PMC1"))))
         = inr path_to_nxml
         /\ Dict.get "figure_set" article = Some (PList figure_set)
         /\ Forall
              (fun entry =>
                 exists d id,
                   entry = PDict d
                   /\ Dict.get "image_id" d = Some (str_or_none id)
                   /\ let extracted :=
                        extract_caption_from_nxml
                          (path_to_nxml ≫= (fun pf => xml (snd pf))) id in
                      (extracted = Some "" -> Dict.get "caption" d = Some PNone)
                      /\ (extracted = None -> Dict.get "caption" d = Some PNone)
                      /\ (extracted = Some "No caption found" ->
                          Dict.get "caption" d = Some (PStr "No caption found"))
                      /\ Dict.get "caption" d <> Some (PStr ""))
              figure_set.
Proof.
  eexists. split; [vm_compute; reflexivity|].
  apply (empty_caption_is_stored_as_null (H := CPython.platform)
           Sample.some_media Sample.out_dir
           ("/pub/pmc/" +:+ File (Sample.row "PMC1")) (Sample.row "PMC1")).
  vm_compute. reflexivity.
Defined.

(** The captions of the four sample images in the assembled record: a
    caption, an empty caption, no caption element, no figure. *)
Example sample_figure_captions :
  match build_nxml_metadata (H := CPython.platform) Sample.some_media Sample.out_dir
          ("/pub/pmc/" +:+ File (Sample.row "PMC1")) (Sample.row "PMC1") with
  | Returned article =>
      match Dict.get "figure_set" article with
      | Some (PList figure_set) =>
          List.map (fun entry =>
                      match entry with
                      | PDict d => Dict.get "caption" d
                      | _ => None
                      end) figure_set
      | _ => []
      end
  | Raised _ => []
  end
  = [Some (PStr "One."); Some PNone; Some (PStr "No caption found"); Some PNone].
Proof. vm_compute. reflexivity. Qed.

(** ** Shard names and the next index *)

Lemma prefix_append (a b : string) : String.prefix a (a +:+ b) = true.
Proof.
  induction a as [|c a IH]; [now destruct b|].
  change (String.prefix (String c a) (String c (a +:+ b)) = true). simpl.
  destruct (ascii_dec c c) as [_|Hc]; [exact IH|now destruct Hc].
Qed.

Lemma drop_append (a b : string) : PyStr.drop (String.length a) (a +:+ b) = b.
Proof. induction a as [|c a IH]; [reflexivity|exact IH]. Qed.

Lemma append_assoc (a b c : string) : (a +:+ b) +:+ c = a +:+ (b +:+ c).
Proof.
  induction a as [|x a IH]; [reflexivity|].
  change (String x ((a +:+ b) +:+ c) = String x (a +:+ (b +:+ c))).
  now rewrite IH.
Qed.

Lemma span_digits_append (ds rest : string) :
  all_digits ds = true ->
  match rest with String c _ => PyStr.is_digit c = false | EmptyString => True end ->
  span PyStr.is_digit (ds +:+ rest) = (ds, rest).
Proof.
  intros Hds Hrest. induction ds as [|c ds IH].
  - change (span PyStr.is_digit rest = ("", rest)).
    destruct rest as [|c r]; [reflexivity|]. cbn. now rewrite Hrest.
  - change (span PyStr.is_digit (String c (ds +:+ rest)) = (String c ds, rest)).
    cbn in Hds. apply andb_prop in Hds as [Hc Hds]. cbn [span].
    now rewrite Hc, (IH Hds).
Qed.

Lemma string_of_uint_digits (d : Decimal.uint) :
  all_digits (NilEmpty.string_of_uint d) = true.
Proof. induction d; cbn; auto. Qed.

Lemma str_of_N_digits (n : N) : all_digits (str_of_N n) = true.
Proof. apply string_of_uint_digits. Qed.

Lemma str_of_N_truthy (n : N) : PyStr.truthy (str_of_N n) = true.
Proof.
  unfold str_of_N. destruct n as [|p]; [reflexivity|]. cbn [N.to_uint].
  pose proof (DecimalPos.Unsigned.to_uint_nonnil p) as Hnil.
  destruct (Pos.to_uint p); [now destruct Hnil|reflexivity ..].
Qed.

Lemma int_of_digits_str_of_N (n : N) : int_of_digits (str_of_N n) = n.
Proof.
  unfold int_of_digits, str_of_N. rewrite NilEmpty.usu.
  apply DecimalN.Unsigned.of_to.
Qed.

Lemma str_of_Z_of_N (n : N) : str_of_Z (Z.of_N n) = str_of_N n.
Proof.
  unfold str_of_Z. destruct (Z.ltb_spec (Z.of_N n) 0) as [Hneg|_]; [lia|].
  now rewrite N2Z.id.
Qed.

(** The name of shard [n] is recognised by the pattern of
    [get_next_index], with index [n]. *)
Lemma match_version_shard_name (filelist_name : string) (n : N) :
  match_version filelist_name (shard_name filelist_name (Z.of_N n)) = Some n.
Proof.
  unfold match_version, shard_name. rewrite str_of_Z_of_N.
  rewrite <- (append_assoc filelist_name "_").
  rewrite prefix_append, drop_append.
  rewrite (span_digits_append (str_of_N n) ".json"
             (str_of_N_digits n) eq_refl).
  rewrite str_of_N_truthy. cbn. now rewrite int_of_digits_str_of_N.
Qed.

Lemma shard_name_inj (filelist_name : string) (m n : N) :
  shard_name filelist_name (Z.of_N m) = shard_name filelist_name (Z.of_N n) ->
  m = n.
Proof.
  intros Heq. pose proof (match_version_shard_name filelist_name m) as Hm.
  rewrite Heq, match_version_shard_name in Hm. now injection Hm.
Qed.

Lemma max_version_bounds filelist_name filenames start :
  (start <= max_version filelist_name filenames start)%Z
  /\ (forall f v, In f filenames -> match_version filelist_name f = Some v ->
        (Z.of_N v <= max_version filelist_name filenames start)%Z)
  /\ (max_version filelist_name filenames start = start
      \/ exists f v, In f filenames /\ match_version filelist_name f = Some v
                     /\ max_version filelist_name filenames start = Z.of_N v).
Proof.
  revert start. induction filenames as [|f fs IH]; intros start.
  - cbn. split; [lia|]. split; [intros ? ? []|now left].
  - pose (start' := match match_version filelist_name f with
                    | Some version => Z.max start (Z.of_N version)
                    | None => start
                    end).
    change (max_version filelist_name (f :: fs) start)
      with (max_version filelist_name fs start').
    destruct (IH start') as (Hle & Hall & Hex).
    assert (Hstart : (start <= start')%Z).
    { unfold start'. destruct (match_version filelist_name f); lia. }
    split; [lia|]. split.
    + intros g v [<-|Hg] Hv.
      * assert (Z.of_N v <= start')%Z by (unfold start'; rewrite Hv; lia). lia.
      * exact (Hall g v Hg Hv).
    + destruct Hex as [Hex|(g & v & Hg & Hv & Hmax)].
      * rewrite Hex. unfold start'.
        destruct (match_version filelist_name f) as [v|] eqn:Hv; [|now left].
        destruct (Z.max_spec start (Z.of_N v)) as [[_ ->]|[_ ->]]; [|now left].
        right. exists f, v. split; [now left|]. split; [exact Hv|reflexivity].
      * right. exists g, v. split; [now right|]. split; [exact Hv|exact Hmax].
Qed.

(** [get_next_index] is [0] when no name of the listing matches the
    pattern, and otherwise one more than the largest index among the names
    that match. *)
Lemma get_next_index_spec filelist_name filenames :
  ((forall f, In f filenames -> match_version filelist_name f = None) ->
   get_next_index filenames filelist_name = 0%Z)
  /\ (forall f v, In f filenames -> match_version filelist_name f = Some v ->
        (Z.of_N v < get_next_index filenames filelist_name)%Z)
  /\ ((exists f, In f filenames /\ match_version filelist_name f <> None) ->
      exists f v, In f filenames /\ match_version filelist_name f = Some v
                  /\ get_next_index filenames filelist_name = (Z.of_N v + 1)%Z)
  /\ (0 <= get_next_index filenames filelist_name)%Z.
Proof.
  unfold get_next_index.
  destruct (max_version_bounds filelist_name filenames (-1)) as (Hle & Hall & Hex).
  split; [|split; [|split]].
  - intros Hnone. destruct Hex as [->|(f & v & Hf & Hv & _)]; [reflexivity|].
    rewrite (Hnone f Hf) in Hv. discriminate.
  - intros f v Hf Hv. specialize (Hall f v Hf Hv). lia.
  - intros (f & Hf & Hsome). destruct Hex as [Heq|(g & v & Hg & Hv & ->)].
    + destruct (match_version filelist_name f) as [v|] eqn:Hv; [|now destruct Hsome].
      specialize (Hall f v Hf Hv). lia.
    + exists g, v. auto.
  - lia.
Qed.

(** The name [get_next_index] leads to is not in the directory. *)
Lemma next_shard_is_fresh filelist_name (files : gmap string shard_file) :
  files !! shard_name filelist_name
             (get_next_index (listdir_json files) filelist_name) = None.
Proof.
  destruct (get_next_index_spec filelist_name (listdir_json files))
    as (_ & Hlt & _ & Hnonneg).
  set (index := get_next_index (listdir_json files) filelist_name) in *.
  destruct (files !! shard_name filelist_name index) as [content|] eqn:Hfile;
    [|reflexivity].
  assert (Hin : In (shard_name filelist_name index) (listdir_json files)).
  { unfold listdir_json. apply list_elem_of_In, list_elem_of_fmap.
    exists (shard_name filelist_name index, content). split; [reflexivity|].
    now apply elem_of_map_to_list. }
  specialize (Hlt _ (Z.to_N index) Hin).
  rewrite <- (Z2N.id index Hnonneg) in Hlt at 1.
  rewrite match_version_shard_name in Hlt. specialize (Hlt eq_refl). lia.
Qed.

(** ** The shard writer *)

Section Writer_properties.
Context `{Platform}.
Variable listdir : string -> listing.
Variable out_dir : string.
Variable batch_size : Z.

(** A turn of the loop goes through when the file behind
    [json_file_path] exists, and then the next one exists too. *)
Lemma build_json_step_succeeds log name st row :
  is_Some (json_dir (on_disk st) !! json_file_path st) ->
  exists st',
    build_json_step listdir out_dir batch_size log name st row = Some st'
    /\ is_Some (json_dir (on_disk st') !! json_file_path st').
Proof.
  intros [content Hfile]. unfold build_json_step.
  destruct (extract_or_default _ _ _ _ _) as [article errors]. rewrite Hfile.
  destruct (Z.eqb _ _); eexists; (split; [reflexivity|]); cbn.
  - destruct (decide (json_file_path st
                      = shard_name name
                          (get_next_index (listdir_json (json_dir (on_disk st))) name)))
      as [->|Hne].
    + rewrite lookup_insert_eq. eauto.
    + rewrite lookup_insert_ne, lookup_insert_eq by exact Hne. eauto.
  - rewrite lookup_insert_eq. eauto.
Qed.

(** The loop never stops on an exception once its current file exists. *)
Lemma build_json_loop_total log name rows : forall st,
  is_Some (json_dir (on_disk st) !! json_file_path st) ->
  is_Some (build_json_loop listdir out_dir batch_size log name st rows).
Proof.
  induction rows as [|row rest IH]; intros st Hfile; cbn; [eauto|].
  destruct (build_json_step_succeeds log name st row Hfile) as (st' & -> & Hfile').
  now apply IH.
Qed.

Lemma build_json_init_file name d :
  is_Some (json_dir (on_disk (build_json_init name d))
             !! json_file_path (build_json_init name d)).
Proof.
  unfold build_json_init. cbn.
  destruct (json_dir d !! shard_name name 0) as [content|] eqn:Hfile; cbn.
  - rewrite Hfile. eauto.
  - rewrite lookup_insert_eq. eauto.
Qed.

(** [build_json] runs to the end of the manifest on every input. *)
Lemma build_json_total log file_list_path rows d :
  is_Some (build_json listdir out_dir batch_size log file_list_path rows d).
Proof.
  unfold build_json.
  destruct (build_json_loop_total log (filelist_name_of file_list_path) rows
              _ (build_json_init_file (filelist_name_of file_list_path) d))
    as [st ->].
  cbn. eauto.
Qed.

(** The files and the current file after a turn of the loop. *)
Lemma build_json_step_files log name st row content :
  json_dir (on_disk st) !! json_file_path st = Some content ->
  let files := json_dir (on_disk st) in
  let current_data := load_current_data content in
  let new_path := shard_name name (get_next_index (listdir_json files) name) in
  let rotate := (Z.of_nat (length current_data) =? batch_size - 1)%Z in
  exists st',
    build_json_step listdir out_dir batch_size log name st row = Some st'
    /\ json_dir (on_disk st')
       = <[json_file_path st
           := JsonArray (current_data
                         ++ [PDict (emitted_record listdir out_dir row)])]>
           (if rotate then <[new_path := JsonArray []]> files else files)
    /\ json_file_path st' = (if rotate then new_path else json_file_path st).
Proof.
  intros Hfile files current_data new_path rotate. unfold build_json_step.
  rewrite <- (extract_or_default_record listdir out_dir log row
                (error_log (on_disk st))).
  destruct (extract_or_default _ _ _ _ _) as [article errors]. rewrite Hfile.
  fold current_data. fold files. fold new_path. fold rotate.
  destruct rotate; eexists; (split; [reflexivity|]); cbn; split; reflexivity.
Qed.

(** A turn of the loop that finds the file behind [json_file_path] writes
    its record into that file.  When the file held batch size minus one
    records, a new shard is created empty first, under a name that was
    not in the directory, with the index [get_next_index] gives (one more
    than the largest index among the names that match the manifest name,
    0 when none matches), and it becomes the current file for the turns
    that follow.  With any other count no shard is created. *)
Lemma shard_rotation log name st row content :
  json_dir (on_disk st) !! json_file_path st = Some content ->
  let files := json_dir (on_disk st) in
  let current_data := load_current_data content in
  let index := get_next_index (listdir_json files) name in
  exists st',
    build_json_step listdir out_dir batch_size log name st row = Some st'
    /\ json_dir (on_disk st') !! json_file_path st
       = Some (JsonArray (current_data
                          ++ [PDict (emitted_record listdir out_dir row)]))
    /\ (Z.of_nat (length current_data) = (batch_size - 1)%Z ->
        json_file_path st' = shard_name name index
        /\ files !! shard_name name index = None
        /\ json_dir (on_disk st') !! shard_name name index = Some (JsonArray [])
        /\ (forall f v, In f (listdir_json files) ->
              match_version name f = Some v -> (Z.of_N v < index)%Z)
        /\ ((exists f, In f (listdir_json files) /\ match_version name f <> None) ->
            exists f v, In f (listdir_json files)
                        /\ match_version name f = Some v
                        /\ index = (Z.of_N v + 1)%Z)
        /\ ((forall f, In f (listdir_json files) -> match_version name f = None) ->
            index = 0%Z)
        /\ (forall f, f <> json_file_path st -> f <> shard_name name index ->
              json_dir (on_disk st') !! f = files !! f))
    /\ (Z.of_nat (length current_data) <> (batch_size - 1)%Z ->
        json_file_path st' = json_file_path st
        /\ (forall f, f <> json_file_path st ->
              json_dir (on_disk st') !! f = files !! f)).
Proof.
  intros Hfile files current_data index.
  pose proof (next_shard_is_fresh name files) as Hfresh. fold index in Hfresh.
  destruct (get_next_index_spec name (listdir_json files))
    as (Hzero & Hlt & Hmax & _). fold index in Hzero, Hlt, Hmax.
  assert (Hne : json_file_path st <> shard_name name index).
  { intros Heq. unfold files in Hfresh. rewrite <- Heq, Hfile in Hfresh.
    discriminate. }
  destruct (build_json_step_files log name st row content Hfile)
    as (st' & Hstep & Hfiles & Hpath).
  fold files current_data index in Hfiles, Hpath.
  exists st'. split; [exact Hstep|]. rewrite Hfiles, Hpath.
  split; [now rewrite lookup_insert_eq|].
  destruct (Z.eqb_spec (Z.of_nat (length current_data)) (batch_size - 1))
    as [Hfull|Hnot].
  - split; [|intros Hcount; contradiction].
    intros _. split; [reflexivity|]. split; [exact Hfresh|]. split.
    { rewrite lookup_insert_ne, lookup_insert_eq by exact Hne. reflexivity. }
    split; [exact Hlt|]. split; [exact Hmax|]. split; [exact Hzero|].
    intros f Hold Hnew. rewrite !lookup_insert_ne by congruence. reflexivity.
  - split; [intros Hcount; contradiction|].
    intros _. split; [reflexivity|].
    intros f Hold. rewrite lookup_insert_ne by congruence. reflexivity.
Qed.

(** The cap on shard sizes through one turn of the loop: if the current
    file holds fewer records than the batch size and every shard of the
    manifest holds at most the batch size, the same is true afterwards. *)
Lemma build_json_step_bounded log name st row st' content :
  (1 <= batch_size)%Z ->
  json_dir (on_disk st) !! json_file_path st = Some content ->
  (Z.of_nat (length (load_current_data content)) <= batch_size - 1)%Z ->
  shards_within name batch_size (json_dir (on_disk st)) ->
  build_json_step listdir out_dir batch_size log name st row = Some st' ->
  (exists content',
     json_dir (on_disk st') !! json_file_path st' = Some content'
     /\ (Z.of_nat (length (load_current_data content')) <= batch_size - 1)%Z)
  /\ shards_within name batch_size (json_dir (on_disk st')).
Proof.
  intros Hsize Hfile Hcurrent Hwithin Hstep.
  destruct (build_json_step_files log name st row content Hfile)
    as (st'' & Hstep' & Hfiles & Hpath).
  rewrite Hstep in Hstep'. injection Hstep' as <-.
  pose proof (next_shard_is_fresh name (json_dir (on_disk st))) as Hfresh.
  set (new_path := shard_name name
                     (get_next_index (listdir_json (json_dir (on_disk st))) name))
    in *.
  assert (Hne : json_file_path st <> new_path).
  { intros Heq. rewrite <- Heq, Hfile in Hfresh. discriminate. }
  rewrite Hfiles, Hpath.
  destruct (Z.eqb_spec (Z.of_nat (length (load_current_data content)))
              (batch_size - 1)) as [Hfull|Hnot].
  - split.
    + exists (JsonArray []).
      rewrite lookup_insert_ne, lookup_insert_eq by exact Hne.
      split; [reflexivity|]. cbn. lia.
    + intros f v content' Hf Hv.
      destruct (decide (f = json_file_path st)) as [->|Hold].
      * rewrite lookup_insert_eq in Hf. injection Hf as <-. cbn.
        rewrite length_app. cbn. lia.
      * rewrite lookup_insert_ne in Hf by congruence.
        destruct (decide (f = new_path)) as [->|Hnew].
        -- rewrite lookup_insert_eq in Hf. injection Hf as <-. cbn. lia.
        -- rewrite lookup_insert_ne in Hf by congruence.
           exact (Hwithin f v content' Hf Hv).
  - split.
    + eexists. rewrite lookup_insert_eq. split; [reflexivity|]. cbn.
      rewrite length_app. cbn. lia.
    + intros f v content' Hf Hv.
      destruct (decide (f = json_file_path st)) as [->|Hold].
      * rewrite lookup_insert_eq in Hf. injection Hf as <-. cbn.
        rewrite length_app. cbn. lia.
      * rewrite lookup_insert_ne in Hf by congruence.
        exact (Hwithin f v content' Hf Hv).
Qed.

Lemma build_json_loop_bounded log name rows : forall st st' content,
  (1 <= batch_size)%Z ->
  json_dir (on_disk st) !! json_file_path st = Some content ->
  (Z.of_nat (length (load_current_data content)) <= batch_size - 1)%Z ->
  shards_within name batch_size (json_dir (on_disk st)) ->
  build_json_loop listdir out_dir batch_size log name st rows = Some st' ->
  shards_within name batch_size (json_dir (on_disk st')).
Proof.
  induction rows as [|row rest IH]; intros st st' content Hsize Hfile Hcurrent
    Hwithin Hloop; cbn in Hloop.
  - now injection Hloop as <-.
  - destruct (build_json_step listdir out_dir batch_size log name st row)
      as [st1|] eqn:Hstep; [|discriminate].
    destruct (build_json_step_bounded log name st row st1 content
                Hsize Hfile Hcurrent Hwithin Hstep)
      as ((content1 & Hfile1 & Hcurrent1) & Hwithin1).
    exact (IH st1 st' content1 Hsize Hfile1 Hcurrent1 Hwithin1 Hloop).
Qed.

(** In one run of [build_json] with a batch size of at least one, started
    on a directory that has no file matching the manifest name, no shard
    of the manifest ends with more records than the batch size. *)
Lemma fresh_run_shards_bounded log file_list_path rows d d' :
  (1 <= batch_size)%Z ->
  (forall f, is_Some (json_dir d !! f) ->
     match_version (filelist_name_of file_list_path) f = None) ->
  build_json listdir out_dir batch_size log file_list_path rows d = Some d' ->
  shards_within (filelist_name_of file_list_path) batch_size (json_dir d').
Proof.
  intros Hsize Hfresh. unfold build_json.
  set (name := filelist_name_of file_list_path) in *.
  destruct (build_json_loop listdir out_dir batch_size log name
              (build_json_init name d) rows) as [st'|] eqn:Hloop; [|discriminate].
  cbn. intros [= <-].
  assert (Hnone : json_dir d !! shard_name name 0 = None).
  { destruct (json_dir d !! shard_name name 0) eqn:Hfile; [|reflexivity].
    pose proof (Hfresh _ (mk_is_Some _ _ Hfile)) as Hno.
    change 0%Z with (Z.of_N 0) in Hno.
    rewrite match_version_shard_name in Hno. discriminate. }
  apply (build_json_loop_bounded log name rows (build_json_init name d) st'
           (JsonArray []) Hsize); [| cbn; lia | | exact Hloop].
  - unfold build_json_init. cbn. rewrite Hnone. cbn. apply lookup_insert_eq.
  - unfold build_json_init. cbn. rewrite Hnone. cbn.
    intros f v content Hf Hv.
    destruct (decide (f = shard_name name 0)) as [->|Hne].
    + rewrite lookup_insert_eq in Hf. injection Hf as <-. cbn. lia.
    + rewrite lookup_insert_ne in Hf by congruence.
      rewrite (Hfresh f (mk_is_Some _ _ Hf)) in Hv. discriminate.
Qed.

End Writer_properties.

(** C6 on the code: batch size 2, a first run over two items, then a
    second run of [build_json] on the same manifest name with one more
    item.  The first run leaves shard 0 full; the second run appends to
    it, so that it holds three records. *)
Theorem restart_appends_to_the_full_shard_0 :
  exists d1 d2,
    build_json (H := CPython.platform) Sample.no_media Sample.out_dir 2 true
      Sample.manifest_path [Sample.row "PMC1"; Sample.row "PMC2"]
      Sample.empty_disk = Some d1
    /\ Sample.records_in d1 (shard_name Sample.filelist_name 0) = Some 2
    /\ build_json (H := CPython.platform) Sample.no_media Sample.out_dir 2 true
         Sample.manifest_path [Sample.row "PMC3"] d1 = Some d2
    /\ Sample.records_in d2 (shard_name Sample.filelist_name 0) = Some 3.
Proof.
  eexists _, _. split; [vm_compute; reflexivity|].
  split; [vm_compute; reflexivity|].
  split; vm_compute; reflexivity.
Qed.

(** C2 on the code: batch size 2, a first run over two items, and the
    state from which a second run of [build_json] on the same manifest
    name starts.  The current shard is shard 0 and holds two records, the
    batch size, before the next record is added, and the largest index in
    the directory is 1.  The turn of the loop opens no shard 2: it
    writes the record into shard 0, which stays the current shard and
    then holds three records, while shard 1 stays empty.  In the first
    run, where the third record would have followed at once, it would
    have gone into shard 1. *)
Theorem full_shard_is_reopened_without_rotation :
  exists d1,
    build_json (H := CPython.platform) Sample.no_media Sample.out_dir 2 true
      Sample.manifest_path [Sample.row "PMC1"; Sample.row "PMC2"]
      Sample.empty_disk = Some d1
    /\ let st := build_json_init (filelist_name_of Sample.manifest_path) d1 in
       json_file_path st = shard_name Sample.filelist_name 0
       /\ Sample.records_in (on_disk st) (json_file_path st) = Some 2%nat
       /\ get_next_index (listdir_json (json_dir (on_disk st))) Sample.filelist_name
          = 2%Z
       /\ exists st',
            build_json_step (H := CPython.platform) Sample.no_media Sample.out_dir 2
              true Sample.filelist_name st (Sample.row "PMC3") = Some st'
            /\ build_json (H := CPython.platform) Sample.no_media Sample.out_dir 2
                 true Sample.manifest_path [Sample.row "PMC3"] d1
               = Some (on_disk st')
            /\ json_file_path st' = shard_name Sample.filelist_name 0
            /\ Sample.records_in (on_disk st') (shard_name Sample.filelist_name 0)
               = Some 3%nat
            /\ Sample.records_in (on_disk st') (shard_name Sample.filelist_name 1)
               = Some 0%nat
            /\ Sample.records_in (on_disk st') (shard_name Sample.filelist_name 2)
               = None
            /\ (fun d => Sample.records_in d (shard_name Sample.filelist_name 1))
                 <$> build_json (H := CPython.platform) Sample.no_media
                       Sample.out_dir 2 true Sample.manifest_path
                       [Sample.row "PMC1"; Sample.row "PMC2"; Sample.row "PMC3"]
                       Sample.empty_disk
               = Some (Some 1%nat).
Proof.
  eexists. split; [vm_compute; reflexivity|]. cbv zeta.
  split; [vm_compute; reflexivity|]. split; [vm_compute; reflexivity|].
  split; [vm_compute; reflexivity|].
  eexists. split; [vm_compute; reflexivity|].
  repeat split; vm_compute; reflexivity.
Qed.

(** One run over five items with batch size 2 gives shards of 2, 2 and 1
    records. *)
Example five_items_in_one_run :
  (fun d => List.map (Sample.records_in d)
              [shard_name Sample.filelist_name 0;
               shard_name Sample.filelist_name 1;
               shard_name Sample.filelist_name 2;
               shard_name Sample.filelist_name 3])
  <$> build_json (H := CPython.platform) Sample.no_media Sample.out_dir 2 true
        Sample.manifest_path
        [Sample.row "PMC1"; Sample.row "PMC2"; Sample.row "PMC3";
         Sample.row "PMC4"; Sample.row "PMC5"]
        Sample.empty_disk
  = Some [Some 2; Some 2; Some 1; None].
Proof. vm_compute. reflexivity. Qed.

(** ** Batch-level resume *)

Lemma filter_permutation {A} (f : A -> bool) (l l' : list A) :
  Permutation l l' -> Permutation (List.filter f l) (List.filter f l').
Proof.
  induction 1 as [|x l l' _ IH|x y l|l l' l'' _ IH _ IH']; cbn.
  - constructor.
  - destruct (f x); [now constructor|exact IH].
  - destruct (f x), (f y); try reflexivity. constructor.
  - now transitivity (List.filter f l').
Qed.

(** The subset keeps the rows whose identity is not in the completion log,
    in the order of the manifest. *)
Lemma create_subset_is_a_filter (df1 : list article_row)
    (df2 : list (string * string)) :
  create_subset_based_on_file_diff df1 df2
  = List.filter
      (fun r => negb (bool_decide (Accession_ID r ∈ (list_to_set (df2.*1) : gset string))))
      df1.
Proof.
  unfold create_subset_based_on_file_diff. apply List.filter_ext_in.
  intros r Hr. apply eq_true_iff_eq. rewrite negb_true_iff, bool_decide_eq_true,
    bool_decide_eq_false, elem_of_difference, elem_of_list_to_set.
  split; [tauto|]. intros Hnot. split; [|exact Hnot].
  apply list_elem_of_fmap. exists r. split; [reflexivity|].
  now apply list_elem_of_In.
Qed.

Section Resume_properties.
Context `{Platform}.

(** C3: with a completion log on disk, the script does nothing when the
    log has as many rows as the manifest; otherwise [build_json] is run on
    the rows of the manifest whose [Accession_ID] is not in the log.  The
    identities of these rows are the set difference of the two identity
    sets, and the rows do not depend on where identities stand: a
    permuted manifest gives the same rows up to order, and a log with the
    same identities gives the same rows. *)
Theorem batch_level_resume (listdir : string -> listing)
    (data_dir filelist_batch_dir license : string) (batch_idx batch_size : Z)
    (manifest : list article_row) (d : disk) (completed : list (string * string)) :
  complete_log d = Some completed ->
  (length completed = length manifest ->
     script_04_work filelist_batch_dir license batch_idx manifest d = None
     /\ script_04 listdir data_dir filelist_batch_dir license batch_idx batch_size
          manifest d = Some d)
  /\
  (length completed <> length manifest ->
     exists file_list_path work,
       script_04_work filelist_batch_dir license batch_idx manifest d
       = Some (file_list_path, work)
       /\ script_04 listdir data_dir filelist_batch_dir license batch_idx batch_size
            manifest d
          = build_json listdir (data_dir +:+ "/" +:+ license +:+ "/media_files")
              batch_size true file_list_path work d
       /\ (forall r, In r work <->
             In r manifest /\ ~ In (Accession_ID r) (completed.*1))
       /\ (list_to_set (Accession_ID <$> work) : gset string)
          = list_to_set (Accession_ID <$> manifest) ∖ list_to_set (completed.*1)
       /\ (forall manifest',
             Permutation manifest manifest' ->
             exists work',
               script_04_work filelist_batch_dir license batch_idx manifest' d
               = Some (file_list_path, work')
               /\ Permutation work work')
       /\ (forall d' completed',
             complete_log d' = Some completed' ->
             length completed' <> length manifest ->
             (forall a, In a (completed'.*1) <-> In a (completed.*1)) ->
             script_04_work filelist_batch_dir license batch_idx manifest d'
             = Some (file_list_path, work))).
Proof.
  intros Hlog. unfold script_04, script_04_work, compare_csv_row_counts.
  rewrite Hlog. split.
  - intros Hlen. cbn. rewrite Hlen, Nat.eqb_refl. split; reflexivity.
  - intros Hlen. cbn [Nat.eqb].
    destruct (Nat.eqb_spec (length manifest) (length completed)) as [Heq|_];
      [now destruct Hlen|].
    eexists _, _. split; [reflexivity|]. split; [reflexivity|].
    rewrite create_subset_is_a_filter. split; [|split; [|split]].
    + intros r. rewrite List.filter_In, negb_true_iff, bool_decide_eq_false,
        elem_of_list_to_set, list_elem_of_In. reflexivity.
    + apply set_eq. intros a.
      rewrite elem_of_difference, !elem_of_list_to_set, !list_elem_of_fmap.
      split.
      * intros (r & -> & Hr). apply list_elem_of_In, List.filter_In in Hr
          as [Hr Hkeep].
        rewrite negb_true_iff, bool_decide_eq_false, elem_of_list_to_set,
          list_elem_of_fmap in Hkeep.
        split; [|exact Hkeep]. exists r. split; [reflexivity|].
        now apply list_elem_of_In.
      * intros [(r & -> & Hr) Hnot]. exists r. split; [reflexivity|].
        apply list_elem_of_In, List.filter_In. split; [now apply list_elem_of_In|].
        rewrite negb_true_iff, bool_decide_eq_false, elem_of_list_to_set,
          list_elem_of_fmap. exact Hnot.
    + intros manifest' Hperm. cbn [Nat.eqb].
      rewrite <- (Permutation_length Hperm).
      destruct (Nat.eqb_spec (length manifest) (length completed)) as [Heq|_];
        [now destruct Hlen; symmetry|].
      eexists. split; [reflexivity|].
      rewrite create_subset_is_a_filter. now apply filter_permutation.
    + intros d' completed' Hlog' Hlen' Hsame. rewrite Hlog'. cbn [Nat.eqb].
      destruct (Nat.eqb_spec (length manifest) (length completed')) as [Heq|_];
        [now destruct Hlen'|].
      do 2 f_equal. rewrite create_subset_is_a_filter.
      apply List.filter_ext. intros r. f_equal. apply bool_decide_ext.
      rewrite !elem_of_list_to_set, !list_elem_of_In. apply Hsame.
Qed.

End Resume_properties.

Lemma batch_level_resume_witness :
  complete_log Sample.one_completed = Some [("PMC2", "filelist_toy_batch_4_0.json")]
  /\ exists file_list_path,
       script_04_work "file_lists/" "toy" 4
         [Sample.row "PMC1"; Sample.row "PMC2"; Sample.row "PMC3"]
         Sample.one_completed
       = Some (file_list_path, [Sample.row "PMC1"; Sample.row "PMC3"]).
Proof.
  split; [reflexivity|].
  destruct (proj2 (batch_level_resume (H := CPython.platform) Sample.no_media
                     "data" "file_lists/" "toy" 4 2
                     [Sample.row "PMC1"; Sample.row "PMC2"; Sample.row "PMC3"]
                     Sample.one_completed _ eq_refl))
    as (file_list_path & work & Hwork & _); [cbn; lia|].
  exists file_list_path. rewrite Hwork. do 2 f_equal.
  assert (Hrun : snd <$> script_04_work "file_lists/" "toy" 4
                   [Sample.row "PMC1"; Sample.row "PMC2"; Sample.row "PMC3"]
                   Sample.one_completed
                 = Some [Sample.row "PMC1"; Sample.row "PMC3"])
    by (vm_compute; reflexivity).
  rewrite Hwork in Hrun. now injection Hrun.
Defined.

(** ** Context of figures *)

Lemma remove_duplicates_snoc (l : list string) (x : string) :
  remove_duplicates (l ++ [x])
  = if existsb (String.eqb x) (remove_duplicates l)
    then remove_duplicates l else remove_duplicates l ++ [x].
Proof. unfold remove_duplicates. now rewrite fold_left_app. Qed.

Lemma existsb_eqb_In (x : string) (l : list string) :
  existsb (String.eqb x) l = true <-> In x l.
Proof.
  rewrite List.existsb_exists. split.
  - intros (y & Hy & Heq). apply String.eqb_eq in Heq. now subst.
  - intros Hx. exists x. split; [exact Hx|apply String.eqb_refl].
Qed.

(** [remove_duplicates] keeps exactly the paragraphs of its argument, each
    once, in the order of the argument. *)
Lemma remove_duplicates_spec (l : list string) :
  List.NoDup (remove_duplicates l)
  /\ (forall x, In x (remove_duplicates l) <-> In x l)
  /\ sublist (remove_duplicates l) l.
Proof.
  induction l as [|x l (Hnodup & Hin & Hsub)] using rev_ind.
  - split; [constructor|]. split; [reflexivity|constructor].
  - rewrite remove_duplicates_snoc.
    destruct (existsb (String.eqb x) (remove_duplicates l)) eqn:Hseen.
    + apply existsb_eqb_In in Hseen. split; [exact Hnodup|]. split.
      * intros y. rewrite List.in_app_iff, Hin. cbn. split; [tauto|].
        intros [Hy|[<-|[]]]; [exact Hy|now apply Hin].
      * now apply sublist_inserts_r.
    + assert (Hnew : ~ In x (remove_duplicates l)).
      { intros Hx. apply existsb_eqb_In in Hx. congruence. }
      split; [|split].
      * apply NoDup_ListNoDup, NoDup_app. split; [now apply NoDup_ListNoDup|].
        split; [|apply NoDup_singleton].
        intros y Hy Hy'. apply list_elem_of_In in Hy.
        apply list_elem_of_singleton in Hy'. now subst.
      * intros y. rewrite !List.in_app_iff, Hin. reflexivity.
      * now apply sublist_app.
Qed.

Lemma dict_mem_get {V} (k : string) (d : list (string * V)) :
  Dict.mem k d = true <-> is_Some (Dict.get k d).
Proof.
  induction d as [|[k' v] d IH]; cbn.
  - split; [discriminate|intros [? [=]]].
  - destruct (String.eqb k' k); cbn; [split; eauto|exact IH].
Qed.

Lemma dict_get_set {V} (k k' : string) (v : V) (d : list (string * V)) :
  Dict.get k' (Dict.set k v d)
  = if String.eqb k k' then Some v else Dict.get k' d.
Proof.
  induction d as [|[k0 v0] d IH]; cbn.
  - reflexivity.
  - destruct (String.eqb_spec k0 k) as [->|Hne]; cbn.
    + destruct (String.eqb k k'); reflexivity.
    + destruct (String.eqb_spec k0 k') as [->|Hne'].
      * destruct (String.eqb_spec k k') as [->|_]; [now destruct Hne|reflexivity].
      * exact IH.
Qed.

(** [combine_paragraphs] groups by key: under a key are the paragraphs of
    the entries with that key, in the order of the entries, and a key
    without entry is absent. *)
Lemma combine_paragraphs_spec (paragraphs : list (string * string)) (k : string) :
  Dict.get k (combine_paragraphs paragraphs)
  = match List.filter (fun e => String.eqb (fst e) k) paragraphs with
    | [] => None
    | entries => Some (List.map snd entries)
    end.
Proof.
  induction paragraphs as [|[k' v] ps IH] using rev_ind; [reflexivity|].
  unfold combine_paragraphs in *. rewrite fold_left_app, List.filter_app. cbn.
  set (d := fold_left _ ps []) in *.
  assert (Hget : Dict.get k'
                   (if Dict.mem k' d then d else Dict.set k' [] d)
                 = Some (default [] (Dict.get k' d))).
  { destruct (Dict.mem k' d) eqn:Hmem.
    - apply dict_mem_get in Hmem as [old Hold]. now rewrite Hold.
    - rewrite dict_get_set, String.eqb_refl.
      destruct (Dict.get k' d) eqn:Hold; [|reflexivity].
      assert (Dict.mem k' d = true) by (apply dict_mem_get; eauto). congruence. }
  rewrite Hget, dict_get_set.
  destruct (String.eqb_spec k' k) as [->|Hne].
  - rewrite IH. destruct (List.filter _ ps) as [|e es]; cbn; [reflexivity|].
    now rewrite List.map_app.
  - rewrite List.app_nil_r.
    destruct (Dict.mem k' d); [exact IH|].
    rewrite dict_get_set. destruct (String.eqb_spec k' k); [contradiction|exact IH].
Qed.

Section Context_properties.
Context `{Platform}.

(** C5 on the code: in the sample document, paragraph P1 refers to figure
    F1 and paragraph P2 to figures F1 and F2, and both identifiers are in
    the mapping.  The context has the two paragraphs under the image of
    F1 and no entry for the image of F2: cleaning P2 for its first
    reference rewrites the [rid] of its second reference to the image
    name, which the mapping does not know. *)
Theorem second_reference_of_a_paragraph_is_lost :
  map_rid_to_image Sample.two_paragraphs !! "F1" = Some "img1"
  /\ map_rid_to_image Sample.two_paragraphs !! "F2" = Some "img2"
  /\ Tree.findall is_fig_xref Sample.two_paragraphs = [[0; 0; 0]; [0; 1; 0]; [0; 1; 1]]
  /\ extract_context Sample.two_paragraphs
     = [ ("img1",
          [ "See " +:+ et_tostring (Sample.xref "img1" "Fig 1" ".") +:+ ".";
            "Compare " +:+ et_tostring (Sample.xref "img1" "1" " and ") +:+ " and "
              +:+ et_tostring (Sample.xref "img2" "2" ".") +:+ "." ]) ]
  /\ Dict.get "img2" (extract_context Sample.two_paragraphs) = None.
Proof.
  split; [vm_compute; reflexivity|]. split; [vm_compute; reflexivity|].
  split; [vm_compute; reflexivity|]. split; vm_compute; reflexivity.
Qed.

End Context_properties.

(** * Further properties of the code *)

(** ** Strings *)

Lemma replace_char_map (c d : ascii) (s : string) :
  PyStr.replace (String c EmptyString) (String d EmptyString) s
  = PyStr.map_chars (fun x => if Ascii.eqb x c then d else x) s.
Proof.
  unfold PyStr.replace. induction s as [|x r IH]; [reflexivity|].
  cbn [PyStr.replace_from PyStr.map_chars String.prefix String.length Nat.sub].
  destruct (ascii_dec c x) as [->|Hne].
  - rewrite Ascii.eqb_refl.
    replace (String.prefix "" r) with true by now destruct r.
    change (String d (PyStr.replace_from (String x "") (String d "") 0 r)
            = String d (PyStr.map_chars (fun y => if Ascii.eqb y x then d else y) r)).
    now rewrite IH.
  - destruct (Ascii.eqb_spec x c) as [->|_]; [now destruct Hne|].
    now rewrite IH.
Qed.

Lemma map_chars_lstrip (f : ascii -> ascii) (s : string) :
  (forall c, PyStr.is_space (f c) = PyStr.is_space c) ->
  PyStr.lstrip (PyStr.map_chars f s) = PyStr.map_chars f (PyStr.lstrip s).
Proof.
  intros Hf. induction s as [|c r IH]; [reflexivity|]. cbn.
  rewrite Hf. destruct (PyStr.is_space c); [exact IH|reflexivity].
Qed.

Lemma map_chars_rstrip (f : ascii -> ascii) (s : string) :
  (forall c, PyStr.is_space (f c) = PyStr.is_space c) ->
  PyStr.rstrip (PyStr.map_chars f s) = PyStr.map_chars f (PyStr.rstrip s).
Proof.
  intros Hf. induction s as [|c r IH]; [reflexivity|]. cbn.
  rewrite IH, Hf. destruct (PyStr.rstrip r); cbn; [|reflexivity].
  destruct (PyStr.is_space c); reflexivity.
Qed.

Lemma map_chars_strip (f : ascii -> ascii) (s : string) :
  (forall c, PyStr.is_space (f c) = PyStr.is_space c) ->
  PyStr.strip (PyStr.map_chars f s) = PyStr.map_chars f (PyStr.strip s).
Proof.
  intros Hf. unfold PyStr.strip. now rewrite map_chars_lstrip, map_chars_rstrip.
Qed.

Lemma rstrip_rstrip (s : string) : PyStr.rstrip (PyStr.rstrip s) = PyStr.rstrip s.
Proof.
  induction s as [|c r IH]; [reflexivity|]. cbn.
  destruct (PyStr.rstrip r) as [|c' r'] eqn:Hr.
  - destruct (PyStr.is_space c) eqn:Hc; [reflexivity|]. cbn. now rewrite Hc.
  - change (PyStr.rstrip (String c (String c' r')))
      with (match PyStr.rstrip (String c' r') with
            | EmptyString =>
                if PyStr.is_space c then EmptyString else String c EmptyString
            | t => String c t
            end).
    now rewrite IH.
Qed.

Lemma rstrip_head (c : ascii) (r : string) :
  PyStr.rstrip (String c r) = EmptyString
  \/ exists r', PyStr.rstrip (String c r) = String c r'.
Proof.
  cbn. destruct (PyStr.rstrip r); [|eauto].
  destruct (PyStr.is_space c); eauto.
Qed.

Lemma lstrip_head (s : string) :
  PyStr.lstrip s = EmptyString
  \/ exists c r, PyStr.lstrip s = String c r /\ PyStr.is_space c = false.
Proof.
  induction s as [|c r IH]; [now left|]. cbn.
  destruct (PyStr.is_space c) eqn:Hc; [exact IH|]. right. eauto.
Qed.

(** A stripped string has no white space at either end: stripping it
    again changes nothing. *)
Lemma strip_fixed (s : string) :
  PyStr.lstrip (PyStr.strip s) = PyStr.strip s
  /\ PyStr.rstrip (PyStr.strip s) = PyStr.strip s.
Proof.
  unfold PyStr.strip. split; [|apply rstrip_rstrip].
  destruct (lstrip_head s) as [->|(c & r & -> & Hc)]; [reflexivity|].
  destruct (rstrip_head c r) as [->|[r' ->]]; [reflexivity|].
  cbn. now rewrite Hc.
Qed.

Lemma map_chars_map_chars (f g : ascii -> ascii) (s : string) :
  PyStr.map_chars f (PyStr.map_chars g s) = PyStr.map_chars (fun c => f (g c)) s.
Proof. induction s as [|c r IH]; [reflexivity|]. cbn. now rewrite IH. Qed.

Lemma map_chars_ext (f g : ascii -> ascii) (s : string) :
  (forall c, f c = g c) -> PyStr.map_chars f s = PyStr.map_chars g s.
Proof. intros Hfg. induction s as [|c r IH]; [reflexivity|]. cbn. now rewrite Hfg, IH. Qed.

Lemma map_chars_truthy (f : ascii -> ascii) (s : string) :
  PyStr.truthy (PyStr.map_chars f s) = PyStr.truthy s.
Proof. now destruct s. Qed.

Lemma hyphen_to_dot_space (c : ascii) :
  PyStr.is_space (hyphen_to_dot c) = PyStr.is_space c.
Proof.
  unfold hyphen_to_dot. destruct (Ascii.eqb_spec c "-") as [->|_]; reflexivity.
Qed.

Lemma hyphen_to_dot_twice (c : ascii) : hyphen_to_dot (hyphen_to_dot c) = hyphen_to_dot c.
Proof.
  unfold hyphen_to_dot. destruct (Ascii.eqb_spec c "-") as [->|Hne]; [reflexivity|].
  destruct (Ascii.eqb_spec c "-"); [contradiction|reflexivity].
Qed.

Lemma map_hyphen_free (s : string) :
  PyStr.contains_char "-" (PyStr.map_chars hyphen_to_dot s) = false.
Proof.
  induction s as [|c r IH]; [reflexivity|].
  cbn [PyStr.map_chars PyStr.contains_char]. rewrite IH, orb_false_r.
  unfold hyphen_to_dot. destruct (Ascii.eqb_spec c "-") as [->|Hne]; [reflexivity|].
  apply Ascii.eqb_neq. congruence.
Qed.

(** ** Identifier normalisation *)

(** X1: a normalised identifier has no hyphen and no white space at
    either end; an identifier written with hyphens and the same identifier
    written with dots normalise to the same value; and normalising a
    second time changes nothing unless the first result is the empty
    string, which a blank identifier gives and which then becomes [None]. *)
Theorem normalize_id_properties (rid : string) :
  (forall r, normalize_id (Some rid) = Some r ->
     PyStr.contains_char "-" r = false /\ PyStr.strip r = r)
  /\ normalize_id (Some (PyStr.replace "-" "." rid)) = normalize_id (Some rid)
  /\ (forall r, normalize_id (Some rid) = Some r -> r <> "" ->
        normalize_id (Some r) = Some r)
  /\ (PyStr.truthy rid = true -> PyStr.strip rid = "" ->
        normalize_id (Some rid) = Some "" /\ normalize_id (Some "") = None).
Proof.
  unfold normalize_id.
  assert (Hrep : forall s, PyStr.replace "-" "." s = PyStr.map_chars hyphen_to_dot s)
    by (intros s; apply replace_char_map).
  split; [|split; [|split]].
  - intros r. destruct (PyStr.truthy rid); [|discriminate]. intros [= <-].
    rewrite Hrep. split; [apply map_hyphen_free|].
    rewrite map_chars_strip by apply hyphen_to_dot_space.
    unfold PyStr.strip at 1.
    destruct (strip_fixed rid) as [Hl Hr]. now rewrite Hl, Hr.
  - rewrite !Hrep, map_chars_truthy. destruct (PyStr.truthy rid); [|reflexivity].
    rewrite map_chars_strip by apply hyphen_to_dot_space.
    rewrite map_chars_map_chars. f_equal. apply map_chars_ext, hyphen_to_dot_twice.
  - intros r. destruct (PyStr.truthy rid); [|discriminate]. intros [= <-] Hne.
    rewrite !Hrep in *.
    destruct (PyStr.truthy (PyStr.map_chars hyphen_to_dot (PyStr.strip rid))) eqn:Ht.
    + rewrite map_chars_strip by apply hyphen_to_dot_space.
      unfold PyStr.strip at 1. destruct (strip_fixed rid) as [Hl Hr].
      rewrite Hl, Hr, map_chars_map_chars. f_equal.
      apply map_chars_ext, hyphen_to_dot_twice.
    + unfold PyStr.truthy in Ht. apply negb_false_iff, String.eqb_eq in Ht.
      contradiction.
  - intros -> ->. split; reflexivity.
Qed.

Lemma normalize_id_properties_witness :
  normalize_id (Some " fig-1 ") = Some "fig.1"
  /\ normalize_id (Some "fig.1") = Some "fig.1"
  /\ normalize_id (Some "   ") = Some "".
Proof.
  destruct (normalize_id_properties " fig-1 ") as (_ & _ & Hagain & _).
  destruct (normalize_id_properties "   ") as (_ & _ & _ & Hblank).
  split; [reflexivity|]. split.
  - apply Hagain; [reflexivity|discriminate].
  - apply Hblank; reflexivity.
Defined.

(** ** Captions, journals and dates *)

Lemma strip_strip (s : string) : PyStr.strip (PyStr.strip s) = PyStr.strip s.
Proof.
  destruct (strip_fixed s) as [Hl Hr]. unfold PyStr.strip at 1. now rewrite Hl, Hr.
Qed.

(** X2: whatever [extract_caption_from_nxml] returns has no white space
    at either end. *)
Theorem caption_is_trimmed (file : option element) (image_identifier c : string) :
  extract_caption_from_nxml file image_identifier = Some c ->
  PyStr.strip c = c.
Proof.
  unfold extract_caption_from_nxml. destruct file as [root|]; [|discriminate].
  destruct (xpath_literal_ok image_identifier); [|discriminate].
  destruct (xpath_graphic root image_identifier) as [|[[figure|] g] rest].
  - intros [= <-]. reflexivity.
  - destruct (XML.find_descendant "caption" figure) as [caption|].
    + intros [= <-]. apply strip_strip.
    + intros [= <-]. reflexivity.
  - intros [= <-]. reflexivity.
Qed.

Lemma caption_is_trimmed_witness :
  extract_caption_from_nxml (Some Sample.three_figures) "img1" = Some "One."
  /\ PyStr.strip "One." = "One.".
Proof.
  split; [reflexivity|].
  exact (caption_is_trimmed (Some Sample.three_figures) "img1" "One." eq_refl).
Defined.

Lemma journal_rest_stops (j : string) (stop : ascii) (rest : string) :
  string_forall (fun c => CitationFields.journal_char c
                          && negb (CitationFields.journal_stop c)) j = true ->
  CitationFields.journal_stop stop = true ->
  CitationFields.journal_rest (j +:+ String stop rest) = Some j.
Proof.
  intros Hj Hstop. induction j as [|c r IH].
  - change (CitationFields.journal_rest (String stop rest) = Some "").
    cbn [CitationFields.journal_rest]. now rewrite Hstop.
  - change (CitationFields.journal_rest (String c (r +:+ String stop rest))
            = Some (String c r)).
    cbn [string_forall] in Hj. apply andb_prop in Hj as [Hc Hr].
    apply andb_prop in Hc as [Hclass Hnostop]. apply negb_true_iff in Hnostop.
    cbn [CitationFields.journal_rest]. rewrite Hnostop, Hclass, (IH Hr).
    reflexivity.
Qed.

(** X3: the journal is what precedes the first full stop or semicolon of
    the citation, stripped, when that part is not empty and is made of
    letters, white space, parentheses, commas and hyphens; a journal
    written with abbreviation dots is therefore cut at its first dot.  A
    citation that starts with any other character has no journal. *)
Theorem extract_journal_cuts_at_first_stop (j : string) (stop : ascii) (rest : string) :
  j <> "" ->
  string_forall (fun c => CitationFields.journal_char c
                          && negb (CitationFields.journal_stop c)) j = true ->
  CitationFields.journal_stop stop = true ->
  CitationFields.extract_journal (j +:+ String stop rest) = Some (PyStr.strip j)
  /\ (forall c r, CitationFields.journal_char c = false ->
        CitationFields.extract_journal (String c r) = None).
Proof.
  intros Hne Hj Hstop. split.
  - destruct j as [|c r]; [contradiction|].
    change (CitationFields.extract_journal (String c (r +:+ String stop rest))
            = Some (PyStr.strip (String c r))).
    cbn [string_forall] in Hj. apply andb_prop in Hj as [Hc Hr].
    apply andb_prop in Hc as [Hclass _].
    unfold CitationFields.extract_journal, CitationFields.journal_group.
    rewrite Hclass, (journal_rest_stops r stop rest Hr Hstop). reflexivity.
  - intros c r Hc. unfold CitationFields.extract_journal, CitationFields.journal_group.
    now rewrite Hc.
Qed.

Lemma extract_journal_cuts_at_first_stop_witness :
  CitationFields.extract_journal "J. Exp. Med. 2005 Jan 3; 201(1):1-4" = Some "J"
  /\ CitationFields.extract_journal "PLoS Biol; 2005" = Some "PLoS Biol"
  /\ CitationFields.extract_journal "2005 Jan 3. Nature" = None.
Proof.
  split; [|split].
  - apply (extract_journal_cuts_at_first_stop "J" "." " Exp. Med. 2005 Jan 3; 201(1):1-4");
      [discriminate|reflexivity|reflexivity].
  - apply (extract_journal_cuts_at_first_stop "PLoS Biol" ";" " 2005");
      [discriminate|reflexivity|reflexivity].
  - refine (proj2 (extract_journal_cuts_at_first_stop "J" "." "" _ eq_refl eq_refl)
                   "2"%char _ eq_refl).
    discriminate.
Defined.

Lemma capitalize_length (s : string) :
  String.length (PyStr.capitalize s) = String.length s.
Proof.
  destruct s as [|c r]; [reflexivity|]. cbn. f_equal.
  induction r as [|d r IH]; [reflexivity|]. cbn. now rewrite IH.
Qed.

Lemma months_keys_have_three_letters (k : string) :
  String.length k <> 3 -> Dict.get k CitationFields.months = None.
Proof.
  intros Hlen. unfold CitationFields.months. cbn [Dict.get].
  repeat (match goal with
          | |- context [String.eqb ?a k] =>
              destruct (String.eqb_spec a k) as [<-|_]; [now destruct Hlen|]
          end).
  reflexivity.
Qed.

(** X4: when the word after the year is not one of the five season names
    and does not have exactly three letters (a month written in full is
    read up to its sixth letter), [extract_date_from_citation] raises, and
    the date of the row is null instead of falling back on a default
    month. *)
Theorem spelled_out_month_gives_no_date `{Platform}
    (row : article_row) (after_title year month : string) (day : option string) :
  CitationFields.after_first_dot_space (Citation row) = Some after_title ->
  CitationFields.date_pattern after_title = Some (year, Some month, day) ->
  existsb (String.eqb month) CitationFields.season_names = false ->
  String.length month <> 3 ->
  CitationFields.extract_date_from_citation (Citation row) = None
  /\ Dict.get "date" (extract_info_from_filelist_row row) = Some PNone.
Proof.
  intros Hafter Hpattern Hseason Hlen.
  assert (Hraise : CitationFields.extract_date_from_citation (Citation row) = None).
  { unfold CitationFields.extract_date_from_citation.
    rewrite Hafter, Hpattern, Hseason. unfold CitationFields.parse_month_str.
    rewrite months_keys_have_three_letters by now rewrite capitalize_length.
    now destruct (PyStr.truthy month). }
  split; [exact Hraise|].
  unfold extract_info_from_filelist_row. rewrite Hraise. reflexivity.
Qed.

Lemma spelled_out_month_gives_no_date_witness :
  CitationFields.date_pattern "2005 January 2; 3(4):e100"
  = Some ("2005", Some "Januar", None)
  /\ Dict.get "date"
       (extract_info_from_filelist_row (H := CPython.platform)
          {| File := "f"; Citation := "Nature. 2005 January 2; 3(4):e100";
             Accession_ID := "PMC1"; Date := ""; License := ""; PMID := "" |})
     = Some PNone.
Proof.
  split; [reflexivity|].
  apply (spelled_out_month_gives_no_date (H := CPython.platform)
           {| File := "f"; Citation := "Nature. 2005 January 2; 3(4):e100";
              Accession_ID := "PMC1"; Date := ""; License := ""; PMID := "" |}
           "2005 January 2; 3(4):e100" "2005" "Januar" None);
    [reflexivity | reflexivity | reflexivity | cbn; lia].
Defined.

(** ** Metadata of the document and of the manifest row *)

Section Metadata_properties.
Context `{Platform}.

(** X5: when the document has one [article-id] element only, so that
    [xmltodict] gives a dictionary instead of a list, the search for the
    PMID raises inside the common [try] block and the title, the keywords
    and the categories are lost with it: all six fields are null. *)
Theorem lone_article_id_blanks_the_metadata (content : pyval)
    (d : list (string * pyval)) :
  search_nested_dict content "article-id" = PDict d ->
  d <> [] ->
  extract_metadata_from_nxml (Some content)
  = Some [ ("title", PNone); ("keyword", PNone); ("pmid", PNone);
           ("article_categories", PNone); ("abstract", PNone); ("mesh", PNone) ].
Proof.
  intros Hids Hne. unfold extract_metadata_from_nxml, metadata_fields.
  rewrite Hids.
  destruct (or_none <$> article_title_of (search_nested_dict content "title-group"))
    as [title|]; cbn; destruct d; try contradiction; reflexivity.
Qed.

(** X6: a PMID in the manifest row takes precedence over the one found in
    the document, which is dropped; with no PMID in the row the record has
    the PMID of the document, or null when the metadata could not be
    extracted. *)
Theorem manifest_pmid_takes_precedence listdir out_dir file_path row article
    path_to_nxml :
  build_nxml_metadata listdir out_dir file_path row = Returned article ->
  get_nxml_path (path_to_media out_dir file_path)
                (listdir (path_to_media out_dir file_path)) = inr path_to_nxml ->
  (PMID row <> "" -> Dict.get "pmid" article = Some (PStr (PMID row)))
  /\ (PMID row = "" ->
      Dict.get "pmid" article
      = match extract_metadata_from_nxml
                (path_to_nxml ≫= (fun pf => xmltodict (snd pf))) with
        | Some metadata => Dict.get "pmid" metadata
        | None => Some PNone
        end).
Proof.
  unfold build_nxml_metadata. intros Hbuild Hpath. rewrite Hpath in Hbuild.
  injection Hbuild as <-. unfold extract_info_from_filelist_row.
  destruct (extract_metadata_from_nxml _) as [meta|] eqn:Hmeta.
  - destruct (metadata_keys _ _ Hmeta) as (title & keyword & pmid & cats & ->).
    unfold str_or_none. split.
    + intros Hne. destruct (String.eqb_spec (PMID row) ""); [contradiction|].
      reflexivity.
    + intros ->. reflexivity.
  - unfold str_or_none. split.
    + intros Hne. destruct (String.eqb_spec (PMID row) ""); [contradiction|].
      reflexivity.
    + intros ->. reflexivity.
Qed.

Lemma append_not_empty (a : string) (c : ascii) (b : string) :
  String.eqb (a +:+ String c b) "" = false.
Proof. destruct a; reflexivity. Qed.

Lemma endswith_not_empty (suffix name : string) :
  suffix <> "" -> PyStr.endswith suffix name = true -> name <> "".
Proof.
  intros Hsuffix Hends ->. cbn in Hends. rewrite orb_false_r in Hends.
  apply String.eqb_eq in Hends. contradiction.
Qed.

Lemma files_with_suffix_jpg directory entries :
  List.map fst (files_with_suffix ".jpg" directory entries)
  = List.map (path_join directory) (jpg_names entries).
Proof.
  unfold files_with_suffix, jpg_names.
  induction entries as [|e entries IH]; [reflexivity|].
  cbn [flat_map]. rewrite List.map_app, IH.
  destruct e as [name|name content]; [reflexivity|].
  destruct (PyStr.endswith ".jpg" name); reflexivity.
Qed.

Lemma path_join_not_empty directory name :
  name <> "" -> String.eqb (path_join directory name) "" = false.
Proof.
  intros Hname. unfold path_join.
  destruct (String.eqb_spec name ""); [contradiction|].
  apply (append_not_empty directory "/" name).
Qed.

Lemma jpg_names_not_empty entries name :
  In name (jpg_names entries) -> name <> "".
Proof.
  unfold jpg_names. rewrite List.in_flat_map. intros ([n|n content] & _ & Hin); [easy|].
  destruct (PyStr.endswith ".jpg" n) eqn:Hends; [|easy].
  destruct Hin as [<-|[]]. now apply (endswith_not_empty ".jpg" n).
Qed.

Lemma build_figure_set_paths path_to_nxml (paths : list (string * file)) :
  Forall (fun pf => String.eqb (fst pf) "" = false) paths ->
  List.map (figure_field "image_path")
    (build_figure_set path_to_nxml
       (match paths with [] => None | _ => Some paths end))
  = List.map (fun pf => Some (PStr (fst pf))) paths.
Proof.
  intros Hpaths. unfold build_figure_set, get_image_identifier.
  destruct paths as [|pf0 paths0]; [reflexivity|].
  set (paths := pf0 :: paths0) in *. clearbody paths. clear pf0 paths0.
  induction Hpaths as [|pf paths Hpf _ IH]; [reflexivity|].
  cbn [List.map List.combine]. rewrite IH. f_equal.
  cbn. unfold str_or_none. now rewrite Hpf.
Qed.

(** X7: the figure set of an assembled record is a list, never null, with
    one entry for each regular file of the media directory whose name ends
    with [.jpg], in listing order, and the entry carries the full path of
    that file; a directory without such a file gives the empty list. *)
Theorem figure_set_lists_the_jpg_files listdir out_dir file_path row article entries :
  build_nxml_metadata listdir out_dir file_path row = Returned article ->
  listdir (path_to_media out_dir file_path) = Listed entries ->
  exists figure_set,
    Dict.get "figure_set" article = Some (PList figure_set)
    /\ length figure_set = length (jpg_names entries)
    /\ List.map (figure_field "image_path") figure_set
       = List.map (fun name =>
                     Some (PStr (path_join (path_to_media out_dir file_path) name)))
                  (jpg_names entries).
Proof.
  intros Hbuild Hlist.
  destruct (build_nxml_metadata_shape _ _ _ _ _ Hbuild)
    as (path_to_nxml & _ & title & keyword & pmid & cats & ctx & nxml & ->).
  eexists. split; [reflexivity|]. rewrite Hlist. unfold get_image_paths.
  set (media := path_to_media out_dir file_path).
  pose proof (files_with_suffix_jpg media entries) as Hnames.
  assert (Hpaths : Forall (fun pf => String.eqb (fst pf) "" = false)
                          (files_with_suffix ".jpg" media entries)).
  { apply List.Forall_forall. intros pf Hpf.
    apply (List.in_map fst) in Hpf. rewrite Hnames in Hpf.
    apply List.in_map_iff in Hpf as (name & <- & Hname).
    apply path_join_not_empty. now apply (jpg_names_not_empty entries). }
  pose proof (build_figure_set_paths path_to_nxml _ Hpaths) as Hfigs.
  assert (Hmap : List.map (figure_field "image_path")
                   (build_figure_set path_to_nxml
                      match files_with_suffix ".jpg" media entries with
                      | [] => None
                      | p :: l => Some (p :: l)
                      end)
                 = List.map (fun name => Some (PStr (path_join media name)))
                            (jpg_names entries)).
  { destruct (files_with_suffix ".jpg" media entries) as [|pf paths] eqn:Hfiles.
    - destruct (jpg_names entries); [reflexivity|discriminate].
    - rewrite Hfigs, <- (List.map_map fst (fun p => Some (PStr p))), Hnames.
      now rewrite List.map_map. }
  split; [|exact Hmap].
  apply (f_equal (@length _)) in Hmap. now rewrite !List.length_map in Hmap.
Qed.

(** X8: when the media directory has no [.nxml] file, or when the first
    one can be read neither as XML nor by [xmltodict], the record keeps
    the fields of the manifest row and its figure list, and everything
    that comes from the document is null: title, keywords, categories,
    context, text and every caption. *)
Theorem record_without_document listdir out_dir file_path row article path_to_nxml :
  build_nxml_metadata listdir out_dir file_path row = Returned article ->
  get_nxml_path (path_to_media out_dir file_path)
                (listdir (path_to_media out_dir file_path)) = inr path_to_nxml ->
  path_to_nxml ≫= (fun pf => xml (snd pf)) = None ->
  path_to_nxml ≫= (fun pf => xmltodict (snd pf)) = None ->
  Dict.get "title" article = Some PNone
  /\ Dict.get "keyword" article = Some PNone
  /\ Dict.get "article_categories" article = Some PNone
  /\ Dict.get "context" article = Some PNone
  /\ Dict.get "nxml" article = Some PNone
  /\ Dict.get "pmid" article = Some (str_or_none (PMID row))
  /\ Dict.get "accession_id" article = Some (str_or_none (Accession_ID row))
  /\ Dict.get "citation" article = Some (str_or_none (Citation row))
  /\ exists figure_set,
       Dict.get "figure_set" article = Some (PList figure_set)
       /\ Forall (fun entry => figure_field "caption" entry = Some PNone) figure_set.
Proof.
  unfold build_nxml_metadata. intros Hbuild Hpath Hxml Hdict.
  rewrite Hpath in Hbuild. injection Hbuild as <-.
  rewrite Hxml, Hdict. unfold extract_info_from_filelist_row.
  cbn [extract_metadata_from_nxml default fmap option_fmap option_map of_option].
  assert (Hfigs : Forall (fun entry => figure_field "caption" entry = Some PNone)
                    (build_figure_set path_to_nxml
                       (get_image_paths (path_to_media out_dir file_path)
                          (listdir (path_to_media out_dir file_path))))).
  { unfold build_figure_set.
    destruct (get_image_identifier _) as [ids|]; [|constructor].
    destruct (get_image_paths _ _) as [paths|]; [|constructor].
    apply List.Forall_forall. intros entry Hentry.
    apply List.in_map_iff in Hentry as ([id image] & <- & _).
    unfold image_dict. rewrite Hxml. reflexivity. }
  unfold str_or_none at 6.
  destruct (String.eqb (PMID row) "") eqn:Hpmid; cbn;
    unfold str_or_none; rewrite ?Hpmid; repeat split; eauto.
Qed.

End Metadata_properties.

Lemma lone_article_id_blanks_the_metadata_witness :
  extract_metadata_from_nxml (H := CPython.platform) (Some Fixture.lone_article_id)
  = Some [ ("title", PNone); ("keyword", PNone); ("pmid", PNone);
           ("article_categories", PNone); ("abstract", PNone); ("mesh", PNone) ].
Proof.
  apply (lone_article_id_blanks_the_metadata (H := CPython.platform)
           Fixture.lone_article_id
           [("@pub-id-type", PStr "pmid"); ("#text", PStr "15000001")]);
    [reflexivity|discriminate].
Defined.

Lemma manifest_pmid_takes_precedence_witness :
  Dict.get "pmid"
    (emitted_record (H := CPython.platform) Fixture.media Sample.out_dir
       Fixture.row_with_pmid) = Some (PStr "15000000")
  /\ Dict.get "pmid"
       (emitted_record (H := CPython.platform) Fixture.media Sample.out_dir
          (Sample.row "PMC1")) = Some (PStr "15000001").
Proof.
  split.
  - eapply (proj1 (manifest_pmid_takes_precedence (H := CPython.platform)
                     Fixture.media Sample.out_dir
                     ("/pub/pmc/" +:+ File Fixture.row_with_pmid)
                     Fixture.row_with_pmid _ _ eq_refl eq_refl)).
    discriminate.
  - refine (eq_trans
              (proj2 (manifest_pmid_takes_precedence (H := CPython.platform)
                        Fixture.media Sample.out_dir
                        ("/pub/pmc/" +:+ File (Sample.row "PMC1"))
                        (Sample.row "PMC1") _ _ eq_refl eq_refl) eq_refl) _).
    reflexivity.
Defined.

Lemma figure_set_lists_the_jpg_files_witness :
  exists figure_set,
    Dict.get "figure_set"
      (emitted_record (H := CPython.platform) Fixture.media Sample.out_dir
         (Sample.row "PMC1")) = Some (PList figure_set)
    /\ length figure_set = 2
    /\ List.map (figure_field "image_path") figure_set
       = [ Some (PStr "data/toy/media_files/PMC1/img1.jpg");
           Some (PStr "data/toy/media_files/PMC1/img2.jpg") ].
Proof.
  exact (figure_set_lists_the_jpg_files (H := CPython.platform)
           Fixture.media Sample.out_dir
           ("/pub/pmc/" +:+ File (Sample.row "PMC1")) (Sample.row "PMC1")
           _ _ eq_refl eq_refl).
Defined.

Lemma record_without_document_witness :
  Dict.get "title"
    (emitted_record (H := CPython.platform) Sample.broken_media Sample.out_dir
       Fixture.row_with_pmid) = Some PNone
  /\ Dict.get "pmid"
       (emitted_record (H := CPython.platform) Sample.broken_media Sample.out_dir
          Fixture.row_with_pmid) = Some (PStr "15000000").
Proof.
  destruct (record_without_document (H := CPython.platform)
              Sample.broken_media Sample.out_dir
              ("/pub/pmc/" +:+ File Fixture.row_with_pmid) Fixture.row_with_pmid
              _ _ eq_refl eq_refl eq_refl eq_refl)
    as (Htitle & _ & _ & _ & _ & Hpmid & _).
  split; [exact Htitle|exact Hpmid].
Defined.

(** ** The pattern of shard names *)

Lemma prefix_split (a s : string) :
  String.prefix a s = true -> s = a +:+ PyStr.drop (String.length a) s.
Proof.
  revert s. induction a as [|c a IH]; intros s Hprefix; [reflexivity|].
  destruct s as [|c' s]; [discriminate|]. simpl in Hprefix.
  destruct (ascii_dec c c') as [<-|_]; [|discriminate].
  change (String c s = String c (a +:+ PyStr.drop (String.length a) s)).
  f_equal. now apply IH.
Qed.

Lemma span_split (p : ascii -> bool) (s t u : string) :
  span p s = (t, u) -> s = t +:+ u /\ string_forall p t = true.
Proof.
  revert t u. induction s as [|c s IH]; intros t u Hspan; cbn in Hspan.
  - injection Hspan as <- <-. split; reflexivity.
  - destruct (p c) eqn:Hc.
    + destruct (span p s) as [t' u'] eqn:Hrest. injection Hspan as <- <-.
      destruct (IH t' u' eq_refl) as [-> Hall]. split; [reflexivity|].
      cbn. now rewrite Hc.
    + injection Hspan as <- <-. split; reflexivity.
Qed.

Lemma all_digits_forall (s : string) :
  all_digits s = string_forall PyStr.is_digit s.
Proof. induction s as [|c s IH]; [reflexivity|]. cbn. now rewrite IH. Qed.

Lemma match_version_digits (name digits rest : string) :
  digits <> "" -> all_digits digits = true ->
  match_version name (name +:+ "_" +:+ digits +:+ ".json" +:+ rest)
  = Some (int_of_digits digits).
Proof.
  intros Hne Hdigits. unfold match_version.
  rewrite <- (append_assoc name "_").
  rewrite prefix_append, drop_append.
  rewrite (span_digits_append digits (".json" +:+ rest) Hdigits eq_refl).
  rewrite (prefix_append ".json" rest).
  destruct digits; [contradiction|reflexivity].
Qed.

(** X9: the names [get_next_index] takes for shards of a manifest are
    exactly those that begin with the manifest name, an underscore, one or
    more decimal digits and [.json]; whatever follows is ignored, and
    leading zeros are.  The name [build_json] gives to shard [n] is
    recognised with index [n], also with something appended, and two
    indices give two names. *)
Theorem shard_pattern (name : string) :
  (forall f v,
     match_version name f = Some v <->
     exists digits rest,
       f = name +:+ "_" +:+ digits +:+ ".json" +:+ rest
       /\ digits <> "" /\ all_digits digits = true /\ int_of_digits digits = v)
  /\ (forall n suffix,
        match_version name (shard_name name (Z.of_N n) +:+ suffix) = Some n)
  /\ (forall m n,
        shard_name name (Z.of_N m) = shard_name name (Z.of_N n) -> m = n).
Proof.
  split; [|split].
  - intros f v. split.
    + unfold match_version. intros Hmatch.
      destruct (String.prefix (name +:+ "_") f) eqn:Hprefix; [|discriminate].
      apply prefix_split in Hprefix.
      destruct (span PyStr.is_digit _) as [digits rest] eqn:Hspan.
      apply span_split in Hspan as [Hsplit Hdigits].
      destruct (PyStr.truthy digits) eqn:Htruthy; [|discriminate].
      destruct (String.prefix ".json" rest) eqn:Hjson; [|discriminate].
      apply prefix_split in Hjson. cbn in Hmatch. injection Hmatch as <-.
      exists digits, (PyStr.drop (String.length ".json") rest).
      rewrite <- Hjson, <- Hsplit, <- (append_assoc name "_"), <- Hprefix.
      split; [reflexivity|]. split; [now destruct digits|].
      split; [now rewrite all_digits_forall|reflexivity].
    + intros (digits & rest & -> & Hne & Hdigits & <-).
      now apply match_version_digits.
  - intros n suffix. unfold shard_name. rewrite str_of_Z_of_N.
    rewrite !append_assoc.
    rewrite (match_version_digits name (str_of_N n) suffix).
    + now rewrite int_of_digits_str_of_N.
    + pose proof (str_of_N_truthy n) as Htruthy. now destruct (str_of_N n).
    + apply str_of_N_digits.
  - intros m n. apply shard_name_inj.
Qed.

Lemma max_version_same_names name l l' start :
  (forall f, In f l -> In f l') ->
  (max_version name l start <= max_version name l' start)%Z.
Proof.
  intros Hsub.
  destruct (max_version_bounds name l start) as (_ & _ & Hattained).
  destruct (max_version_bounds name l' start) as (Hstart & Hall & _).
  destruct Hattained as [->|(f & v & Hf & Hv & ->)]; [exact Hstart|].
  exact (Hall f v (Hsub f Hf) Hv).
Qed.

(** X10: the index [get_next_index] returns depends on which names the
    listing has, not on their order or on repetitions; names that do not
    match the pattern do not count; it is greater than the index of every
    shard listed, and the shard name it leads to is not in the
    directory. *)
Theorem get_next_index_properties (name : string) :
  (forall l l', (forall f, In f l <-> In f l') ->
     get_next_index l name = get_next_index l' name)
  /\ (forall l other, (forall f, In f other -> match_version name f = None) ->
        get_next_index (other ++ l) name = get_next_index l name)
  /\ (forall l n, In (shard_name name (Z.of_N n)) l ->
        (Z.of_N n < get_next_index l name)%Z)
  /\ (forall files : gmap string shard_file,
        files !! shard_name name (get_next_index (listdir_json files) name) = None).
Proof.
  split; [|split; [|split]].
  - intros l l' Hsame. unfold get_next_index.
    pose proof (max_version_same_names name l l' (-1) (fun f => proj1 (Hsame f))).
    pose proof (max_version_same_names name l' l (-1) (fun f => proj2 (Hsame f))).
    lia.
  - intros l other Hother. unfold get_next_index, max_version.
    rewrite fold_left_app. f_equal. f_equal.
    induction other as [|f other IH]; [reflexivity|]. cbn [fold_left].
    rewrite (Hother f (or_introl eq_refl)). apply IH.
    intros g Hg. apply Hother. now right.
  - intros l n Hin.
    destruct (get_next_index_spec name l) as (_ & Hlt & _).
    exact (Hlt _ n Hin (match_version_shard_name name n)).
  - apply next_shard_is_fresh.
Qed.

Lemma get_next_index_properties_witness :
  get_next_index ["x_1.json"; "x_0.json"; "x_1.json"] "x"
  = get_next_index ["x_0.json"; "x_1.json"] "x"
  /\ get_next_index (["y_7.json"; "x_7.txt"] ++ ["x_1.json"]) "x"
     = get_next_index ["x_1.json"] "x"
  /\ (Z.of_N 4 < get_next_index ["x_0.json"; shard_name "x" (Z.of_N 4)] "x")%Z.
Proof.
  split; [|split].
  - apply (proj1 (get_next_index_properties "x")).
    intros f. cbn. tauto.
  - apply (proj1 (proj2 (get_next_index_properties "x"))).
    intros f [<-|[<-|[]]]; reflexivity.
  - apply (proj1 (proj2 (proj2 (get_next_index_properties "x")))).
    right. left. reflexivity.
Defined.

(** ** A run of [build_json] as a whole *)

Lemma total_records_insert_fresh (files : gmap string shard_file) k content :
  files !! k = None ->
  total_records (<[k := content]> files)
  = length (load_current_data content) + total_records files.
Proof.
  intros Hfresh. unfold total_records.
  apply (map_fold_insert_L
           (fun _ c n => length (load_current_data c) + n) 0 k content files);
    [|exact Hfresh].
  intros. lia.
Qed.

Lemma total_records_insert (files : gmap string shard_file) k old content :
  files !! k = Some old ->
  total_records (<[k := content]> files) + length (load_current_data old)
  = length (load_current_data content) + total_records files.
Proof.
  intros Hold. rewrite <- (insert_delete_eq files k content).
  rewrite <- (insert_delete_id files k old Hold) at 2.
  rewrite !total_records_insert_fresh by apply lookup_delete_eq. lia.
Qed.

Section Run_properties.
Context `{Platform}.
Variable listdir : string -> listing.
Variable out_dir : string.
Variable batch_size : Z.

Lemma build_json_loop_app log name rows rows' st :
  build_json_loop listdir out_dir batch_size log name st (rows ++ rows')
  = build_json_loop listdir out_dir batch_size log name st rows
      ≫= (fun st' => build_json_loop listdir out_dir batch_size log name st' rows').
Proof.
  revert st. induction rows as [|row rows IH]; intros st; [reflexivity|].
  cbn [app build_json_loop].
  destruct (build_json_step listdir out_dir batch_size log name st row);
    [apply IH|reflexivity].
Qed.

(** The two logs after a turn of the loop. *)
Lemma build_json_step_logs log name st row st' :
  build_json_step listdir out_dir batch_size log name st row = Some st' ->
  complete_log (on_disk st')
  = (if log
     then Some (default [] (complete_log (on_disk st))
                  ++ [(Accession_ID row, json_file_path st')])
     else complete_log (on_disk st))
  /\ (if log
      then exists extra,
             default [] (error_log (on_disk st'))
             = default [] (error_log (on_disk st)) ++ extra
      else error_log (on_disk st') = error_log (on_disk st)).
Proof.
  unfold build_json_step, extract_or_default, log_error, log_append.
  destruct (build_nxml_metadata _ _ _ _) as [article|message];
    destruct (json_dir (on_disk st) !! json_file_path st) as [content|];
    try discriminate;
    destruct (Z.eqb _ _); intros [= <-]; cbn; destruct log; cbn;
    (split; [reflexivity|]); try reflexivity;
    destruct content; cbn.
  all: try (exists []; now rewrite List.app_nil_r).
  all: try (eexists [_]; reflexivity).
  all: try (eexists [_; _]; now rewrite <- List.app_assoc).
  all: reflexivity.
Qed.

Lemma build_json_loop_logs log name rows : forall st st',
  build_json_loop listdir out_dir batch_size log name st rows = Some st' ->
  (if log
   then (exists shards,
           length shards = length rows
           /\ default [] (complete_log (on_disk st'))
              = default [] (complete_log (on_disk st))
                  ++ combine (Accession_ID <$> rows) shards)
        /\ (is_Some (complete_log (on_disk st)) \/ rows <> [] ->
            is_Some (complete_log (on_disk st')))
        /\ exists extra,
             default [] (error_log (on_disk st'))
             = default [] (error_log (on_disk st)) ++ extra
   else complete_log (on_disk st') = complete_log (on_disk st)
        /\ error_log (on_disk st') = error_log (on_disk st)).
Proof.
  induction rows as [|row rows IH]; intros st st' Hloop; cbn in Hloop.
  - injection Hloop as <-. destruct log; [|split; reflexivity].
    split; [exists []; split; [reflexivity|now rewrite List.app_nil_r]|].
    split; [intros [Hsome|Hrows]; [exact Hsome|contradiction]|].
    exists []. now rewrite List.app_nil_r.
  - destruct (build_json_step listdir out_dir batch_size log name st row)
      as [st1|] eqn:Hstep; [|discriminate].
    destruct (build_json_step_logs log name st row st1 Hstep) as [Hcomplete Herror].
    specialize (IH st1 st' Hloop). destruct log.
    + destruct IH as ((shards & Hlen & Hrows) & Hsome & (extra & Hextra)).
      destruct Herror as (extra1 & Hextra1).
      split; [|split].
      * exists (json_file_path st1 :: shards). split; [cbn; now rewrite Hlen|].
        rewrite Hrows, Hcomplete. cbn. now rewrite <- List.app_assoc.
      * intros _. apply Hsome. left. rewrite Hcomplete. eauto.
      * exists (extra1 ++ extra). now rewrite Hextra, Hextra1, <- List.app_assoc.
    + destruct IH as [-> ->]. split; assumption.
Qed.

Lemma build_json_init_logs name d :
  complete_log (on_disk (build_json_init name d)) = complete_log d
  /\ error_log (on_disk (build_json_init name d)) = error_log d.
Proof.
  unfold build_json_init. cbn.
  destruct (json_dir d !! shard_name name 0); split; reflexivity.
Qed.

(** X11: [build_json] runs to the end of the manifest and only ever adds
    to the two logs.  With [log] set, the completion log gets one row for
    each row of the manifest, in the order of the manifest and with its
    [Accession_ID], after the rows it had, and the error log keeps the
    rows it had; without [log] both logs are left as they were. *)
Theorem logs_are_append_only log file_list_path rows d :
  exists d',
    build_json listdir out_dir batch_size log file_list_path rows d = Some d'
    /\ (log = true ->
        (exists shards,
           length shards = length rows
           /\ default [] (complete_log d')
              = default [] (complete_log d)
                  ++ combine (Accession_ID <$> rows) shards)
        /\ (rows <> [] -> is_Some (complete_log d'))
        /\ exists extra,
             default [] (error_log d') = default [] (error_log d) ++ extra)
    /\ (log = false ->
        complete_log d' = complete_log d /\ error_log d' = error_log d).
Proof.
  destruct (build_json_total listdir out_dir batch_size log file_list_path rows d)
    as [d' Hrun].
  exists d'. split; [exact Hrun|]. unfold build_json in Hrun.
  destruct (build_json_loop _ _ _ _ _ _ _) as [st'|] eqn:Hloop; [|discriminate].
  cbn in Hrun. injection Hrun as <-.
  apply build_json_loop_logs in Hloop.
  destruct (build_json_init_logs (filelist_name_of file_list_path) d)
    as [Hcomplete Herror].
  rewrite Hcomplete, Herror in Hloop. split.
  - intros ->. destruct Hloop as (Hrows & Hsome & Hextra).
    split; [exact Hrows|]. split; [|exact Hextra]. intros Hne. apply Hsome. now right.
  - intros ->. exact Hloop.
Qed.

(** The current file is a shard of the manifest. *)
Lemma build_json_step_path log name st row st' :
  (exists n, json_file_path st = shard_name name (Z.of_N n)) ->
  build_json_step listdir out_dir batch_size log name st row = Some st' ->
  exists n, json_file_path st' = shard_name name (Z.of_N n).
Proof.
  intros Hpath Hstep.
  destruct (json_dir (on_disk st) !! json_file_path st) as [content|] eqn:Hfile.
  - destruct (build_json_step_files listdir out_dir batch_size log name st row
                content Hfile) as (st'' & Hstep' & _ & Hnext).
    rewrite Hstep in Hstep'. injection Hstep' as <-. rewrite Hnext.
    destruct (Z.eqb _ _); [|exact Hpath].
    destruct (get_next_index_spec name (listdir_json (json_dir (on_disk st))))
      as (_ & _ & _ & Hnonneg).
    exists (Z.to_N (get_next_index (listdir_json (json_dir (on_disk st))) name)).
    now rewrite Z2N.id.
  - unfold build_json_step in Hstep.
    destruct (extract_or_default _ _ _ _ _). rewrite Hfile in Hstep. discriminate.
Qed.

(** What a turn of the loop does to the files: it adds one record to the
    directory, keeps every file, whose records stay at the front, and
    leaves alone the files that are not shards of the manifest. *)
Lemma build_json_step_keeps log name st row st' :
  (exists n, json_file_path st = shard_name name (Z.of_N n)) ->
  build_json_step listdir out_dir batch_size log name st row = Some st' ->
  total_records (json_dir (on_disk st')) = S (total_records (json_dir (on_disk st)))
  /\ (forall f content,
        json_dir (on_disk st) !! f = Some content ->
        exists content',
          json_dir (on_disk st') !! f = Some content'
          /\ (content' = content
              \/ exists added,
                   content' = JsonArray (load_current_data content ++ added)))
  /\ (forall f, (forall n, f <> shard_name name (Z.of_N n)) ->
        json_dir (on_disk st') !! f = json_dir (on_disk st) !! f).
Proof.
  intros (n & Hpath) Hstep.
  destruct (json_dir (on_disk st) !! json_file_path st) as [content|] eqn:Hfile.
  2: { unfold build_json_step in Hstep.
       destruct (extract_or_default _ _ _ _ _). rewrite Hfile in Hstep.
       discriminate. }
  destruct (build_json_step_files listdir out_dir batch_size log name st row
              content Hfile) as (st'' & Hstep' & Hfiles & _).
  rewrite Hstep in Hstep'. injection Hstep' as <-.
  pose proof (next_shard_is_fresh name (json_dir (on_disk st))) as Hfresh.
  destruct (get_next_index_spec name (listdir_json (json_dir (on_disk st))))
    as (_ & _ & _ & Hnonneg).
  set (index := get_next_index (listdir_json (json_dir (on_disk st))) name) in *.
  set (new_path := shard_name name index) in *.
  assert (Hne : json_file_path st <> new_path).
  { intros Heq. rewrite <- Heq, Hfile in Hfresh. discriminate. }
  set (files := if (Z.of_nat (length (load_current_data content)) =? batch_size - 1)%Z
                then <[new_path := JsonArray []]> (json_dir (on_disk st))
                else json_dir (on_disk st)) in *.
  assert (Hcurrent : files !! json_file_path st = Some content).
  { unfold files. destruct (Z.eqb _ _); [|exact Hfile].
    now rewrite lookup_insert_ne by congruence. }
  assert (Htotal : total_records files = total_records (json_dir (on_disk st))).
  { unfold files. destruct (Z.eqb _ _); [|reflexivity].
    now rewrite total_records_insert_fresh by exact Hfresh. }
  rewrite Hfiles. split; [|split].
  - pose proof (total_records_insert files (json_file_path st) content
                  (JsonArray (load_current_data content
                              ++ [PDict (emitted_record listdir out_dir row)]))
                  Hcurrent) as Hcount.
    cbn [load_current_data] in Hcount. rewrite length_app in Hcount. cbn in Hcount.
    lia.
  - intros f content0 Hf.
    destruct (decide (f = json_file_path st)) as [->|Hother].
    + rewrite lookup_insert_eq. eexists. split; [reflexivity|].
      right. rewrite Hfile in Hf. injection Hf as <-. eauto.
    + rewrite lookup_insert_ne by congruence. exists content0.
      split; [|now left]. unfold files. destruct (Z.eqb _ _); [|exact Hf].
      rewrite lookup_insert_ne; [exact Hf|]. intros <-. congruence.
  - intros f Hforeign.
    rewrite lookup_insert_ne by (rewrite Hpath; intros Heq; exact (Hforeign n (eq_sym Heq))).
    unfold files. destruct (Z.eqb _ _); [|reflexivity].
    apply lookup_insert_ne. unfold new_path. intros Heq.
    apply (Hforeign (Z.to_N index)). now rewrite Z2N.id.
Qed.

Lemma build_json_loop_keeps log name rows : forall st st',
  (exists n, json_file_path st = shard_name name (Z.of_N n)) ->
  build_json_loop listdir out_dir batch_size log name st rows = Some st' ->
  total_records (json_dir (on_disk st'))
  = total_records (json_dir (on_disk st)) + length rows
  /\ (forall f content,
        json_dir (on_disk st) !! f = Some content ->
        exists content',
          json_dir (on_disk st') !! f = Some content'
          /\ (content' = content
              \/ exists added,
                   content' = JsonArray (load_current_data content ++ added)))
  /\ (forall f, (forall n, f <> shard_name name (Z.of_N n)) ->
        json_dir (on_disk st') !! f = json_dir (on_disk st) !! f).
Proof.
  induction rows as [|row rows IH]; intros st st' Hpath Hloop; cbn in Hloop.
  - injection Hloop as <-. split; [cbn; lia|]. split; [eauto|reflexivity].
  - destruct (build_json_step listdir out_dir batch_size log name st row)
      as [st1|] eqn:Hstep; [|discriminate].
    destruct (build_json_step_keeps log name st row st1 Hpath Hstep)
      as (Htotal1 & Hkeep1 & Hforeign1).
    destruct (IH st1 st' (build_json_step_path log name st row st1 Hpath Hstep) Hloop)
      as (Htotal & Hkeep & Hforeign).
    split; [cbn; lia|]. split.
    + intros f content Hf.
      destruct (Hkeep1 f content Hf) as (content1 & Hf1 & Hgrow1).
      destruct (Hkeep f content1 Hf1) as (content' & Hf' & Hgrow).
      exists content'. split; [exact Hf'|].
      destruct Hgrow1 as [->|(added1 & ->)]; [exact Hgrow|].
      destruct Hgrow as [->|(added & ->)]; right; [eauto|].
      cbn. exists (added1 ++ added). now rewrite List.app_assoc.
    + intros f Hf. now rewrite Hforeign, Hforeign1.
Qed.

(** X12: a run of [build_json] removes no file and no record: every file
    of the JSON directory is still there afterwards, either as it was or
    holding an array that begins with the records it had, and a file whose
    name is not that of a shard of the manifest is left as it was. *)
Theorem build_json_keeps_what_is_there log file_list_path rows d :
  exists d',
    build_json listdir out_dir batch_size log file_list_path rows d = Some d'
    /\ (forall f content,
          json_dir d !! f = Some content ->
          exists content',
            json_dir d' !! f = Some content'
            /\ (content' = content
                \/ exists added,
                     content' = JsonArray (load_current_data content ++ added)))
    /\ (forall f,
          (forall n, f <> shard_name (filelist_name_of file_list_path) (Z.of_N n)) ->
          json_dir d' !! f = json_dir d !! f).
Proof.
  destruct (build_json_total listdir out_dir batch_size log file_list_path rows d)
    as [d' Hrun].
  exists d'. split; [exact Hrun|]. unfold build_json in Hrun.
  set (name := filelist_name_of file_list_path) in *.
  destruct (build_json_loop _ _ _ _ _ _ _) as [st'|] eqn:Hloop; [|discriminate].
  cbn in Hrun. injection Hrun as <-.
  apply build_json_loop_keeps in Hloop as (_ & Hkeep & Hforeign);
    [|now exists 0%N].
  split.
  - intros f content Hf. apply Hkeep. unfold build_json_init. cbn.
    destruct (json_dir d !! shard_name name 0) eqn:Hzero; [exact Hf|]. cbn.
    rewrite lookup_insert_ne; [exact Hf|]. intros <-. congruence.
  - intros f Hf. rewrite (Hforeign f Hf). unfold build_json_init. cbn.
    destruct (json_dir d !! shard_name name 0) eqn:Hzero; [reflexivity|]. cbn.
    apply lookup_insert_ne. intros Heq. exact (Hf 0%N (eq_sym Heq)).
Qed.

(** X13: a run of [build_json] adds exactly one record to the JSON
    directory for each row of the manifest, whatever the rows, the media
    and the state of the directory are. *)
Theorem build_json_adds_one_record_per_row log file_list_path rows d :
  exists d',
    build_json listdir out_dir batch_size log file_list_path rows d = Some d'
    /\ total_records (json_dir d') = total_records (json_dir d) + length rows.
Proof.
  destruct (build_json_total listdir out_dir batch_size log file_list_path rows d)
    as [d' Hrun].
  exists d'. split; [exact Hrun|]. unfold build_json in Hrun.
  set (name := filelist_name_of file_list_path) in *.
  destruct (build_json_loop _ _ _ _ _ _ _) as [st'|] eqn:Hloop; [|discriminate].
  cbn in Hrun. injection Hrun as <-.
  apply build_json_loop_keeps in Hloop as (-> & _); [|now exists 0%N].
  f_equal. unfold build_json_init. cbn.
  destruct (json_dir d !! shard_name name 0) eqn:Hzero; [reflexivity|]. cbn.
  now rewrite total_records_insert_fresh by exact Hzero.
Qed.

End Run_properties.

Lemma logs_are_append_only_witness :
  exists d',
    build_json (H := CPython.platform) Sample.no_media Sample.out_dir 2 true
      Sample.manifest_path [Sample.row "PMC1"; Sample.row "PMC3"]
      Sample.one_completed = Some d'
    /\ exists shards,
         length shards = 2
         /\ default [] (complete_log d')
            = [("PMC2", "filelist_toy_batch_4_0.json")]
                ++ combine ["PMC1"; "PMC3"] shards.
Proof.
  destruct (logs_are_append_only (H := CPython.platform) Sample.no_media
              Sample.out_dir 2 true Sample.manifest_path
              [Sample.row "PMC1"; Sample.row "PMC3"] Sample.one_completed)
    as (d' & Hrun & Hlogged & _).
  exists d'. split; [exact Hrun|]. exact (proj1 (Hlogged eq_refl)).
Defined.

(** ** Script 04 over several calls *)

Lemma combine_fst {A B} (l : list A) (k : list B) :
  length l = length k -> (combine l k).*1 = l.
Proof.
  revert k. induction l as [|x l IH]; intros [|y k] Hlen; try discriminate;
    [reflexivity|].
  cbn. f_equal. apply IH. now injection Hlen.
Qed.

Lemma NoDup_fmap_filter {A B} (f : A -> B) (p : A -> bool) (l : list A) :
  NoDup (f <$> l) -> NoDup (f <$> List.filter p l).
Proof.
  induction l as [|x l IH]; [easy|]. cbn. rewrite NoDup_cons. intros [Hx Hl].
  destruct (p x); [|now apply IH]. cbn. apply NoDup_cons. split; [|now apply IH].
  rewrite list_elem_of_fmap. intros (y & Heq & Hy). apply Hx.
  apply list_elem_of_fmap. exists y. split; [exact Heq|].
  apply list_elem_of_In. apply list_elem_of_In, List.filter_In in Hy. tauto.
Qed.

(** The rows left to do and the rows of the log together are the
    manifest, when no identifier is repeated. *)
Lemma completed_and_subset (manifest : list article_row)
    (completed : list (string * string)) :
  NoDup (Accession_ID <$> manifest) ->
  NoDup (completed.*1) ->
  (forall a, a ∈ completed.*1 -> a ∈ Accession_ID <$> manifest) ->
  completed.*1
    ++ (Accession_ID <$> create_subset_based_on_file_diff manifest completed)
  ≡ₚ Accession_ID <$> manifest.
Proof.
  intros Hmanifest Hcompleted Hsub. rewrite create_subset_is_a_filter.
  set (keep := fun r : article_row =>
                 negb (bool_decide
                         (Accession_ID r ∈ (list_to_set (completed.*1) : gset string)))).
  assert (Hkeep : forall r, keep r = true <-> Accession_ID r ∉ completed.*1).
  { intros r. unfold keep.
    now rewrite negb_true_iff, bool_decide_eq_false, elem_of_list_to_set. }
  apply NoDup_Permutation; [|exact Hmanifest|].
  - apply NoDup_app. split; [exact Hcompleted|].
    split; [|now apply NoDup_fmap_filter].
    intros a Ha. rewrite list_elem_of_fmap. intros (r & -> & Hr).
    apply list_elem_of_In, List.filter_In in Hr as [_ Hr].
    now apply Hkeep in Hr.
  - intros a. rewrite elem_of_app. split.
    + intros [Ha|Ha]; [now apply Hsub|].
      apply list_elem_of_fmap in Ha as (r & -> & Hr).
      apply list_elem_of_In, List.filter_In in Hr as [Hr _].
      apply list_elem_of_fmap. exists r. split; [reflexivity|].
      now apply list_elem_of_In.
    + intros Ha. destruct (decide (a ∈ completed.*1)) as [Hin|Hnot]; [now left|].
      right. apply list_elem_of_fmap in Ha as (r & -> & Hr).
      apply list_elem_of_fmap. exists r. split; [reflexivity|].
      apply list_elem_of_In, List.filter_In. split; [now apply list_elem_of_In|].
      now apply Hkeep.
Qed.

Section Script_04_properties.
Context `{Platform}.
Variable listdir : string -> listing.
Variable data_dir filelist_batch_dir license : string.
Variable batch_idx batch_size : Z.

(** The completion log after a run with [log] set. *)
Lemma build_json_complete_log out_dir file_list_path rows d d' :
  build_json listdir out_dir batch_size true file_list_path rows d = Some d' ->
  (exists shards,
     length shards = length rows
     /\ default [] (complete_log d')
        = default [] (complete_log d) ++ combine (Accession_ID <$> rows) shards)
  /\ (is_Some (complete_log d) \/ rows <> [] -> is_Some (complete_log d')).
Proof.
  unfold build_json.
  destruct (build_json_loop _ _ _ _ _ _ _) as [st'|] eqn:Hloop; [|discriminate].
  cbn. intros [= <-].
  apply build_json_loop_logs in Hloop.
  destruct (build_json_init_logs (filelist_name_of file_list_path) d)
    as [Hcomplete Herror].
  rewrite Hcomplete, Herror in Hloop. destruct Hloop as (Hrows & Hsome & _).
  split; assumption.
Qed.

Lemma build_json_nothing_to_do out_dir log file_list_path d d1 :
  build_json listdir out_dir batch_size log file_list_path [] d = Some d1 ->
  build_json listdir out_dir batch_size log file_list_path [] d1 = Some d1.
Proof.
  unfold build_json. cbn. intros [= <-]. f_equal.
  unfold build_json_init. cbn.
  destruct (json_dir d !! shard_name (filelist_name_of file_list_path) 0)
    eqn:Hzero; cbn.
  - now rewrite Hzero.
  - now rewrite lookup_insert_eq.
Qed.

(** X14: the script called on a batch that has no completion log
    processes the whole manifest, and a second call then changes nothing:
    for a manifest with rows the log has one row for each row of the
    manifest, so that the batch is reported complete, whether or not
    identifiers are repeated in the manifest. *)
Theorem first_call_then_no_op (manifest : list article_row) (d : disk) :
  complete_log d = None ->
  exists d1,
    script_04 listdir data_dir filelist_batch_dir license batch_idx batch_size
      manifest d = Some d1
    /\ script_04 listdir data_dir filelist_batch_dir license batch_idx batch_size
         manifest d1 = Some d1
    /\ (manifest <> [] ->
        script_04_work filelist_batch_dir license batch_idx manifest d1 = None
        /\ (default [] (complete_log d1)).*1 = Accession_ID <$> manifest).
Proof.
  intros Hlog. unfold script_04 at 1. unfold script_04_work at 1. rewrite Hlog.
  set (out_dir := data_dir +:+ "/" +:+ license +:+ "/media_files").
  set (fixed_path := filelist_batch_dir +:+ "filelist_" +:+ license +:+ "_batch_"
                       +:+ str_of_Z batch_idx +:+ "_fixed.csv").
  destruct (build_json_total listdir out_dir batch_size true fixed_path manifest d)
    as [d1 Hrun].
  exists d1. split; [exact Hrun|].
  destruct (build_json_complete_log out_dir fixed_path manifest d d1 Hrun)
    as ((shards & Hlen & Hrows) & Hsome).
  rewrite Hlog in Hrows. cbn in Hrows.
  destruct manifest as [|row manifest].
  - split; [|intros Hne; contradiction].
    assert (Hlog1 : complete_log d1 = None).
    { unfold build_json in Hrun. cbn in Hrun. injection Hrun as <-.
      rewrite <- Hlog. apply (build_json_init_logs (filelist_name_of fixed_path) d). }
    unfold script_04, script_04_work. rewrite Hlog1.
    now apply build_json_nothing_to_do with (d := d).
  - destruct Hsome as [logged Hlogged]; [now right|].
    rewrite Hlogged in Hrows. cbn [default from_option id] in Hrows.
    assert (Hcount : length logged = length (row :: manifest)).
    { rewrite Hrows, length_combine, length_fmap, Hlen. lia. }
    assert (Hwork : script_04_work filelist_batch_dir license batch_idx
                      (row :: manifest) d1 = None).
    { unfold script_04_work, compare_csv_row_counts. rewrite Hlogged, Hcount.
      now rewrite Nat.eqb_refl. }
    split; [unfold script_04; now rewrite Hwork|].
    intros _. split; [exact Hwork|].
    rewrite Hlogged. cbn [default from_option id]. rewrite Hrows.
    apply combine_fst. now rewrite length_fmap.
Qed.

(** X15: a call that resumes a batch finishes it when identifiers are not
    repeated: if the manifest has no identifier twice and the completion
    log has each of its identifiers once, all of them from the manifest,
    then after the call the log has every identifier of the manifest
    exactly once, and one more call changes nothing. *)
Theorem resumed_call_completes_the_batch (manifest : list article_row) (d : disk)
    (completed : list (string * string)) :
  complete_log d = Some completed ->
  NoDup (Accession_ID <$> manifest) ->
  NoDup (completed.*1) ->
  (forall a, a ∈ completed.*1 -> a ∈ Accession_ID <$> manifest) ->
  exists d1 logged,
    script_04 listdir data_dir filelist_batch_dir license batch_idx batch_size
      manifest d = Some d1
    /\ complete_log d1 = Some logged
    /\ logged.*1 ≡ₚ Accession_ID <$> manifest
    /\ script_04_work filelist_batch_dir license batch_idx manifest d1 = None
    /\ script_04 listdir data_dir filelist_batch_dir license batch_idx batch_size
         manifest d1 = Some d1.
Proof.
  intros Hlog Hmanifest Hcompleted Hsub.
  pose proof (completed_and_subset manifest completed Hmanifest Hcompleted Hsub)
    as Hperm.
  assert (Hdone : forall d1 logged,
             complete_log d1 = Some logged ->
             logged.*1 ≡ₚ Accession_ID <$> manifest ->
             script_04_work filelist_batch_dir license batch_idx manifest d1 = None).
  { intros d1 logged Hlogged Hall. apply Permutation_length in Hall.
    rewrite !length_fmap in Hall.
    unfold script_04_work, compare_csv_row_counts. rewrite Hlogged, Hall.
    now rewrite Nat.eqb_refl. }
  unfold script_04 at 1.
  destruct (script_04_work filelist_batch_dir license batch_idx manifest d)
    as [[file_list_path work]|] eqn:Hwork.
  - unfold script_04_work in Hwork. rewrite Hlog in Hwork.
    destruct (compare_csv_row_counts manifest completed); [discriminate|].
    injection Hwork as <- <-.
    set (out_dir := data_dir +:+ "/" +:+ license +:+ "/media_files").
    set (path := filelist_batch_dir +:+ "/filelist_json/" +:+ "json_filelist_"
                   +:+ license +:+ "_batch_" +:+ str_of_Z batch_idx +:+ ".csv").
    set (work := create_subset_based_on_file_diff manifest completed) in *.
    destruct (build_json_total listdir out_dir batch_size true path work d)
      as [d1 Hrun].
    destruct (build_json_complete_log out_dir path work d d1 Hrun)
      as ((shards & Hlen & Hrows) & Hsome).
    destruct Hsome as [logged Hlogged]; [left; rewrite Hlog; eauto|].
    rewrite Hlog, Hlogged in Hrows. cbn [default from_option id] in Hrows.
    assert (Hall : logged.*1 ≡ₚ Accession_ID <$> manifest).
    { rewrite Hrows, fmap_app, combine_fst by now rewrite length_fmap.
      exact Hperm. }
    exists d1, logged. split; [exact Hrun|]. split; [exact Hlogged|].
    split; [exact Hall|]. split; [now apply (Hdone d1 logged)|].
    unfold script_04. now rewrite (Hdone d1 logged).
  - exists d, completed. split; [reflexivity|]. split; [exact Hlog|].
    assert (Hall : completed.*1 ≡ₚ Accession_ID <$> manifest).
    { apply submseteq_length_Permutation; [now apply NoDup_submseteq|].
      unfold script_04_work in Hwork. rewrite Hlog in Hwork.
      unfold compare_csv_row_counts in Hwork.
      destruct (Nat.eqb_spec (S (length manifest)) (S (length completed)))
        as [Heq|_]; [|discriminate].
      rewrite !length_fmap. lia. }
    split; [exact Hall|]. split; [exact Hwork|].
    unfold script_04. now rewrite Hwork.
Qed.

End Script_04_properties.

Lemma first_call_then_no_op_witness :
  exists d1,
    script_04 (H := CPython.platform) Sample.no_media "data" "file_lists/" "toy" 4 2
      [Sample.row "PMC1"; Sample.row "PMC1"; Sample.row "PMC3"] Sample.empty_disk
    = Some d1
    /\ script_04 (H := CPython.platform) Sample.no_media "data" "file_lists/" "toy" 4 2
         [Sample.row "PMC1"; Sample.row "PMC1"; Sample.row "PMC3"] d1 = Some d1.
Proof.
  destruct (first_call_then_no_op (H := CPython.platform) Sample.no_media
              "data" "file_lists/" "toy" 4 2
              [Sample.row "PMC1"; Sample.row "PMC1"; Sample.row "PMC3"]
              Sample.empty_disk eq_refl) as (d1 & Hfirst & Hsecond & _).
  exists d1. split; [exact Hfirst|exact Hsecond].
Defined.

Lemma resumed_call_completes_the_batch_witness :
  exists d1 logged,
    script_04 (H := CPython.platform) Sample.no_media "data" "file_lists/" "toy" 4 2
      [Sample.row "PMC1"; Sample.row "PMC2"; Sample.row "PMC3"] Sample.one_completed
    = Some d1
    /\ complete_log d1 = Some logged
    /\ logged.*1 ≡ₚ ["PMC1"; "PMC2"; "PMC3"].
Proof.
  destruct (resumed_call_completes_the_batch (H := CPython.platform)
              Sample.no_media "data" "file_lists/" "toy" 4 2
              [Sample.row "PMC1"; Sample.row "PMC2"; Sample.row "PMC3"]
              Sample.one_completed [("PMC2", "filelist_toy_batch_4_0.json")] eq_refl)
    as (d1 & logged & Hrun & Hlogged & Hall & _).
  - apply (bool_decide_unpack _). vm_compute. exact I.
  - apply (bool_decide_unpack _). vm_compute. exact I.
  - intros a Ha. apply list_elem_of_singleton in Ha as ->.
    apply (bool_decide_unpack _). vm_compute. exact I.
  - exists d1, logged. split; [exact Hrun|]. split; [exact Hlogged|exact Hall].
Defined.

(** ** The shards of a run that starts on a fresh directory *)

Lemma listdir_json_In (files : gmap string shard_file) (f : string) :
  In f (listdir_json files) <-> is_Some (files !! f).
Proof.
  unfold listdir_json. rewrite <- list_elem_of_In, list_elem_of_fmap. split.
  - intros ([g content] & -> & Hin). apply elem_of_map_to_list in Hin. eauto.
  - intros [content Hf]. exists (f, content). split; [reflexivity|].
    now apply elem_of_map_to_list.
Qed.

Lemma shard_name_of_nat (name : string) (i : nat) :
  match_version name (shard_name name (Z.of_nat i)) = Some (N.of_nat i).
Proof. rewrite <- nat_N_Z. apply match_version_shard_name. Qed.

Lemma shard_name_nat_inj (name : string) (i j : nat) :
  shard_name name (Z.of_nat i) = shard_name name (Z.of_nat j) -> i = j.
Proof.
  rewrite <- !nat_N_Z. intros Heq. apply shard_name_inj in Heq. lia.
Qed.

Lemma div_succ (k b : nat) :
  (1 <= b)%nat ->
  (S k / b)%nat = (if Nat.eqb (k mod b) (b - 1) then S (k / b) else k / b)%nat.
Proof.
  intros Hb. pose proof (Nat.div_mod_eq k b) as Hk.
  pose proof (Nat.mod_upper_bound k b ltac:(lia)) as Hr.
  destruct (Nat.eqb_spec (k mod b) (b - 1)) as [Hlast|Hnot].
  - symmetry. apply (Nat.div_unique (S k) b (S (k / b)) 0); [lia|nia].
  - symmetry. apply (Nat.div_unique (S k) b (k / b) (S (k mod b))); [lia|nia].
Qed.

Section Fresh_run_properties.
Context `{Platform}.
Variable listdir : string -> listing.
Variable out_dir : string.
Variable batch_size : Z.
Variable name : string.
Hypothesis batch_size_positive : (1 <= batch_size)%Z.

Lemma shard_records_length (done : list article_row) :
  length (shard_records listdir out_dir batch_size done
            (length done / Z.to_nat batch_size))
  = (length done mod Z.to_nat batch_size)%nat.
Proof.
  unfold shard_records. set (b := Z.to_nat batch_size).
  assert (Hb : (1 <= b)%nat) by (unfold b; lia).
  pose proof (Nat.div_mod_eq (length done) b) as Hk.
  pose proof (Nat.mod_upper_bound (length done) b ltac:(lia)) as Hr.
  rewrite length_fmap, length_take, length_drop. nia.
Qed.

(** The shards of the rows [done ++ [row]], from those of [done]. *)
Lemma shard_records_snoc (done : list article_row) (row : article_row) (i : nat) :
  let b := Z.to_nat batch_size in
  let current := (length done / b)%nat in
  shard_records listdir out_dir batch_size (done ++ [row]) i
  = if decide (i < current)%nat
    then shard_records listdir out_dir batch_size done i
    else if decide (i = current)
         then shard_records listdir out_dir batch_size done i
                ++ [PDict (emitted_record listdir out_dir row)]
         else [].
Proof.
  intros b current. unfold shard_records. fold b.
  assert (Hb : (1 <= b)%nat) by (unfold b; lia).
  pose proof (Nat.div_mod_eq (length done) b) as Hk.
  pose proof (Nat.mod_upper_bound (length done) b ltac:(lia)) as Hr.
  fold current in Hk.
  destruct (decide (i < current)%nat) as [Hlt|Hge].
  - f_equal. rewrite drop_app_le by nia.
    apply take_app_le. rewrite length_drop. nia.
  - destruct (decide (i = current)) as [->|Hne].
    + rewrite drop_app_le by nia.
      rewrite (take_ge (drop _ done)) by (rewrite length_drop; nia).
      rewrite take_ge by (rewrite length_app, length_drop; cbn; nia).
      now rewrite fmap_app.
    + rewrite drop_ge; [now rewrite take_nil|]. rewrite length_app. cbn. nia.
Qed.

(** A turn of the loop keeps the shards filled in order. *)
Lemma build_json_step_in_order log done st row :
  filled_in_order listdir out_dir batch_size name done st ->
  exists st',
    build_json_step listdir out_dir batch_size log name st row = Some st'
    /\ filled_in_order listdir out_dir batch_size name (done ++ [row]) st'.
Proof.
  unfold filled_in_order. set (b := Z.to_nat batch_size).
  set (current := (length done / b)%nat). intros (Hpath & Hshards & Hmax).
  assert (Hb : (1 <= b)%nat) by (unfold b; lia).
  pose proof (Hshards current (le_n _)) as Hfile. rewrite <- Hpath in Hfile.
  destruct (build_json_step_files listdir out_dir batch_size log name st row _ Hfile)
    as (st' & Hstep & Hfiles & Hnext).
  exists st'. split; [exact Hstep|].
  cbn [load_current_data] in Hfiles, Hnext.
  rewrite shard_records_length in Hfiles, Hnext. fold b in Hfiles, Hnext.
  pose proof (Nat.mod_upper_bound (length done) b ltac:(lia)) as Hr.
  assert (Hrotate : (Z.of_nat (length done mod b) =? batch_size - 1)%Z
                    = Nat.eqb (length done mod b) (b - 1)).
  { destruct (Nat.eqb_spec (length done mod b) (b - 1));
      [apply Z.eqb_eq|apply Z.eqb_neq]; unfold b in *; lia. }
  rewrite Hrotate in Hfiles, Hnext.
  assert (Hindex : Nat.eqb (length done mod b) (b - 1) = true ->
                   get_next_index (listdir_json (json_dir (on_disk st))) name
                   = Z.of_nat (S current)).
  { intros _.
    destruct (get_next_index_spec name (listdir_json (json_dir (on_disk st))))
      as (_ & Hlt & Hattained & _).
    assert (Hin : In (shard_name name (Z.of_nat current))
                     (listdir_json (json_dir (on_disk st)))).
    { apply listdir_json_In. rewrite <- Hpath, Hfile. eauto. }
    pose proof (Hlt _ _ Hin (shard_name_of_nat name current)) as Hlow.
    destruct Hattained as (f & v & Hf & Hv & Hidx).
    { eexists. split; [exact Hin|]. now rewrite shard_name_of_nat. }
    apply listdir_json_In in Hf. pose proof (Hmax f v Hf Hv). lia. }
  rewrite length_app. cbn [length]. rewrite Nat.add_1_r, (div_succ _ b Hb).
  rewrite Hfiles, Hnext. clear Hfiles Hnext Hstep.
  destruct (Nat.eqb (length done mod b) (b - 1)) eqn:Hlast.
  - rewrite (Hindex eq_refl). split; [reflexivity|]. split.
    + intros i Hi. rewrite shard_records_snoc. fold b. fold current.
      destruct (decide (i < current)%nat) as [Hlt|Hge].
      * rewrite Hpath, !lookup_insert_ne
          by (intros Heq; apply shard_name_nat_inj in Heq; lia).
        apply Hshards. lia.
      * destruct (decide (i = current)) as [->|Hne].
        -- rewrite Hpath, lookup_insert_eq. reflexivity.
        -- assert (i = S current) as -> by lia.
           rewrite Hpath, lookup_insert_ne
             by (intros Heq; apply shard_name_nat_inj in Heq; lia).
           now rewrite lookup_insert_eq.
    + intros f v [content Hf] Hv.
      destruct (decide (f = json_file_path st)) as [->|Hother].
      * rewrite Hpath, shard_name_of_nat in Hv. injection Hv as <-. lia.
      * rewrite lookup_insert_ne in Hf by congruence.
        destruct (decide (f = shard_name name (Z.of_nat (S current)))) as [->|Hnew].
        -- rewrite shard_name_of_nat in Hv. injection Hv as <-. lia.
        -- rewrite lookup_insert_ne in Hf by congruence.
           pose proof (Hmax f v (mk_is_Some _ _ Hf) Hv). lia.
  - split; [exact Hpath|]. split.
    + intros i Hi. rewrite shard_records_snoc. fold b. fold current.
      destruct (decide (i < current)%nat) as [Hlt|Hge].
      * rewrite Hpath, lookup_insert_ne
          by (intros Heq; apply shard_name_nat_inj in Heq; lia).
        apply Hshards. lia.
      * destruct (decide (i = current)) as [->|Hne]; [|lia].
        rewrite Hpath, lookup_insert_eq. reflexivity.
    + intros f v [content Hf] Hv.
      destruct (decide (f = json_file_path st)) as [->|Hother].
      * rewrite Hpath, shard_name_of_nat in Hv. injection Hv as <-. lia.
      * rewrite lookup_insert_ne in Hf by congruence.
        exact (Hmax f v (mk_is_Some _ _ Hf) Hv).
Qed.

Lemma build_json_loop_in_order log rows : forall done st,
  filled_in_order listdir out_dir batch_size name done st ->
  exists st',
    build_json_loop listdir out_dir batch_size log name st rows = Some st'
    /\ filled_in_order listdir out_dir batch_size name (done ++ rows) st'.
Proof.
  induction rows as [|row rows IH]; intros done st Hinv.
  - exists st. split; [reflexivity|]. now rewrite List.app_nil_r.
  - destruct (build_json_step_in_order log done st row Hinv) as (st1 & Hstep & Hinv1).
    destruct (IH (done ++ [row]) st1 Hinv1) as (st' & Hloop & Hinv').
    exists st'. cbn [build_json_loop]. rewrite Hstep. split; [exact Hloop|].
    now rewrite <- List.app_assoc in Hinv'.
Qed.

End Fresh_run_properties.

(** X16: in a run of [build_json] with a batch size of at least one that
    starts on a directory with no file matching the manifest name, the
    records are written in the order of the manifest, [batch_size] to a
    shard: shard [i] holds the records of rows [i * batch_size] to
    [(i + 1) * batch_size - 1], the last shard is the one with index
    [length rows / batch_size] (empty when the batch size divides the
    number of rows), and there is no shard with a greater index. *)
Theorem fresh_run_fills_shards_in_order `{Platform} (listdir : string -> listing)
    (out_dir : string) (batch_size : Z) (log : bool) (file_list_path : string)
    (rows : list article_row) (d : disk) :
  (1 <= batch_size)%Z ->
  (forall f, is_Some (json_dir d !! f) ->
     match_version (filelist_name_of file_list_path) f = None) ->
  exists d',
    build_json listdir out_dir batch_size log file_list_path rows d = Some d'
    /\ forall i : nat,
         json_dir d' !! shard_name (filelist_name_of file_list_path) (Z.of_nat i)
         = if decide (i <= length rows / Z.to_nat batch_size)%nat
           then Some (JsonArray (shard_records listdir out_dir batch_size rows i))
           else None.
Proof.
  intros Hsize Hfresh. unfold build_json.
  set (name := filelist_name_of file_list_path) in *.
  assert (Hnone : json_dir d !! shard_name name 0 = None).
  { destruct (json_dir d !! shard_name name 0) eqn:Hfile; [|reflexivity].
    pose proof (Hfresh _ (mk_is_Some _ _ Hfile)) as Hno.
    change 0%Z with (Z.of_nat 0) in Hno.
    rewrite (shard_name_of_nat name 0) in Hno. discriminate. }
  assert (Hinit : filled_in_order listdir out_dir batch_size name []
                    (build_json_init name d)).
  { unfold filled_in_order, build_json_init. cbn [length json_file_path on_disk].
    rewrite Hnone. cbn [json_dir].
    rewrite Nat.Div0.div_0_l. split; [reflexivity|]. split.
    - intros i Hi. assert (i = 0%nat) as -> by lia.
      rewrite lookup_insert_eq. unfold shard_records. now rewrite drop_nil, take_nil.
    - intros f v [content Hf] Hv.
      destruct (decide (f = shard_name name 0)) as [->|Hother].
      + change 0%Z with (Z.of_nat 0) in Hv.
        rewrite (shard_name_of_nat name 0) in Hv. injection Hv as <-. lia.
      + rewrite lookup_insert_ne in Hf by congruence.
        rewrite (Hfresh f (mk_is_Some _ _ Hf)) in Hv. discriminate. }
  destruct (build_json_loop_in_order listdir out_dir batch_size name Hsize log rows
              [] _ Hinit) as (st' & -> & Hpath & Hshards & Hmax).
  cbn in Hpath, Hshards, Hmax |- *.
  eexists. split; [reflexivity|]. intros i.
  destruct (decide (i <= length rows / Z.to_nat batch_size)%nat) as [Hi|Hi];
    [now apply Hshards|].
  destruct (json_dir (on_disk st') !! shard_name name (Z.of_nat i)) eqn:Hfile;
    [|reflexivity].
  pose proof (Hmax _ _ (mk_is_Some _ _ Hfile) (shard_name_of_nat name i)). lia.
Qed.

Lemma fresh_run_fills_shards_in_order_witness :
  exists d',
    build_json (H := CPython.platform) Sample.no_media Sample.out_dir 2 true
      Sample.manifest_path
      [Sample.row "PMC1"; Sample.row "PMC2"; Sample.row "PMC3"] Sample.empty_disk
    = Some d'
    /\ (length <$> (load_current_data <$> json_dir d' !! "filelist_toy_batch_4_0.json"))
       = Some 2%nat
    /\ (length <$> (load_current_data <$> json_dir d' !! "filelist_toy_batch_4_1.json"))
       = Some 1%nat
    /\ json_dir d' !! "filelist_toy_batch_4_2.json" = None.
Proof.
  destruct (fresh_run_fills_shards_in_order (H := CPython.platform)
              Sample.no_media Sample.out_dir 2 true Sample.manifest_path
              [Sample.row "PMC1"; Sample.row "PMC2"; Sample.row "PMC3"]
              Sample.empty_disk) as (d' & Hrun & Hshards).
  - lia.
  - intros f [content Hf]. cbn in Hf. rewrite lookup_empty in Hf. discriminate.
  - exists d'. split; [exact Hrun|].
    pose proof (Hshards 0%nat) as H0. pose proof (Hshards 1%nat) as H1.
    pose proof (Hshards 2%nat) as H2.
    change (shard_name (filelist_name_of Sample.manifest_path) (Z.of_nat 0))
      with "filelist_toy_batch_4_0.json" in H0.
    change (shard_name (filelist_name_of Sample.manifest_path) (Z.of_nat 1))
      with "filelist_toy_batch_4_1.json" in H1.
    change (shard_name (filelist_name_of Sample.manifest_path) (Z.of_nat 2))
      with "filelist_toy_batch_4_2.json" in H2.
    rewrite H0, H1, H2. repeat split.
Defined.

(** ** The context of figures, further *)

Lemma remove_duplicates_skips (x : string) (l : list string) : forall acc,
  existsb (String.eqb x) acc = true ->
  fold_left
    (fun unique paragraph =>
       if existsb (String.eqb paragraph) unique then unique else unique ++ [paragraph])
    l acc
  = fold_left
      (fun unique paragraph =>
         if existsb (String.eqb paragraph) unique then unique else unique ++ [paragraph])
      (List.filter (fun y => negb (String.eqb x y)) l) acc.
Proof.
  induction l as [|y l IH]; intros acc Hseen; [reflexivity|].
  cbn [fold_left List.filter].
  destruct (String.eqb_spec x y) as [<-|Hne]; cbn [negb].
  - rewrite Hseen. now apply IH.
  - cbn [fold_left]. apply IH.
    destruct (existsb (String.eqb y) acc); [exact Hseen|].
    rewrite existsb_app, Hseen. reflexivity.
Qed.

Lemma remove_duplicates_head (x : string) (l : list string) : forall acc,
  ~ In x l ->
  fold_left
    (fun unique paragraph =>
       if existsb (String.eqb paragraph) unique then unique else unique ++ [paragraph])
    l (x :: acc)
  = x :: fold_left
           (fun unique paragraph =>
              if existsb (String.eqb paragraph) unique then unique
              else unique ++ [paragraph])
           l acc.
Proof.
  induction l as [|y l IH]; intros acc Hnot; [reflexivity|].
  cbn [fold_left existsb].
  destruct (String.eqb_spec y x) as [->|Hne]; [destruct Hnot; now left|].
  cbn [orb]. destruct (existsb (String.eqb y) acc).
  - apply IH. intros Hin. apply Hnot. now right.
  - change ((x :: acc) ++ [y]) with (x :: (acc ++ [y])).
    apply IH. intros Hin. apply Hnot. now right.
Qed.

Lemma remove_duplicates_cons (x : string) (l : list string) :
  remove_duplicates (x :: l)
  = x :: remove_duplicates (List.filter (fun y => negb (String.eqb x y)) l).
Proof.
  unfold remove_duplicates. cbn [fold_left existsb app].
  rewrite (remove_duplicates_skips x l [x])
    by (cbn; now rewrite String.eqb_refl).
  apply remove_duplicates_head.
  rewrite List.filter_In. intros [_ Hx]. now rewrite String.eqb_refl in Hx.
Qed.

Lemma remove_duplicates_NoDup (l : list string) :
  List.NoDup l -> remove_duplicates l = l.
Proof.
  induction 1 as [|x l Hx Hl IH]; [reflexivity|].
  rewrite remove_duplicates_cons. f_equal. rewrite <- IH at 2. f_equal.
  apply List.forallb_filter_id, List.forallb_forall. intros y Hy.
  destruct (String.eqb_spec x y) as [->|_]; [contradiction|reflexivity].
Qed.

(** X17: [remove_duplicates] keeps the first occurrence of each paragraph
    and drops the later ones: the result of a list that starts with [x] is
    [x] followed by the result of the rest without [x].  So a list without
    repetition is returned as it is, the result has no repetition and the
    same members as the argument, and a second application changes
    nothing. *)
Theorem remove_duplicates_keeps_first_occurrences :
  (forall x l,
     remove_duplicates (x :: l)
     = x :: remove_duplicates (List.filter (fun y => negb (String.eqb x y)) l))
  /\ (forall l, List.NoDup l -> remove_duplicates l = l)
  /\ (forall l,
        List.NoDup (remove_duplicates l)
        /\ (forall x, In x (remove_duplicates l) <-> In x l))
  /\ (forall l, remove_duplicates (remove_duplicates l) = remove_duplicates l).
Proof.
  split; [exact remove_duplicates_cons|]. split; [exact remove_duplicates_NoDup|].
  split.
  - intros l. destruct (remove_duplicates_spec l) as (Hnodup & Hin & _). now split.
  - intros l. apply remove_duplicates_NoDup, remove_duplicates_spec.
Qed.

Lemma remove_duplicates_keeps_first_occurrences_witness :
  remove_duplicates ["b"; "a"; "c"] = ["b"; "a"; "c"].
Proof.
  apply (proj1 (proj2 remove_duplicates_keeps_first_occurrences)).
  repeat constructor; cbn; intuition discriminate.
Defined.

Lemma dict_mem_keys {V} (k : string) (d : list (string * V)) :
  Dict.mem k d = existsb (String.eqb k) (Dict.keys d).
Proof.
  induction d as [|[k' v] d IH]; [reflexivity|]. cbn.
  now rewrite IH, (String.eqb_sym k' k).
Qed.

Lemma dict_keys_set {V} (k : string) (v : V) (d : list (string * V)) :
  Dict.keys (Dict.set k v d)
  = if Dict.mem k d then Dict.keys d else Dict.keys d ++ [k].
Proof.
  unfold Dict.keys. induction d as [|[k' v'] d IH]; [reflexivity|]. cbn.
  destruct (String.eqb k' k); cbn; [reflexivity|].
  rewrite IH. now destruct (Dict.mem k d).
Qed.

Lemma dict_in_get {V} (k : string) (v : V) (d : list (string * V)) :
  List.NoDup (Dict.keys d) -> In (k, v) d -> Dict.get k d = Some v.
Proof.
  induction d as [|[k' v'] d IH]; [easy|]. cbn. intros Hnodup Hin.
  apply List.NoDup_cons_iff in Hnodup as [Hk' Hnodup].
  destruct Hin as [[= -> ->]|Hin]; [now rewrite String.eqb_refl|].
  destruct (String.eqb_spec k' k) as [->|_]; [|now apply IH].
  destruct Hk'. apply List.in_map_iff. now exists (k, v).
Qed.

Lemma combine_paragraphs_keys (paragraphs : list (string * string)) :
  Dict.keys (combine_paragraphs paragraphs) = remove_duplicates (fst <$> paragraphs).
Proof.
  induction paragraphs as [|[k v] ps IH] using rev_ind; [reflexivity|].
  rewrite fmap_app. change (fst <$> [(k, v)]) with [k].
  rewrite remove_duplicates_snoc, <- IH, <- dict_mem_keys.
  unfold combine_paragraphs. rewrite fold_left_app. cbn [fold_left].
  set (d := fold_left _ ps []).
  destruct (Dict.mem k d) eqn:Hmem.
  - pose proof Hmem as Hget. apply dict_mem_get in Hget as [old ->].
    now rewrite dict_keys_set, Hmem.
  - rewrite dict_get_set, String.eqb_refl, !dict_keys_set, Hmem.
    assert (Dict.mem k (Dict.set k [] d) = true) as ->; [|reflexivity].
    apply dict_mem_get. rewrite dict_get_set, String.eqb_refl. eauto.
Qed.

(** X18: [combine_paragraphs] groups the entries by image: the keys of
    the result are the images of the entries, each once, in the order of
    their first entry, and under an image is the list of the paragraphs
    of its entries, in the order of the entries, which is never empty. *)
Theorem combine_paragraphs_groups_by_image (paragraphs : list (string * string)) :
  Dict.keys (combine_paragraphs paragraphs) = remove_duplicates (fst <$> paragraphs)
  /\ List.NoDup (Dict.keys (combine_paragraphs paragraphs))
  /\ (forall image ps,
        In (image, ps) (combine_paragraphs paragraphs) ->
        ps <> []
        /\ ps = List.map snd
                  (List.filter (fun e => String.eqb (fst e) image) paragraphs))
  /\ (forall image,
        ~ In image (fst <$> paragraphs) ->
        Dict.get image (combine_paragraphs paragraphs) = None).
Proof.
  pose proof (combine_paragraphs_keys paragraphs) as Hkeys.
  assert (Hnodup : List.NoDup (Dict.keys (combine_paragraphs paragraphs)))
    by (rewrite Hkeys; apply remove_duplicates_spec).
  split; [exact Hkeys|]. split; [exact Hnodup|]. split.
  - intros image ps Hin. apply (dict_in_get _ _ _ Hnodup) in Hin.
    rewrite combine_paragraphs_spec in Hin.
    destruct (List.filter _ paragraphs) as [|e es]; [discriminate|].
    injection Hin as <-. split; [discriminate|reflexivity].
  - intros image Hnot. rewrite combine_paragraphs_spec.
    destruct (List.filter _ paragraphs) as [|[k v] es] eqn:Hfilter; [reflexivity|].
    destruct Hnot. assert (Hin : In (k, v) (List.filter
                                  (fun e => String.eqb (fst e) image) paragraphs))
      by (rewrite Hfilter; now left).
    apply List.filter_In in Hin as [Hin Hk]. apply String.eqb_eq in Hk.
    cbn in Hk. subst k. apply List.in_map_iff. now exists (image, v).
Qed.

Lemma combine_paragraphs_groups_by_image_witness :
  Dict.get "img9" (combine_paragraphs [("img1", "P1"); ("img2", "P2"); ("img1", "P3")])
  = None.
Proof.
  apply (proj2 (proj2 (proj2 (combine_paragraphs_groups_by_image
                                [("img1", "P1"); ("img2", "P2"); ("img1", "P3")])))).
  cbn. intuition discriminate.
Defined.

Lemma basename_no_slash (p : string) :
  PyStr.contains_char "/" (basename p) = false.
Proof.
  induction p as [|c p IH]; [reflexivity|].
  change (basename (String c p))
    with (if PyStr.contains_char "/" (String c p) then basename p else String c p).
  destruct (PyStr.contains_char "/" (String c p)) eqn:Hslash; [exact IH|exact Hslash].
Qed.

Lemma normalize_id_result (rid : option string) (r : string) :
  normalize_id rid = Some r ->
  PyStr.contains_char "-" r = false /\ PyStr.strip r = r.
Proof.
  unfold normalize_id. destruct rid as [rid|]; [|discriminate].
  destruct (PyStr.truthy rid); [|discriminate]. intros [= <-].
  rewrite replace_char_map. split; [apply map_hyphen_free|].
  rewrite map_chars_strip by apply hyphen_to_dot_space. now rewrite strip_strip.
Qed.

(** X19: every entry of the map from figure identifiers to images has a
    key that is not empty, has no hyphen and no white space at either
    end, and a value without slash: the key went through [normalize_id],
    the value through [os.path.basename]. *)
Theorem map_rid_to_image_entries (root : element) (rid image : string) :
  map_rid_to_image root !! rid = Some image ->
  rid <> ""
  /\ PyStr.contains_char "-" rid = false
  /\ PyStr.strip rid = rid
  /\ PyStr.contains_char "/" image = false.
Proof.
  unfold map_rid_to_image.
  set (good := fun m : gmap string string =>
                 forall rid image, m !! rid = Some image ->
                   rid <> "" /\ PyStr.contains_char "-" rid = false
                   /\ PyStr.strip rid = rid
                   /\ PyStr.contains_char "/" image = false).
  enough (Hgood : forall figs m, good m ->
            good (fold_left
                    (fun rid_to_image fig =>
                       match normalize_id (XML.get "id" (XML.attrib fig)),
                             XML.find_descendant "graphic" fig with
                       | Some rid, Some graphic =>
                           if PyStr.truthy rid then
                             match XML.get xlink_href (XML.attrib graphic) with
                             | Some image_path =>
                                 if PyStr.truthy image_path
                                 then <[rid := basename image_path]> rid_to_image
                                 else rid_to_image
                             | None => rid_to_image
                             end
                           else rid_to_image
                       | _, _ => rid_to_image
                       end) figs m)).
  { apply Hgood. intros r i Hlookup. rewrite lookup_empty in Hlookup. discriminate. }
  induction figs as [|fig figs IH]; intros m Hm; [exact Hm|].
  cbn [fold_left]. apply IH.
  destruct (normalize_id (XML.get "id" (XML.attrib fig))) as [r|] eqn:Hid;
    [|exact Hm].
  destruct (XML.find_descendant "graphic" fig) as [graphic|]; [|exact Hm].
  destruct (PyStr.truthy r) eqn:Htruthy; [|exact Hm].
  destruct (XML.get xlink_href (XML.attrib graphic)) as [image_path|]; [|exact Hm].
  destruct (PyStr.truthy image_path); [|exact Hm].
  intros r' i' Hlookup. destruct (decide (r = r')) as [<-|Hne].
  - rewrite lookup_insert_eq in Hlookup. injection Hlookup as <-.
    destruct (normalize_id_result _ _ Hid) as [Hhyphen Hstrip].
    split; [now destruct r|]. split; [exact Hhyphen|]. split; [exact Hstrip|].
    apply basename_no_slash.
  - rewrite lookup_insert_ne in Hlookup by exact Hne. now apply Hm.
Qed.

Lemma map_rid_to_image_entries_witness :
  "F2" <> ""
  /\ PyStr.contains_char "-" "F2" = false
  /\ PyStr.strip "F2" = "F2"
  /\ PyStr.contains_char "/" "img2" = false.
Proof.
  apply (map_rid_to_image_entries Sample.two_paragraphs "F2" "img2").
  vm_compute. reflexivity.
Defined.

Section Context_shape.
Context `{Platform}.

Lemma context_step_images (id_map : gmap string string) (xrefs : list path) :
  forall st,
    Forall (fun entry => exists rid, id_map !! rid = Some (fst entry)) (snd st) ->
    Forall (fun entry => exists rid, id_map !! rid = Some (fst entry))
           (snd (fold_left (context_step id_map) xrefs st)).
Proof.
  induction xrefs as [|xref xrefs IH]; intros st Hst; [exact Hst|].
  cbn [fold_left]. apply IH. clear IH. destruct st as [root paragraphs].
  unfold context_step.
  destruct (Tree.get_at root xref) as [x|]; [|exact Hst].
  destruct (normalize_id _) as [rid|]; [|exact Hst].
  destruct (if PyStr.truthy rid then id_map !! rid else None) as [image|] eqn:Himage;
    [|exact Hst].
  destruct (find_parent root xref) as [pp|]; [|exact Hst].
  destruct (Tree.get_at root pp) as [parent_paragraph|]; [|exact Hst].
  destruct (clean_paragraph_except_xref parent_paragraph id_map)
    as [cleaned_paragraph parent_paragraph'].
  cbn in Hst |- *. apply Forall_app. split; [exact Hst|].
  apply Forall_singleton. exists rid. cbn.
  destruct (PyStr.truthy rid); [exact Himage|discriminate].
Qed.

(** X20: the context of a document is keyed by image names of the
    figure map, each once; the list under an image is not empty and has
    no paragraph twice. *)
Theorem extract_context_shape (root : element) :
  List.NoDup (Dict.keys (extract_context root))
  /\ (forall image paragraphs,
        In (image, paragraphs) (extract_context root) ->
        paragraphs <> []
        /\ List.NoDup paragraphs
        /\ exists rid, map_rid_to_image root !! rid = Some image).
Proof.
  unfold extract_context, extract_context_with.
  pose proof (context_step_images (map_rid_to_image root)
                (Tree.findall is_fig_xref root) (root, []) (Forall_nil_2 _))
    as Himages.
  destruct (fold_left _ _ _) as [root' entries]. cbn [snd] in Himages.
  pose proof (combine_paragraphs_keys entries) as Hkeys.
  assert (Hsame : Dict.keys
                    (List.map (fun kv : string * list string =>
                                 (fst kv, remove_duplicates (snd kv)))
                       (combine_paragraphs entries))
                  = Dict.keys (combine_paragraphs entries)).
  { unfold Dict.keys. rewrite List.map_map. reflexivity. }
  split.
  - rewrite Hsame, Hkeys. apply remove_duplicates_spec.
  - intros image paragraphs Hin.
    apply List.in_map_iff in Hin as ([image' ps] & [= -> <-] & Hin).
    assert (Hkey : In image (fst <$> entries)).
    { apply (remove_duplicates_spec (fst <$> entries)). rewrite <- Hkeys.
      apply List.in_map_iff. now exists (image, ps). }
    apply List.in_map_iff in Hkey as ([image' paragraph] & Himage & Hentry).
    cbn in Himage. subst image'.
    rewrite List.Forall_forall in Himages.
    destruct (Himages _ Hentry) as (rid & Hrid). cbn in Hrid.
    assert (Hnodup : List.NoDup (Dict.keys (combine_paragraphs entries)))
      by (rewrite Hkeys; apply remove_duplicates_spec).
    pose proof (dict_in_get _ _ _ Hnodup Hin) as Hget.
    rewrite combine_paragraphs_spec in Hget.
    destruct (List.filter _ entries) as [|e es]; [discriminate|].
    injection Hget as <-.
    destruct (remove_duplicates_spec (List.map snd (e :: es))) as (Hunique & Hmembers & _).
    split.
    + intros Hempty. cbn [List.map] in Hmembers.
      pose proof (proj2 (Hmembers (snd e)) (or_introl eq_refl)) as Hfirst.
      now rewrite Hempty in Hfirst.
    + split; [exact Hunique|]. now exists rid.
Qed.

End Context_shape.

(** ** Image identifiers *)

Lemma contains_char_append (c : ascii) (a b : string) :
  PyStr.contains_char c (a +:+ b) = PyStr.contains_char c a || PyStr.contains_char c b.
Proof.
  induction a as [|d a IH]; [reflexivity|].
  change (PyStr.contains_char c (String d (a +:+ b))
          = PyStr.contains_char c (String d a) || PyStr.contains_char c b).
  cbn [PyStr.contains_char]. now rewrite IH, orb_assoc.
Qed.

Lemma basename_without_slash (name : string) :
  PyStr.contains_char "/" name = false -> basename name = name.
Proof.
  intros Hname. destruct name as [|c name]; [reflexivity|].
  change (basename (String c name))
    with (if PyStr.contains_char "/" (String c name) then basename name
          else String c name).
  now rewrite Hname.
Qed.

Lemma basename_join (directory name : string) :
  PyStr.contains_char "/" name = false ->
  basename (directory +:+ "/" +:+ name) = name.
Proof.
  intros Hname. induction directory as [|c directory IH].
  - change (basename (String "/" name) = name).
    change (basename (String "/" name)) with (basename name).
    now apply basename_without_slash.
  - change (basename (String c (directory +:+ "/" +:+ name)) = name).
    change (basename (String c (directory +:+ "/" +:+ name)))
      with (if PyStr.contains_char "/" (String c (directory +:+ "/" +:+ name))
            then basename (directory +:+ "/" +:+ name)
            else String c (directory +:+ "/" +:+ name)).
    cbn [PyStr.contains_char]. rewrite contains_char_append.
    change (PyStr.contains_char "/" ("/" +:+ name)) with true.
    now rewrite !orb_true_r.
Qed.

Lemma before_last_dot_none (s : string) :
  PyStr.contains_char "." s = false -> before_last_dot s = None.
Proof.
  induction s as [|c s IH]; [reflexivity|]. cbn [PyStr.contains_char before_last_dot].
  intros Hdot. apply orb_false_elim in Hdot as [Hc Hs]. rewrite (IH Hs).
  now rewrite Ascii.eqb_sym, Hc.
Qed.

Lemma before_last_dot_append (stem ext : string) :
  PyStr.contains_char "." ext = false ->
  before_last_dot (stem +:+ String "." ext) = Some stem.
Proof.
  intros Hext. induction stem as [|c stem IH].
  - change (before_last_dot (String "." ext) = Some "").
    cbn [before_last_dot]. now rewrite (before_last_dot_none ext Hext).
  - change (before_last_dot (String c (stem +:+ String "." ext)) = Some (String c stem)).
    cbn [before_last_dot]. now rewrite IH.
Qed.

(** X21: the identifier of the image [stem.jpg] of a media directory is
    [stem], what precedes the last dot of the file name, whatever dots the
    directory path has; a name whose stem is empty or made of dots only
    keeps its extension, as [os.path.splitext] does not split there. *)
Theorem image_identifier_of_a_jpg_file (directory : string)
    (images : list (string * file)) :
  images <> [] ->
  Forall (fun image => PyStr.contains_char "/" (fst image) = false) images ->
  get_image_identifier
    (Some (List.map (fun image =>
                       (path_join directory (fst image +:+ ".jpg"), snd image))
                    images))
  = Some (List.map (fun image =>
                      if all_dots (fst image) then fst image +:+ ".jpg"
                      else fst image)
                   images).
Proof.
  intros Hne Hstems.
  assert (Hmap : List.map (fun pf : string * file => splitext_root (basename (fst pf)))
                   (List.map (fun image : string * file =>
                                (path_join directory (fst image +:+ ".jpg"), snd image))
                             images)
                 = List.map (fun image : string * file =>
                               if all_dots (fst image) then fst image +:+ ".jpg"
                               else fst image) images).
  { rewrite List.map_map. apply List.map_ext_in. intros [stem content] Hin.
    cbn [fst snd]. rewrite List.Forall_forall in Hstems.
    specialize (Hstems _ Hin). cbn in Hstems.
    unfold path_join. rewrite append_not_empty.
    rewrite basename_join
      by (rewrite contains_char_append, Hstems; reflexivity).
    unfold splitext_root. now rewrite (before_last_dot_append stem "jpg" eq_refl). }
  unfold get_image_identifier. destruct images as [|image images]; [contradiction|].
  cbn [List.map] in Hmap |- *. f_equal. exact Hmap.
Qed.

Lemma image_identifier_of_a_jpg_file_witness :
  get_image_identifier
    (Some [ (path_join "data/v1.2/PMC1" ("fig.1" +:+ ".jpg"), Sample.image None);
            (path_join "data/v1.2/PMC1" ("" +:+ ".jpg"), Sample.image None) ])
  = Some ["fig.1"; ".jpg"].
Proof.
  apply (image_identifier_of_a_jpg_file "data/v1.2/PMC1"
           [("fig.1", Sample.image None); ("", Sample.image None)]).
  - discriminate.
  - repeat constructor.
Defined.

(** ** The rows left to do *)

(** X22: [create_subset_based_on_file_diff] keeps the rows of the
    manifest in their order and keeps or drops the rows of one identifier
    together; with no identifier of the manifest in the log it returns the
    manifest, with all of them in the log no row, and applying it to its
    own result changes nothing. *)
Theorem create_subset_keeps_order (manifest : list article_row)
    (completed : list (string * string)) :
  let work := create_subset_based_on_file_diff manifest completed in
  sublist work manifest
  /\ (forall r r', In r manifest -> In r' manifest ->
        Accession_ID r = Accession_ID r' -> In r work -> In r' work)
  /\ ((forall r, In r manifest -> ~ In (Accession_ID r) (completed.*1)) ->
      work = manifest)
  /\ ((forall r, In r manifest -> In (Accession_ID r) (completed.*1)) -> work = [])
  /\ create_subset_based_on_file_diff work completed = work.
Proof.
  intros work. unfold work. rewrite !create_subset_is_a_filter.
  set (keep := fun r : article_row =>
                 negb (bool_decide
                         (Accession_ID r ∈ (list_to_set (completed.*1) : gset string)))).
  assert (Hkeep : forall r, keep r = true <-> ~ In (Accession_ID r) (completed.*1)).
  { intros r. unfold keep.
    now rewrite negb_true_iff, bool_decide_eq_false, elem_of_list_to_set,
      list_elem_of_In. }
  split; [|split; [|split; [|split]]].
  - induction manifest as [|r manifest IH]; [constructor|]. cbn.
    destruct (keep r); [now constructor|now constructor].
  - intros r r' _ Hr' Hsame Hr. apply List.filter_In in Hr as [_ Hr].
    apply List.filter_In. split; [exact Hr'|].
    apply Hkeep. rewrite <- Hsame. now apply Hkeep.
  - intros Hnone. apply List.forallb_filter_id, List.forallb_forall.
    intros r Hr. now apply Hkeep, Hnone.
  - intros Hall. destruct (List.filter keep manifest) as [|r l] eqn:Hfilter;
      [reflexivity|].
    assert (Hr : In r (List.filter keep manifest)) by (rewrite Hfilter; now left).
    apply List.filter_In in Hr as [Hr Hkept]. apply Hkeep in Hkept.
    destruct Hkept. now apply Hall.
  - apply List.forallb_filter_id, List.forallb_forall.
    intros r Hr. now apply List.filter_In in Hr as [_ Hr].
Qed.

Lemma create_subset_keeps_order_witness :
  create_subset_based_on_file_diff
    [Sample.row "PMC1"; Sample.row "PMC3"; Sample.row "PMC1"]
    [("PMC2", "filelist_toy_batch_4_0.json")]
  = [Sample.row "PMC1"; Sample.row "PMC3"; Sample.row "PMC1"].
Proof.
  apply (proj1 (proj2 (proj2 (create_subset_keeps_order
                                [Sample.row "PMC1"; Sample.row "PMC3"; Sample.row "PMC1"]
                                [("PMC2", "filelist_toy_batch_4_0.json")])))).
  cbn. intros r [<-|[<-|[<-|[]]]] [Heq|[]]; discriminate.
Defined.

(** ** Sub-batch identifiers *)

Lemma split_char_not_nil (sep : ascii) (s : string) : split_char sep s <> [].
Proof.
  induction s as [|c s IH]; [easy|]. cbn.
  destruct (Ascii.eqb c sep); [easy|]. now destruct (split_char sep s).
Qed.

Lemma split_char_without (sep : ascii) (s : string) :
  PyStr.contains_char sep s = false -> split_char sep s = [s].
Proof.
  induction s as [|c s IH]; [reflexivity|]. cbn. intros Hs.
  apply orb_false_elim in Hs as [Hc Hs]. rewrite Ascii.eqb_sym, Hc.
  now rewrite (IH Hs).
Qed.

Lemma split_char_append (sep : ascii) (a b : string) :
  PyStr.contains_char sep a = false ->
  split_char sep (a +:+ String sep b) = a :: split_char sep b.
Proof.
  induction a as [|c a IH]; intros Ha.
  - change (split_char sep (String sep b) = "" :: split_char sep b).
    cbn. now rewrite Ascii.eqb_refl.
  - change (split_char sep (String c (a +:+ String sep b))
            = String c a :: split_char sep b).
    cbn in Ha |- *. apply orb_false_elim in Ha as [Hc Ha].
    now rewrite Ascii.eqb_sym, Hc, (IH Ha).
Qed.

Lemma split_char_head (sep : ascii) (s : string) :
  PyStr.contains_char sep (nth 0 (split_char sep s) "") = false
  /\ (PyStr.contains_char sep s = true -> (1 < length (split_char sep s))%nat).
Proof.
  induction s as [|c s [IHhead IHlen]]; [split; [reflexivity|discriminate]|].
  cbn. destruct (Ascii.eqb_spec c sep) as [->|Hne].
  - split; [reflexivity|]. intros _. cbn.
    pose proof (split_char_not_nil sep s). destruct (split_char sep s); [easy|cbn; lia].
  - assert (Hc : Ascii.eqb sep c = false) by (apply Ascii.eqb_neq; congruence).
    rewrite Hc. cbn [orb].
    destruct (split_char sep s) as [|part parts] eqn:Hsplit.
    + now destruct (split_char_not_nil sep s).
    + cbn in IHhead |- *. rewrite Hc, IHhead. split; [reflexivity|exact IHlen].
Qed.

(** X23: the main batch index of a sub-batch identifier is what precedes
    its first underscore, and the identifier itself when it has none: the
    result has no underscore and is what the function returns for it. *)
Theorem get_main_batch_index_properties (sub_batch_id : string) :
  PyStr.contains_char "_" (get_main_batch_index sub_batch_id) = false
  /\ get_main_batch_index (get_main_batch_index sub_batch_id)
     = get_main_batch_index sub_batch_id
  /\ (PyStr.contains_char "_" sub_batch_id = false ->
      get_main_batch_index sub_batch_id = sub_batch_id)
  /\ (forall main rest,
        PyStr.contains_char "_" main = false ->
        sub_batch_id = main +:+ String "_" rest ->
        get_main_batch_index sub_batch_id = main).
Proof.
  assert (Hwithout : forall s, PyStr.contains_char "_" s = false ->
                       get_main_batch_index s = s).
  { intros s Hs. unfold get_main_batch_index. now rewrite split_char_without. }
  assert (Hfree : PyStr.contains_char "_" (get_main_batch_index sub_batch_id) = false).
  { unfold get_main_batch_index.
    destruct (split_char_head "_" sub_batch_id) as [Hhead Hlen].
    destruct (Nat.ltb_spec 1 (length (split_char "_" sub_batch_id))) as [_|Hshort];
      [exact Hhead|].
    destruct (PyStr.contains_char "_" sub_batch_id); [|reflexivity].
    specialize (Hlen eq_refl). lia. }
  split; [exact Hfree|]. split; [now apply Hwithout|]. split; [apply Hwithout|].
  intros main rest Hmain ->. unfold get_main_batch_index.
  rewrite (split_char_append "_" main rest Hmain). cbn [length nth].
  pose proof (split_char_not_nil "_" rest).
  destruct (split_char "_" rest); [easy|reflexivity].
Qed.

Lemma get_main_batch_index_properties_witness :
  get_main_batch_index "12" = "12" /\ get_main_batch_index "12_3_1" = "12".
Proof.
  split.
  - apply (proj1 (proj2 (proj2 (get_main_batch_index_properties "12")))). reflexivity.
  - apply (proj2 (proj2 (proj2 (get_main_batch_index_properties "12_3_1")))
             "12" "3_1"); reflexivity.
Defined.

(** ** The two series of shards of a resumed batch *)

Lemma append_cons (c : ascii) (a b : string) : String c a +:+ b = String c (a +:+ b).
Proof. reflexivity. Qed.

Lemma append_empty (b : string) : "" +:+ b = b.
Proof. reflexivity. Qed.

Lemma replace_fixed_skip (c : ascii) (s : string) :
  c <> "_"%char ->
  PyStr.replace_from "_fixed" "" 0 (String c s)
  = String c (PyStr.replace_from "_fixed" "" 0 s).
Proof.
  intros Hc. cbn [PyStr.replace_from].
  change (String.prefix "_fixed" (String c s))
    with (if ascii_dec "_" c then String.prefix "fixed" s else false).
  destruct (ascii_dec "_" c) as [Heq|_]; [now destruct Hc|reflexivity].
Qed.

Lemma replace_fixed_underscore (s : string) :
  String.prefix "fixed" s = false ->
  PyStr.replace_from "_fixed" "" 0 (String "_" s)
  = String "_" (PyStr.replace_from "_fixed" "" 0 s).
Proof.
  intros Hs. cbn [PyStr.replace_from].
  change (String.prefix "_fixed" (String "_" s)) with (String.prefix "fixed" s).
  now rewrite Hs.
Qed.

Lemma digit_is_no_underscore (c : ascii) : PyStr.is_digit c = true -> c <> "_"%char.
Proof. intros Hc ->. discriminate. Qed.

Lemma replace_fixed_digits (ds rest : string) :
  all_digits ds = true ->
  PyStr.replace_from "_fixed" "" 0 (ds +:+ rest)
  = ds +:+ PyStr.replace_from "_fixed" "" 0 rest.
Proof.
  induction ds as [|c ds IH]; intros Hds; [reflexivity|].
  cbn in Hds. apply andb_prop in Hds as [Hc Hds].
  rewrite !append_cons, replace_fixed_skip by now apply digit_is_no_underscore.
  now rewrite IH.
Qed.

Lemma prefix_fixed_digits (ds rest : string) :
  ds <> "" -> all_digits ds = true -> String.prefix "fixed" (ds +:+ rest) = false.
Proof.
  intros Hne Hds. destruct ds as [|c ds]; [contradiction|].
  cbn in Hds. apply andb_prop in Hds as [Hc _].
  rewrite append_cons.
  change (String.prefix "fixed" (String c (ds +:+ rest)))
    with (if ascii_dec "f" c then String.prefix "ixed" (ds +:+ rest) else false).
  destruct (ascii_dec "f" c) as [<-|_]; [discriminate|reflexivity].
Qed.

Lemma digits_without (c : ascii) (ds : string) :
  PyStr.is_digit c = false -> all_digits ds = true -> PyStr.contains_char c ds = false.
Proof.
  intros Hc. induction ds as [|d ds IH]; [reflexivity|]. cbn.
  intros Hds. apply andb_prop in Hds as [Hd Hds]. rewrite (IH Hds), orb_false_r.
  apply Ascii.eqb_neq. intros <-. congruence.
Qed.

(** The manifest names of the two paths script 04 hands to
    [build_json], for a batch index written [ds]. *)
Lemma filelist_names_of_script_04 (base directory license ds : string) :
  In license ["commercial"; "noncommercial"; "other"; "toy"] ->
  ds <> "" -> all_digits ds = true ->
  filelist_name_of ((base +:+ "/") +:+ "filelist_" +:+ license +:+ "_batch_"
                      +:+ ds +:+ "_fixed.csv")
  = "filelist_" +:+ license +:+ "_batch_" +:+ ds
  /\ filelist_name_of (directory +:+ "/filelist_json/" +:+ "json_filelist_"
                         +:+ license +:+ "_batch_" +:+ ds +:+ ".csv")
     = "json_filelist_" +:+ license +:+ "_batch_" +:+ ds.
Proof.
  intros Hlicense Hne Hds.
  pose proof (digits_without "/" ds eq_refl Hds) as Hslash.
  pose proof (prefix_fixed_digits ds "" Hne Hds) as Hfixed.
  pose proof (prefix_fixed_digits ds "_fixed" Hne Hds) as Hfixed'.
  assert (Hempty : forall s, s +:+ "" = s).
  { induction s as [|c s IH]; [reflexivity|]. now rewrite append_cons, IH. }
  rewrite Hempty in Hfixed.
  set (stem := "filelist_" +:+ license +:+ "_batch_" +:+ ds +:+ "_fixed").
  set (stem' := "json_filelist_" +:+ license +:+ "_batch_" +:+ ds).
  assert (Hpath : (base +:+ "/") +:+ "filelist_" +:+ license +:+ "_batch_"
                    +:+ ds +:+ "_fixed.csv"
                  = base +:+ "/" +:+ (stem +:+ String "." "csv")).
  { unfold stem. now rewrite !append_assoc. }
  assert (Hpath' : directory +:+ "/filelist_json/" +:+ "json_filelist_"
                     +:+ license +:+ "_batch_" +:+ ds +:+ ".csv"
                   = (directory +:+ "/filelist_json") +:+ "/"
                       +:+ (stem' +:+ String "." "csv")).
  { unfold stem'. now rewrite !append_assoc. }
  assert (Hlicense' : PyStr.contains_char "/" license = false)
    by (destruct Hlicense as [<-|[<-|[<-|[<-|[]]]]]; reflexivity).
  unfold filelist_name_of. rewrite Hpath, Hpath'. split.
  - rewrite basename_join
      by (unfold stem; now rewrite !contains_char_append, Hslash, Hlicense').
    unfold splitext_root. rewrite (before_last_dot_append stem "csv" eq_refl).
    assert (all_dots stem = false) as -> by reflexivity.
    unfold PyStr.replace, stem.
    destruct Hlicense as [<-|[<-|[<-|[<-|[]]]]];
      repeat first [ rewrite append_cons | rewrite append_empty ];
      repeat first [ rewrite replace_fixed_skip by discriminate
                   | rewrite replace_fixed_underscore by first [reflexivity|exact Hfixed'] ];
      rewrite (replace_fixed_digits ds "_fixed" Hds);
      change (PyStr.replace_from "_fixed" "" 0 "_fixed") with "";
      now rewrite Hempty.
  - rewrite basename_join
      by (unfold stem'; now rewrite !contains_char_append, Hslash, Hlicense').
    unfold splitext_root. rewrite (before_last_dot_append stem' "csv" eq_refl).
    assert (all_dots stem' = false) as -> by reflexivity.
    unfold PyStr.replace, stem'.
    destruct Hlicense as [<-|[<-|[<-|[<-|[]]]]];
      repeat first [ rewrite append_cons | rewrite append_empty ];
      repeat first [ rewrite replace_fixed_skip by discriminate
                   | rewrite replace_fixed_underscore by first [reflexivity|exact Hfixed] ];
      rewrite <- (Hempty ds) at 1;
      now rewrite (replace_fixed_digits ds "" Hds), Hempty.
Qed.

(** X24: for a batch directory given with its final slash, the first
    call of script 04 for a batch and a call that resumes it hand
    manifests of different names to [build_json]: the shards of
    the first call are named [filelist_<license>_batch_<index>_<n>.json],
    those of a resumed call [json_filelist_<license>_batch_<index>_<n>.json],
    and neither pattern matches a shard of the other series, so that a
    resumed call starts its own series at index 0. *)
Theorem resumed_call_starts_another_series (base license : string) (batch_idx : Z)
    (manifest : list article_row) (d : disk) :
  In license ["commercial"; "noncommercial"; "other"; "toy"] ->
  (0 <= batch_idx)%Z ->
  let first_name := "filelist_" +:+ license +:+ "_batch_" +:+ str_of_Z batch_idx in
  let resumed_name :=
    "json_filelist_" +:+ license +:+ "_batch_" +:+ str_of_Z batch_idx in
  (complete_log d = None ->
   exists path,
     script_04_work (base +:+ "/") license batch_idx manifest d = Some (path, manifest)
     /\ filelist_name_of path = first_name)
  /\ (forall completed,
        complete_log d = Some completed ->
        length completed <> length manifest ->
        exists path,
          script_04_work (base +:+ "/") license batch_idx manifest d
          = Some (path, create_subset_based_on_file_diff manifest completed)
          /\ filelist_name_of path = resumed_name)
  /\ (forall m n,
        match_version first_name (shard_name resumed_name n) = None
        /\ match_version resumed_name (shard_name first_name m) = None).
Proof.
  intros Hlicense Hidx first_name resumed_name.
  assert (Hds : str_of_Z batch_idx <> "" /\ all_digits (str_of_Z batch_idx) = true).
  { rewrite <- (Z2N.id batch_idx Hidx), str_of_Z_of_N. split.
    - pose proof (str_of_N_truthy (Z.to_N batch_idx)) as Htruthy.
      now destruct (str_of_N (Z.to_N batch_idx)).
    - apply str_of_N_digits. }
  destruct Hds as [Hne Hds].
  destruct (filelist_names_of_script_04 base ((base +:+ "/")) license
              (str_of_Z batch_idx) Hlicense Hne Hds) as [Hfirst Hresumed].
  split; [|split].
  - intros Hlog. unfold script_04_work. rewrite Hlog. eexists. split; [reflexivity|].
    exact Hfirst.
  - intros completed Hlog Hlen. unfold script_04_work, compare_csv_row_counts.
    rewrite Hlog. cbn [Nat.eqb].
    destruct (Nat.eqb_spec (length manifest) (length completed)) as [Heq|_];
      [now destruct Hlen|].
    eexists. split; [reflexivity|]. exact Hresumed.
  - intros m n. unfold first_name, resumed_name.
    destruct Hlicense as [<-|[<-|[<-|[<-|[]]]]]; split; reflexivity.
Qed.

Lemma resumed_call_starts_another_series_witness :
  exists path,
    script_04_work ("file_lists" +:+ "/") "toy" 4
      [Sample.row "PMC1"; Sample.row "PMC2"; Sample.row "PMC3"] Sample.one_completed
    = Some (path,
            create_subset_based_on_file_diff
              [Sample.row "PMC1"; Sample.row "PMC2"; Sample.row "PMC3"]
              [("PMC2", "filelist_toy_batch_4_0.json")])
    /\ filelist_name_of path = "json_filelist_toy_batch_4".
Proof.
  refine (proj1 (proj2 (resumed_call_starts_another_series "file_lists" "toy" 4
                          [Sample.row "PMC1"; Sample.row "PMC2"; Sample.row "PMC3"]
                          Sample.one_completed _ _))
            [("PMC2", "filelist_toy_batch_4_0.json")] eq_refl _).
  - cbn. tauto.
  - lia.
  - cbn. lia.
Defined.

(** ** The emitted record, further *)

Section Emitted_record_properties.
Context `{Platform}.

Lemma ensure_title_result (title : pyval) :
  ensure_title title = PNone \/ exists s, ensure_title title = PStr s.
Proof. destruct title; cbn; eauto. Qed.

(** X25: the record written for an item has the fourteen keys of the
    default record and no other, each once, whether the item was
    assembled or replaced by the default record; its [mesh] is null and
    its [title] is null or a string, also when the document has markup
    inside the title. *)
Theorem emitted_record_fields (listdir : string -> listing) (out_dir : string)
    (row : article_row) :
  let article := emitted_record listdir out_dir row in
  Dict.keys article ≡ₚ Dict.keys default_article_dict
  /\ List.NoDup (Dict.keys article)
  /\ Dict.get "mesh" article = Some PNone
  /\ (Dict.get "title" article = Some PNone
      \/ exists s, Dict.get "title" article = Some (PStr s)).
Proof.
  intros article. unfold article, emitted_record.
  assert (Hnodup : List.NoDup (Dict.keys default_article_dict)).
  { apply NoDup_ListNoDup. apply (bool_decide_unpack _). vm_compute. exact I. }
  destruct (build_nxml_metadata listdir out_dir _ row) as [record|message] eqn:Hbuild.
  2: { split; [reflexivity|]. split; [exact Hnodup|]. split; [reflexivity|now left]. }
  assert (Htitle : Dict.get "title" record = Some PNone
                   \/ exists s, Dict.get "title" record = Some (PStr s)).
  { unfold build_nxml_metadata in Hbuild.
    destruct (get_nxml_path _ _) as [message|path_to_nxml]; [discriminate|].
    injection Hbuild as <-. unfold extract_info_from_filelist_row.
    destruct (extract_metadata_from_nxml _) as [meta|] eqn:Hmeta.
    - unfold extract_metadata_from_nxml in Hmeta.
      destruct (path_to_nxml ≫= _) as [content|]; [|discriminate].
      destruct (default _ (metadata_fields content)) as [[[title keyword] pmid] cats].
      injection Hmeta as <-.
      destruct (ensure_title_result title) as [->|[s ->]];
        destruct (str_or_none (PMID row)); cbn; eauto.
    - destruct (str_or_none (PMID row)); cbn; eauto. }
  destruct (build_nxml_metadata_shape _ _ _ _ _ Hbuild)
    as (path_to_nxml & _ & title & keyword & pmid & cats & ctx & nxml & ->).
  split; [|split; [|split]].
  - apply NoDup_Permutation.
    + apply (bool_decide_unpack _). vm_compute. exact I.
    + apply (bool_decide_unpack _). vm_compute. exact I.
    + intros key. cbn. rewrite !elem_of_cons, !elem_of_nil. tauto.
  - apply NoDup_ListNoDup. apply (bool_decide_unpack _). vm_compute. exact I.
  - reflexivity.
  - exact Htitle.
Qed.

Variable batch_size : Z.
Variable listdir : string -> listing.
Variable out_dir : string.

(** X26: when the current shard is not valid JSON, the turn of the loop
    replaces it by an array with the one new record, so that what the
    file held is lost; with [log] set the row goes to the error log with
    the text of the decoding error, after the row of a failed assembly if
    there is one, and to the completion log as well. *)
Theorem undecodable_shard_is_overwritten log name st row error :
  json_dir (on_disk st) !! json_file_path st = Some (NotJson error) ->
  exists st',
    build_json_step listdir out_dir batch_size log name st row = Some st'
    /\ json_dir (on_disk st') !! json_file_path st
       = Some (JsonArray [PDict (emitted_record listdir out_dir row)])
    /\ (log = true ->
        exists before shard,
          error_log (on_disk st') = Some (before ++ [(row, error)])
          /\ complete_log (on_disk st')
             = Some (default [] (complete_log (on_disk st))
                       ++ [(Accession_ID row, shard)]))
    /\ (log = false ->
        error_log (on_disk st') = error_log (on_disk st)
        /\ complete_log (on_disk st') = complete_log (on_disk st)).
Proof.
  intros Hfile.
  destruct (build_json_step_files listdir out_dir batch_size log name st row _ Hfile)
    as (st' & Hstep & Hfiles & _).
  exists st'. split; [exact Hstep|]. split.
  { rewrite Hfiles. now rewrite lookup_insert_eq. }
  clear Hfiles. unfold build_json_step, extract_or_default, log_error, log_append in Hstep.
  rewrite Hfile in Hstep.
  destruct (build_nxml_metadata _ _ _ _) as [article|message];
    destruct (Z.eqb _ _); injection Hstep as <-; cbn; split;
    intros ->; cbn; eauto.
  all: eexists (_ ++ [_]), _; split; [|reflexivity]; now rewrite <- List.app_assoc.
Qed.

End Emitted_record_properties.

Lemma undecodable_shard_is_overwritten_witness :
  exists st',
    build_json_step (H := CPython.platform) Sample.no_media Sample.out_dir 2 true
      Sample.filelist_name
      {| on_disk :=
           {| json_dir := {[ shard_name Sample.filelist_name 0 := NotJson "Expecting value" ]};
              error_log := None;
              complete_log := None |};
         json_file_path := shard_name Sample.filelist_name 0 |}
      (Sample.row "PMC1") = Some st'
    /\ json_dir (on_disk st') !! shard_name Sample.filelist_name 0
       = Some (JsonArray [PDict default_article_dict]).
Proof.
  destruct (undecodable_shard_is_overwritten (H := CPython.platform) 2
              Sample.no_media Sample.out_dir true Sample.filelist_name
              {| on_disk :=
                   {| json_dir :=
                        {[ shard_name Sample.filelist_name 0 := NotJson "Expecting value" ]};
                      error_log := None;
                      complete_log := None |};
                 json_file_path := shard_name Sample.filelist_name 0 |}
              (Sample.row "PMC1") "Expecting value")
    as (st' & Hstep & Hfile & _).
  - apply lookup_singleton_eq.
  - exists st'. split; [exact Hstep|exact Hfile].
Defined.

(** ** The date of a citation *)

Lemma digit_char_cases (c : ascii) :
  PyStr.is_digit c = true ->
  In c ["0"; "1"; "2"; "3"; "4"; "5"; "6"; "7"; "8"; "9"]%char.
Proof.
  destruct c as [[] [] [] [] [] [] [] []]; vm_compute; intros Hc;
    try discriminate; tauto.
Qed.

Lemma uint_of_digits (s : string) :
  all_digits s = true ->
  exists d, NilEmpty.uint_of_string s = Some d /\ NilEmpty.string_of_uint d = s.
Proof.
  induction s as [|c s IH]; [now exists Decimal.Nil|]. cbn [all_digits].
  intros Hs. apply andb_prop in Hs as [Hc Hs]. destruct (IH Hs) as (d & Hd & Hback).
  cbn [NilEmpty.uint_of_string]. rewrite Hd.
  apply digit_char_cases in Hc.
  destruct Hc as [<-|[<-|[<-|[<-|[<-|[<-|[<-|[<-|[<-|[<-|[]]]]]]]]]]];
    eexists; (split; [reflexivity|]); cbn; now rewrite Hback.
Qed.

Lemma string_of_uint_length (d : Decimal.uint) :
  String.length (NilEmpty.string_of_uint d) = Decimal.nb_digits d.
Proof. induction d; cbn; congruence. Qed.

Lemma string_of_uint_zeros (k : nat) (d : Decimal.uint) :
  NilEmpty.string_of_uint (Nat.iter k Decimal.D0 d)
  = String.concat "" (repeat "0" k) +:+ NilEmpty.string_of_uint d.
Proof.
  induction k as [|k IH]; [reflexivity|].
  change (Nat.iter (S k) Decimal.D0 d) with (Decimal.D0 (Nat.iter k Decimal.D0 d)).
  cbn [NilEmpty.string_of_uint]. rewrite IH.
  destruct k; reflexivity.
Qed.

Lemma zeros_add (a b : nat) (s : string) :
  String.concat "" (repeat "0" (a + b)) +:+ s
  = String.concat "" (repeat "0" a) +:+ String.concat "" (repeat "0" b) +:+ s.
Proof.
  induction a as [|a IH]; [reflexivity|].
  assert (Hstep : forall k t, String.concat "" (repeat "0" (S k)) +:+ t
                              = String "0" (String.concat "" (repeat "0" k) +:+ t)).
  { intros k t. destruct k; reflexivity. }
  change (S a + b)%nat with (S (a + b)). now rewrite !Hstep, IH.
Qed.

(** Formatting with leading zeros undoes [int]. *)
Lemma zero_pad_int_of_digits (width : nat) (s : string) :
  all_digits s = true -> s <> "" -> (String.length s <= width)%nat ->
  zero_pad width (int_of_digits s)
  = String.concat "" (repeat "0" (width - String.length s)) +:+ s.
Proof.
  intros Hs Hne Hwidth. destruct (uint_of_digits s Hs) as (d & Hd & Hback).
  assert (Hnil : d <> Decimal.Nil) by (intros ->; now destruct Hne).
  unfold zero_pad, int_of_digits, str_of_N. rewrite Hd, DecimalN.Unsigned.to_of.
  subst s. rewrite !string_of_uint_length in *.
  pose proof (DecimalFacts.iter_D0_unorm d Hnil) as Hiter.
  pose proof (DecimalFacts.nb_digits_unorm d Hnil) as Hle.
  replace (width - Decimal.nb_digits (Decimal.unorm d))%nat
    with ((width - Decimal.nb_digits d)
          + (Decimal.nb_digits d - Decimal.nb_digits (Decimal.unorm d)))%nat by lia.
  rewrite zeros_add, <- string_of_uint_zeros, Hiter. reflexivity.
Qed.

Lemma all_digits_append (a b : string) :
  all_digits (a +:+ b) = all_digits a && all_digits b.
Proof.
  induction a as [|c a IH]; [reflexivity|].
  change (all_digits (String c (a +:+ b)) = all_digits (String c a) && all_digits b).
  cbn [all_digits]. now rewrite IH, andb_assoc.
Qed.

Lemma length_append (a b : string) :
  String.length (a +:+ b) = (String.length a + String.length b)%nat.
Proof.
  induction a as [|c a IH]; [reflexivity|].
  change (String.length (String c (a +:+ b)) = S (String.length a + String.length b)).
  cbn [String.length]. now rewrite IH.
Qed.

Lemma zeros_digits (k : nat) :
  all_digits (String.concat "" (repeat "0" k)) = true
  /\ String.length (String.concat "" (repeat "0" k)) = k.
Proof.
  induction k as [|k [IHd IHl]]; [split; reflexivity|].
  assert (Hstep : String.concat "" (repeat "0" (S k))
                  = String "0" (String.concat "" (repeat "0" k))).
  { destruct k; [reflexivity|]. reflexivity. }
  rewrite Hstep. cbn. now rewrite IHd, IHl.
Qed.

(** A number written with [width] digits or fewer is padded to [width]
    digits. *)
Lemma zero_pad_shape (width : nat) (s : string) :
  all_digits s = true -> s <> "" -> (String.length s <= width)%nat ->
  all_digits (zero_pad width (int_of_digits s)) = true
  /\ String.length (zero_pad width (int_of_digits s)) = width.
Proof.
  intros Hs Hne Hwidth. rewrite (zero_pad_int_of_digits width s Hs Hne Hwidth).
  destruct (zeros_digits (width - String.length s)) as [Hd Hl].
  rewrite all_digits_append, length_append, Hd, Hl, Hs. split; [reflexivity|lia].
Qed.

Lemma search_year_digits (s : string) : forall prev_word year rest,
  CitationFields.search_year prev_word s = Some (year, rest) ->
  all_digits year = true /\ String.length year = 4%nat.
Proof.
  assert (Hhere : forall prev_word t year rest,
             CitationFields.year_here prev_word t = Some (year, rest) ->
             all_digits year = true /\ String.length year = 4%nat).
  { intros prev_word t year rest. unfold CitationFields.year_here.
    destruct t as [|a [|b [|c [|d r]]]]; try discriminate.
    destruct (negb prev_word); [|discriminate]. cbn [andb].
    destruct (PyStr.is_digit a) eqn:Ha; [|discriminate].
    destruct (PyStr.is_digit b) eqn:Hb; [|discriminate].
    destruct (PyStr.is_digit c) eqn:Hc; [|discriminate].
    destruct (PyStr.is_digit d) eqn:Hd; [|discriminate]. cbn [andb].
    destruct (negb _); [|discriminate]. intros [= <- _].
    cbn. now rewrite Ha, Hb, Hc, Hd. }
  induction s as [|c s IH]; intros prev_word year rest Hsearch.
  - cbn in Hsearch. discriminate.
  - cbn [CitationFields.search_year] in Hsearch.
    destruct (CitationFields.year_here prev_word (String c s)) as [[y r]|] eqn:Hy.
    + injection Hsearch as <- <-. exact (Hhere _ _ _ _ Hy).
    + exact (IH _ _ _ Hsearch).
Qed.

Lemma take_upto_digits (n : nat) (s : string) : forall t u,
  CitationFields.take_upto n PyStr.is_digit s = (t, u) ->
  all_digits t = true /\ (String.length t <= n)%nat.
Proof.
  revert s. induction n as [|n IH]; intros s t u Htake.
  - destruct s; injection Htake as <- <-; split; cbn; auto.
  - destruct s as [|c s]; [injection Htake as <- <-; split; cbn; auto with arith|].
    cbn [CitationFields.take_upto] in Htake.
    destruct (PyStr.is_digit c) eqn:Hc.
    + destruct (CitationFields.take_upto n PyStr.is_digit s) as [t' u'] eqn:Hrest.
      injection Htake as <- <-. destruct (IH s t' u' Hrest) as [Hd Hl].
      cbn. rewrite Hc, Hd. split; [reflexivity|lia].
    + injection Htake as <- <-. split; cbn; auto with arith.
Qed.

Lemma month_number_shape (m : N) :
  In m [1; 2; 3; 4; 5; 6; 7; 8; 9; 10; 11; 12]%N ->
  all_digits (zero_pad 2 m) = true
  /\ String.length (zero_pad 2 m) = 2%nat
  /\ (1 <= int_of_digits (zero_pad 2 m) <= 12)%N.
Proof.
  intros Hm.
  repeat (destruct Hm as [<-|Hm]; [vm_compute; repeat split; discriminate|]).
  destruct Hm.
Qed.

Lemma dict_get_In {V} (k : string) (v : V) (d : list (string * V)) :
  Dict.get k d = Some v -> In v (List.map snd d).
Proof.
  induction d as [|[k' v'] d IH]; [discriminate|]. cbn.
  destruct (String.eqb k' k); [intros [= ->]; now left|]. intros Hget. right. auto.
Qed.

(** X27: whenever [extract_date_from_citation] returns a date, it has
    the shape that [ensure_unix] gives to [strptime]: four digits, a
    space, two digits for a month from 01 to 12, a space and two digits
    for the day; the day is not checked against the month. *)
Theorem citation_date_shape (citation date : string) :
  CitationFields.extract_date_from_citation citation = Some (Some date) ->
  exists year month day,
    date = year +:+ " " +:+ month +:+ " " +:+ day
    /\ String.length year = 4%nat /\ all_digits year = true
    /\ String.length month = 2%nat /\ all_digits month = true
    /\ (1 <= int_of_digits month <= 12)%N
    /\ String.length day = 2%nat /\ all_digits day = true.
Proof.
  unfold CitationFields.extract_date_from_citation.
  destruct (CitationFields.after_first_dot_space citation) as [after_title|];
    [|discriminate].
  destruct (CitationFields.date_pattern after_title)
    as [[[year_str month_or_season] day_str]|] eqn:Hpattern; [|discriminate].
  assert (Hyear : all_digits year_str = true /\ String.length year_str = 4%nat
                  /\ match day_str with
                     | Some ds => all_digits ds = true /\ ds <> ""
                                  /\ (String.length ds <= 2)%nat
                     | None => True
                     end).
  { unfold CitationFields.date_pattern in Hpattern.
    destruct (CitationFields.search_year false after_title) as [[y rest]|] eqn:Hsearch;
      [|discriminate].
    apply search_year_digits in Hsearch as [Hd Hl].
    assert (Hday : forall r, match CitationFields.day_group r with
                             | Some ds => all_digits ds = true /\ ds <> ""
                                          /\ (String.length ds <= 2)%nat
                             | None => True
                             end).
    { intros r. unfold CitationFields.day_group.
      destruct (CitationFields.spaces1 r) as [r'|]; [|exact I].
      destruct (CitationFields.take_upto 2 PyStr.is_digit r') as [digits u] eqn:Htake.
      apply take_upto_digits in Htake as [Hds Hlen].
      destruct (Nat.leb_spec 1 (String.length digits)); [|exact I].
      split; [exact Hds|]. split; [|exact Hlen]. intros ->. cbn in *. lia. }
    destruct (CitationFields.month_group rest) as [[month rest']|];
      injection Hpattern as <- <- <-; (split; [exact Hd|]); (split; [exact Hl|]);
      apply Hday. }
  destruct Hyear as (Hyd & Hyl & Hday).
  set (month := match month_or_season with
                | Some m =>
                    if existsb (String.eqb m) CitationFields.season_names
                    then Some (CitationFields.parse_season_to_month m)
                    else CitationFields.parse_month_str m
                | None => Some 1%N
                end).
  assert (Hmonth : forall m, month = Some m ->
                     In m [1; 2; 3; 4; 5; 6; 7; 8; 9; 10; 11; 12]%N).
  { intros m. unfold month. destruct month_or_season as [word|];
      [|intros [= <-]; cbn; tauto].
    destruct (existsb _ _).
    - intros [= <-]. unfold CitationFields.parse_season_to_month.
      destruct (Dict.get _ CitationFields.seasons) as [n|] eqn:Hget;
        [|cbn; tauto].
      apply dict_get_In in Hget. cbn in Hget |- *. intuition subst; tauto.
    - unfold CitationFields.parse_month_str. destruct (PyStr.truthy word);
        [|discriminate].
      intros Hget. apply dict_get_In in Hget. cbn in Hget |- *. tauto. }
  destruct month as [m|]; [|discriminate]. cbn. intros [= <-].
  destruct (month_number_shape m (Hmonth m eq_refl)) as (Hmd & Hml & Hmrange).
  eexists _, _, _. split; [reflexivity|].
  destruct (zero_pad_shape 4 year_str Hyd) as [Hy1 Hy2];
    [intros ->; discriminate|lia|].
  split; [exact Hy2|]. split; [exact Hy1|]. split; [exact Hml|].
  split; [exact Hmd|]. split; [exact Hmrange|].
  destruct day_str as [ds|].
  - destruct Hday as (Hds & Hne & Hlen).
    destruct (zero_pad_shape 2 ds Hds Hne Hlen) as [Hd1 Hd2]. now split.
  - split; reflexivity.
Qed.

Lemma citation_date_shape_witness :
  exists year month day,
    "2005 04 22" = year +:+ " " +:+ month +:+ " " +:+ day
    /\ String.length year = 4%nat /\ all_digits year = true
    /\ String.length month = 2%nat /\ all_digits month = true
    /\ (1 <= int_of_digits month <= 12)%N
    /\ String.length day = 2%nat /\ all_digits day = true.
Proof.
  apply (citation_date_shape (Citation (Sample.row "PMC1")) "2005 04 22").
  vm_compute. reflexivity.
Defined.

(** ** The search in the parsed document *)

Lemma pyval_induction (P : pyval -> Prop) :
  P PNone -> (forall s, P (PStr s)) -> (forall l, P (PList l)) ->
  (forall d, Forall (fun kv => P (snd kv)) d -> P (PDict d)) ->
  forall v, P v.
Proof.
  intros Hnone Hstr Hlist Hdict.
  fix IH 1. intros [|s|l|d]; [exact Hnone|apply Hstr|apply Hlist|].
  apply Hdict. induction d as [|[k x] d IHd]; constructor; [apply IH|exact IHd].
Qed.

Lemma search_nested_dict_below (key : string) (items : list (string * pyval)) :
  Forall (fun kv => forall result x,
            snd kv = PDict x ->
            search_nested_dict (snd kv) key = result -> result <> PNone ->
            exists d', nested_dict x d' /\ Dict.get key d' = Some result) items ->
  forall result,
    (fix over (items : list (string * pyval)) {struct items} : pyval :=
       match items with
       | [] => PNone
       | (_, x) :: r =>
           match x with
           | PDict _ =>
               match search_nested_dict x key with
               | PNone => over r
               | result => result
               end
           | _ => over r
           end
       end) items = result ->
    result <> PNone ->
    exists k x d',
      In (k, PDict x) items /\ nested_dict x d' /\ Dict.get key d' = Some result.
Proof.
  induction 1 as [|[k x] items Hx _ IH]; intros result Hover Hresult.
  - now destruct Hresult.
  - match type of IH with
    | forall r, ?f items = r -> _ => set (over := f) in *
    end.
    assert (Hrest : forall r, over items = r -> r <> PNone ->
                      exists k0 x0 d', In (k0, PDict x0) ((k, x) :: items)
                                       /\ nested_dict x0 d'
                                       /\ Dict.get key d' = Some r).
    { intros r Hr Hne. destruct (IH r Hr Hne) as (k0 & x0 & d' & Hin & Hrest).
      exists k0, x0, d'. split; [now right|exact Hrest]. }
    destruct x as [|s|l|d]; try (now apply Hrest).
    cbn [snd] in Hx. pose proof (Hx _ d eq_refl eq_refl) as Hfound. clear Hx.
    destruct (search_nested_dict (PDict d) key) as [|s|l|d0];
      [now apply Hrest| | |];
      subst result;
      destruct (Hfound Hresult) as (d' & Hnested & Hget);
      exists k, d, d'; (split; [now left|]); split; assumption.
Qed.

(** X28: what [search_nested_dict] returns, when it is not [None], is
    stored under the key in the dictionary itself or in one reached from
    it through values that are dictionaries; the value of the dictionary
    itself comes first, and nothing is found inside lists: a dictionary
    without the key whose values are no dictionaries gives [None]. *)
Theorem search_nested_dict_finds_stored_values (d : list (string * pyval))
    (key : string) :
  (forall result,
     search_nested_dict (PDict d) key = result -> result <> PNone ->
     exists d', nested_dict d d' /\ Dict.get key d' = Some result)
  /\ (forall value, Dict.get key d = Some value ->
        search_nested_dict (PDict d) key = value)
  /\ (Dict.get key d = None ->
      (forall k x, In (k, x) d -> forall x', x <> PDict x') ->
      search_nested_dict (PDict d) key = PNone).
Proof.
  split; [|split].
  - revert d. 
    enough (Hall : forall v result x,
              v = PDict x -> search_nested_dict v key = result -> result <> PNone ->
              exists d', nested_dict x d' /\ Dict.get key d' = Some result).
    { intros d result. now apply (Hall (PDict d) result d). }
    induction v as [| | |d IH] using pyval_induction; try discriminate.
    intros result x [= <-] Hsearch Hresult. cbn [search_nested_dict] in Hsearch.
    destruct (Dict.get key d) as [value|] eqn:Hget.
    + subst value. exists d. split; [constructor|exact Hget].
    + destruct (search_nested_dict_below key d IH result Hsearch Hresult)
        as (k & x & d' & Hin & Hnested & Hfound).
      exists d'. split; [|exact Hfound]. now apply (nested_below d k x d').
  - intros value Hget. cbn [search_nested_dict]. now rewrite Hget.
  - intros Hget Hflat. cbn [search_nested_dict]. rewrite Hget.
    clear Hget. induction d as [|[k x] d IH]; [reflexivity|].
    destruct x as [|s|l|x]; try (apply IH; intros k0 x0 Hin; apply (Hflat k0 x0); now right).
    now destruct (Hflat k (PDict x) (or_introl eq_refl) x).
Qed.

Lemma search_nested_dict_finds_stored_values_witness :
  search_nested_dict
    (PDict [("front", PList [PDict [("article-id", PStr "15000001")]])]) "article-id"
  = PNone.
Proof.
  apply (proj2 (proj2 (search_nested_dict_finds_stored_values
                         [("front", PList [PDict [("article-id", PStr "15000001")]])]
                         "article-id"))).
  - reflexivity.
  - intros k x [[= <- <-]|[]] x'. discriminate.
Defined.

(** ** The paragraph of a figure reference *)

Lemma iter_paths_children (here : path) (cs : list element) :
  Forall (fun c => forall here q e',
            In (q, e') (Tree.iter_paths here c) ->
            exists q', q = here ++ q' /\ Tree.get_at c q' = Some e') cs ->
  forall i q e',
    In (q, e')
       ((fix over (i : nat) (l : list element) {struct l} :=
           match l with
           | [] => []
           | c :: r => Tree.iter_paths (here ++ [i]) c ++ over (S i) r
           end) i cs) ->
    exists j c q',
      nth_error cs j = Some c /\ q = here ++ [(i + j)%nat] ++ q'
      /\ Tree.get_at c q' = Some e'.
Proof.
  induction 1 as [|c cs Hc _ IH]; intros i q e' Hin; [destruct Hin|].
  apply List.in_app_or in Hin as [Hin|Hin].
  - destruct (Hc _ _ _ Hin) as (q' & -> & Hget).
    exists 0%nat, c, q'. rewrite Nat.add_0_r, <- List.app_assoc. now split.
  - destruct (IH _ _ _ Hin) as (j & c' & q' & Hnth & -> & Hget).
    exists (S j), c', q'. split; [exact Hnth|]. split; [|exact Hget].
    now rewrite Nat.add_succ_r.
Qed.

(** The paths of [iter_paths] lead to the elements they come with. *)
Lemma iter_paths_get_at (e : element) : forall here q e',
  In (q, e') (Tree.iter_paths here e) ->
  exists q', q = here ++ q' /\ Tree.get_at e q' = Some e'.
Proof.
  induction e as [t a x cs tl IH] using element_induction. intros here q e' Hin.
  cbn [Tree.iter_paths] in Hin. destruct Hin as [[= <- <-]|Hin].
  - exists []. now rewrite List.app_nil_r.
  - destruct (iter_paths_children here cs IH 0%nat q e' Hin)
      as (j & c & q' & Hnth & -> & Hget).
    exists (j :: q'). split; [reflexivity|]. cbn. now rewrite Hnth.
Qed.

Lemma find_nothing {A} (f : A -> bool) (l : list A) :
  (forall x, In x l -> f x = false) -> List.find f l = None.
Proof.
  induction l as [|y l IH]; intros Hl; [reflexivity|]. cbn.
  rewrite (Hl y (or_introl eq_refl)). apply IH. intros x Hx. apply Hl. now right.
Qed.

(** X29: [find_parent] only ever returns the element that has the
    figure reference among its own children, and only when that element
    is a paragraph: a reference inside further markup of a paragraph, or
    anywhere outside a paragraph, has no parent paragraph and so gives no
    context. *)
Theorem find_parent_is_the_direct_parent (root : element) :
  (forall child pp,
     find_parent root child = Some pp ->
     exists i e,
       child = pp ++ [i] /\ Tree.get_at root pp = Some e /\ XML.tag e = "p")
  /\ (forall parent e i,
        Tree.get_at root parent = Some e -> XML.tag e <> "p" ->
        find_parent root (parent ++ [i]) = None).
Proof.
  split.
  - intros child pp. unfold find_parent.
    destruct (List.find _ _) as [[pp' e]|] eqn:Hfind; [|discriminate].
    intros [= <-]. apply List.find_some in Hfind as [Hin Hcond].
    cbn [fst snd] in Hcond. apply andb_prop in Hcond as [Hchild Htag].
    apply List.existsb_exists in Hchild as (i & _ & Hi).
    apply bool_decide_eq_true in Hi. apply String.eqb_eq in Htag.
    destruct (iter_paths_get_at root [] pp' e Hin) as (q' & Hq & Hget).
    cbn in Hq. subst q'. exists i, e. now split.
  - intros parent e i Hget Htag. unfold find_parent.
    rewrite find_nothing; [reflexivity|]. intros [q e'] Hin. cbn [fst snd].
    destruct (iter_paths_get_at root [] q e' Hin) as (q' & Hq & Hget').
    cbn in Hq. subst q'.
    destruct (existsb _ _) eqn:Hchild; [|reflexivity]. cbn [andb].
    apply List.existsb_exists in Hchild as (j & _ & Hj).
    apply bool_decide_eq_true in Hj. apply app_inj_tail in Hj as [-> _].
    rewrite Hget in Hget'. injection Hget' as <-.
    now apply String.eqb_neq.
Qed.

Lemma find_parent_is_the_direct_parent_witness :
  find_parent
    (Element "p" [] "See "
       [Element "italic" [] "" [Sample.xref "F1" "Fig 1" ""] "."] "")
    ([0%nat] ++ [0%nat])
  = None.
Proof.
  apply (proj2 (find_parent_is_the_direct_parent
                  (Element "p" [] "See "
                     [Element "italic" [] "" [Sample.xref "F1" "Fig 1" ""] "."] ""))
           [0%nat] (Element "italic" [] "" [Sample.xref "F1" "Fig 1" ""] ".") 0%nat).
  - reflexivity.
  - discriminate.
Defined.

(** ** A failing item in the middle of a run *)

Section Failure_properties.
Context `{Platform}.
Variable listdir : string -> listing.
Variable out_dir : string.
Variable batch_size : Z.

(** The error log after the turn of an item whose assembly raises. *)
Lemma build_json_step_failure name st row message st1 :
  build_nxml_metadata listdir out_dir ("/pub/pmc/" +:+ File row) row
  = Raised message ->
  build_json_step listdir out_dir batch_size true name st row = Some st1 ->
  exists more,
    error_log (on_disk st1)
    = Some (default [] (error_log (on_disk st)) ++ (row, message) :: more).
Proof.
  intros Hraise. unfold build_json_step, extract_or_default. rewrite Hraise.
  destruct (json_dir (on_disk st) !! json_file_path st) as [content|];
    [|discriminate].
  unfold log_error, log_append.
  destruct (Z.eqb _ _); intros [= <-];
    exists (match content with NotJson e => [(row, e)] | _ => [] end); cbn;
    destruct content; cbn; rewrite <- ?List.app_assoc; reflexivity.
Qed.

(** Every row of a run has its record in a file at the end of the run. *)
Lemma build_json_loop_records log name rows : forall st st',
  (exists n, json_file_path st = shard_name name (Z.of_N n)) ->
  build_json_loop listdir out_dir batch_size log name st rows = Some st' ->
  forall item, In item rows ->
    exists shard earlier later,
      json_dir (on_disk st') !! shard
      = Some (JsonArray (earlier ++ PDict (emitted_record listdir out_dir item)
                                 :: later)).
Proof.
  induction rows as [|row rows IH]; intros st st' Hpath Hloop item Hitem;
    [destruct Hitem|].
  cbn in Hloop.
  destruct (build_json_step listdir out_dir batch_size log name st row)
    as [st1|] eqn:Hstep; [|discriminate].
  pose proof (build_json_step_path listdir out_dir batch_size log name st row st1
                Hpath Hstep) as Hpath1.
  destruct Hitem as [<-|Hitem]; [|exact (IH st1 st' Hpath1 Hloop item Hitem)].
  destruct (build_json_step_writes _ _ _ _ _ _ _ _ Hstep)
    as (content & _ & Hwritten).
  destruct (build_json_loop_keeps listdir out_dir batch_size log name rows st1 st'
              Hpath1 Hloop) as (_ & Hkeep & _).
  destruct (Hkeep _ _ Hwritten) as (content' & Hfile & [->|(added & ->)]).
  - exists (json_file_path st), (load_current_data content), []. exact Hfile.
  - exists (json_file_path st), (load_current_data content), added.
    rewrite Hfile. cbn [load_current_data]. now rewrite <- List.app_assoc.
Qed.

(** C7: when the processing of an item of the manifest raises, the run
    still goes through the whole manifest.  At its end the default record
    written for the failed item is in a shard, as is the record of every
    other item, those after the failure included, and the directory has
    one record more for each row.  With [log] set, as the controller
    calls [build_json], the error log has the manifest row of the failed
    item with the text of the exception, and the completion log has one
    row for each item of the manifest in order, the failed one and those
    after it included.  Without [log] neither log is written. *)
Theorem item_failure_does_not_stop_the_batch log file_list_path
    (before : list article_row) (row : article_row) (after : list article_row)
    (d : disk) (message : string) :
  build_nxml_metadata listdir out_dir ("/pub/pmc/" +:+ File row) row
  = Raised message ->
  exists d',
    build_json listdir out_dir batch_size log file_list_path
      (before ++ row :: after) d = Some d'
    /\ (exists shard earlier later,
          json_dir d' !! shard
          = Some (JsonArray (earlier ++ PDict default_article_dict :: later)))
    /\ (forall item, In item (before ++ row :: after) ->
          exists shard earlier later,
            json_dir d' !! shard
            = Some (JsonArray (earlier
                               ++ PDict (emitted_record listdir out_dir item)
                                    :: later)))
    /\ total_records (json_dir d')
       = (total_records (json_dir d) + length (before ++ row :: after))%nat
    /\ (log = true ->
        (exists earlier later,
           error_log d'
           = Some (default [] (error_log d) ++ earlier ++ (row, message) :: later))
        /\ exists shards,
             length shards = length (before ++ row :: after)
             /\ complete_log d'
                = Some (default [] (complete_log d)
                          ++ combine (Accession_ID <$> (before ++ row :: after))
                               shards))
    /\ (log = false ->
        error_log d' = error_log d /\ complete_log d' = complete_log d).
Proof.
  intros Hraise.
  destruct (build_json_total listdir out_dir batch_size log file_list_path
              (before ++ row :: after) d) as [d' Hrun].
  exists d'. split; [exact Hrun|]. unfold build_json in Hrun.
  set (name := filelist_name_of file_list_path) in *.
  destruct (build_json_loop listdir out_dir batch_size log name
              (build_json_init name d) (before ++ row :: after))
    as [st'|] eqn:Hloop; [|discriminate].
  cbn in Hrun. injection Hrun as <-.
  assert (Hpath : exists n, json_file_path (build_json_init name d)
                            = shard_name name (Z.of_N n)) by now exists 0%N.
  pose proof (build_json_loop_records log name _ _ _ Hpath Hloop) as Hrecords.
  destruct (build_json_loop_keeps listdir out_dir batch_size log name _ _ _ Hpath Hloop)
    as (Htotal & _ & _).
  assert (Hinit : total_records (json_dir (on_disk (build_json_init name d)))
                  = total_records (json_dir d)).
  { unfold build_json_init. cbn.
    destruct (json_dir d !! shard_name name 0) eqn:Hzero; [reflexivity|]. cbn.
    now rewrite total_records_insert_fresh by exact Hzero. }
  destruct (build_json_init_logs name d) as [Hcomplete0 Herror0].
  split.
  { specialize (Hrecords row (List.in_elt row before after)).
    unfold emitted_record in Hrecords. now rewrite Hraise in Hrecords. }
  split; [exact Hrecords|]. split; [now rewrite Htotal, Hinit|].
  pose proof (build_json_loop_logs listdir out_dir batch_size log name _ _ _ Hloop)
    as Hlogs.
  rewrite Hcomplete0, Herror0 in Hlogs.
  split.
  - intros ->. destruct Hlogs as ((shards & Hlen & Hrows) & Hsome & _).
    split.
    + rewrite build_json_loop_app in Hloop.
      destruct (build_json_loop listdir out_dir batch_size true name
                  (build_json_init name d) before) as [st|] eqn:Hbefore;
        [|discriminate].
      cbn [mbind option_bind build_json_loop] in Hloop.
      destruct (build_json_step listdir out_dir batch_size true name st row)
        as [st1|] eqn:Hstep; [|discriminate].
      destruct (build_json_loop_logs listdir out_dir batch_size true name _ _ _ Hbefore)
        as (_ & _ & (earlier & Hearlier)).
      rewrite Herror0 in Hearlier.
      destruct (build_json_step_failure name st row message st1 Hraise Hstep)
        as (more & Hmore).
      destruct (build_json_loop_logs listdir out_dir batch_size true name _ _ _ Hloop)
        as (_ & _ & (extra & Hextra)).
      rewrite Hmore in Hextra. cbn [default from_option id] in Hextra.
      rewrite Hearlier in Hextra.
      exists earlier, (more ++ extra).
      destruct (error_log (on_disk st')) as [errors|];
        cbn [default from_option id] in Hextra.
      * rewrite Hextra. f_equal. now rewrite <- !List.app_assoc.
      * symmetry in Hextra. apply List.app_eq_nil in Hextra as [Hnil _].
        apply List.app_eq_nil in Hnil as [_ Hnil]. discriminate.
    + exists shards. split; [exact Hlen|].
      destruct Hsome as [logged Hlogged]; [right; now destruct before|].
      rewrite Hlogged in Hrows |- *. cbn [default from_option id] in Hrows.
      now rewrite Hrows.
  - intros ->. destruct Hlogs as [-> ->]. now split.
Qed.

End Failure_properties.

Lemma item_failure_does_not_stop_the_batch_witness :
  exists d',
    build_json (H := CPython.platform) Outage.media Sample.out_dir 2 true
      Sample.manifest_path
      ([Sample.row "PMC1"] ++ Sample.row "PMC2" :: [Sample.row "PMC3"])
      Sample.empty_disk = Some d'
    /\ (exists earlier later,
          error_log d'
          = Some (default [] (error_log Sample.empty_disk) ++ earlier
                    ++ (Sample.row "PMC2", "[Errno 2] No such file or directory")
                         :: later))
    /\ (default [] (complete_log d')).*1 = ["PMC1"; "PMC2"; "PMC3"]
    /\ Sample.records_in d' (shard_name Sample.filelist_name 0) = Some 2%nat
    /\ Sample.records_in d' (shard_name Sample.filelist_name 1) = Some 1%nat.
Proof.
  destruct (item_failure_does_not_stop_the_batch (H := CPython.platform)
              Outage.media Sample.out_dir 2 true Sample.manifest_path
              [Sample.row "PMC1"] (Sample.row "PMC2") [Sample.row "PMC3"]
              Sample.empty_disk "[Errno 2] No such file or directory" eq_refl)
    as (d' & Hrun & _ & _ & _ & Hlogged & _).
  exists d'. split; [exact Hrun|].
  split; [exact (proj1 (Hlogged eq_refl))|].
  assert (Hresult : (fun d => ((default [] (complete_log d)).*1,
                               Sample.records_in d (shard_name Sample.filelist_name 0),
                               Sample.records_in d (shard_name Sample.filelist_name 1)))
                    <$> build_json (H := CPython.platform) Outage.media Sample.out_dir
                          2 true Sample.manifest_path
                          ([Sample.row "PMC1"] ++ Sample.row "PMC2" :: [Sample.row "PMC3"])
                          Sample.empty_disk
                    = Some (["PMC1"; "PMC2"; "PMC3"], Some 2%nat, Some 1%nat))
    by (vm_compute; reflexivity).
  rewrite Hrun in Hresult. cbn [fmap option_fmap option_map] in Hresult.
  injection Hresult as -> -> ->. repeat split.
Defined.
